(** * pgweb: community authentication hand-off and documentation URLs

    A shallow embedding of the request handlers of
    [pgweb/account/views.py] (community authentication) and
    [pgweb/docs/views.py] (documentation pages), together with the
    pieces of the Python standard library they lean on
    ([base64.b64encode], [urllib.parse.quote_plus], [urllib.parse.urlencode]).

    Conventions.
    - A Python [str] is represented by its UTF-8 byte sequence and a
      Python [bytes] by its bytes; both are Rocq [string]s (sequences of
      8-bit characters).  [str.encode('utf-8')] is therefore the identity.
    - Integers are [Z]; points in time are [Z] microseconds.
    - The table of last logins, keyed by the pair (user, site), is a
      finite map ([gmap]); the other tables are lists of rows.
    - A view runs in a small state-and-exception monad over the [World]
      (database tables, the operating system's random source, the log). *)

From Stdlib Require Import ZArith NArith List String Ascii Bool Lia.
From Stdlib Require Import Sorting.Sorted Sorting.Permutation.
From stdpp Require Import base option gmap.

Import ListNotations.
#[local] Set Warnings "-register-all".
Local Open Scope string_scope.
Local Open Scope Z_scope.

(** ** Strings *)

Module Str.

Infix "^^" := String.append (at level 60, right associativity) : string_scope.

Fixpoint forallb (p : ascii -> bool) (s : string) : bool :=
  match s with
  | EmptyString => true
  | String c r => p c && forallb p r
  end.

Fixpoint existsb (p : ascii -> bool) (s : string) : bool :=
  match s with
  | EmptyString => false
  | String c r => p c || existsb p r
  end.

(** [c in s] for a one-character [c]. *)
Definition mem (c : ascii) (s : string) : bool := existsb (Ascii.eqb c) s.

Fixpoint count (c : ascii) (s : string) : nat :=
  match s with
  | EmptyString => O
  | String a r => ((if Ascii.eqb a c then 1 else 0) + count c r)%nat
  end.

(** [s.startswith(p)] *)
Definition startswith (s p : string) : bool := String.prefix p s.

(** [s.replace(c, t)] for a one-character [c]. *)
Fixpoint replace (c : ascii) (t : string) (s : string) : string :=
  match s with
  | EmptyString => EmptyString
  | String a r => (if Ascii.eqb a c then t else String a EmptyString) ^^ replace c t r
  end.

(** [c * n] *)
Fixpoint times (c : ascii) (n : nat) : string :=
  match n with
  | O => EmptyString
  | S k => String c (times c k)
  end.

(** [sep.join(l)] *)
Fixpoint join (sep : string) (l : list string) : string :=
  match l with
  | [] => EmptyString
  | [x] => x
  | x :: r => x ^^ sep ^^ join sep r
  end.

Definition is_digit (c : ascii) : bool :=
  let n := N_of_ascii c in ((48 <=? n) && (n <=? 57))%N.

Definition is_upper (c : ascii) : bool :=
  let n := N_of_ascii c in ((65 <=? n) && (n <=? 90))%N.

Definition is_lower (c : ascii) : bool :=
  let n := N_of_ascii c in ((97 <=? n) && (n <=? 122))%N.

(** [str(n)] for a natural number, most significant digit first.  The
    fuel bounds the number of digits. *)
Fixpoint digits_of (fuel : nat) (n : N) (acc : string) : string :=
  match fuel with
  | O => acc
  | S f =>
      let acc' := String (ascii_of_N (48 + n mod 10)) acc in
      if (n <? 10)%N then acc' else digits_of f (n / 10)%N acc'
  end.

(** [str(z)] / ["%s" % z] for an integer. *)
Definition of_Z (z : Z) : string :=
  let n := Z.abs_N z in
  let body := digits_of (S (N.to_nat (N.log2 n))) n EmptyString in
  if z <? 0 then String "-" body else body.

(** The value of a non-empty string of ASCII digits. *)
Fixpoint digits_value (s : string) (acc : N) : option N :=
  match s with
  | EmptyString => Some acc
  | String c r =>
      if is_digit c then digits_value r (10 * acc + (N_of_ascii c - 48))%N else None
  end.

Definition to_N (s : string) : option N :=
  match s with
  | EmptyString => None
  | _ => digits_value s 0%N
  end.

End Str.

Import Str.

(** ** [base64.b64encode] *)

Module Base64.

(** The standard alphabet, by 6-bit value. *)
Definition std_char (n : N) : ascii :=
  (if n <? 26 then ascii_of_N (65 + n)
   else if n <? 52 then ascii_of_N (97 + (n - 26))
   else if n <? 62 then ascii_of_N (48 + (n - 52))
   else if n =? 62 then "+"%char
   else "/"%char)%N.

(** [binascii.b2a_base64(s, newline=False)]: three input bytes give four
    characters; a final group of one or two bytes is completed with
    ['='] characters. *)
Fixpoint b2a_base64 (s : string) : string :=
  match s with
  | EmptyString => EmptyString
  | String a EmptyString =>
      let x := N_of_ascii a in
      String (std_char (x / 4)) (String (std_char (x mod 4 * 16)) "==")
  | String a (String b EmptyString) =>
      let x := N_of_ascii a in
      let y := N_of_ascii b in
      String (std_char (x / 4))
        (String (std_char (x mod 4 * 16 + y / 16))
           (String (std_char (y mod 16 * 4)) "="))
  | String a (String b (String c r)) =>
      let x := N_of_ascii a in
      let y := N_of_ascii b in
      let z := N_of_ascii c in
      String (std_char (x / 4))
        (String (std_char (x mod 4 * 16 + y / 16))
           (String (std_char (y mod 16 * 4 + z / 64))
              (String (std_char (z mod 64)) (b2a_base64 r))))
  end%N.

(** [encoded.translate(bytes.maketrans(b'+/', altchars))] for a
    two-character [altchars]. *)
Definition translate_char (altchars : ascii * ascii) (c : ascii) : ascii :=
  if Ascii.eqb c "+" then fst altchars
  else if Ascii.eqb c "/" then snd altchars
  else c.

Fixpoint translate (altchars : ascii * ascii) (s : string) : string :=
  match s with
  | EmptyString => EmptyString
  | String c r => String (translate_char altchars c) (translate altchars r)
  end.

(** [base64.b64encode(s, altchars)] *)
Definition b64encode (s : string) (altchars : option (ascii * ascii)) : string :=
  let encoded := b2a_base64 s in
  match altchars with
  | Some alt => translate alt encoded
  | None => encoded
  end.

(** The alternative characters [b"-_"] used throughout the views. *)
Definition dash_underscore : option (ascii * ascii) := Some ("-"%char, "_"%char).

(** Characters of the URL-safe alphabet (without the padding character). *)
Definition urlsafe_char (c : ascii) : bool :=
  is_upper c || is_lower c || is_digit c || Ascii.eqb c "-" || Ascii.eqb c "_".

End Base64.

(** ** [urllib.parse] *)

Module Urllib.

(** [_ALWAYS_SAFE]: letters, digits and [_.-~]. *)
Definition always_safe (c : ascii) : bool :=
  is_upper c || is_lower c || is_digit c || mem c "_.-~".

Definition hex_digit (n : N) : ascii :=
  (if n <? 10 then ascii_of_N (48 + n) else ascii_of_N (65 + (n - 10)))%N.

(** ['%{:02X}'.format(c)] *)
Definition percent (c : ascii) : string :=
  let n := N_of_ascii c in
  String "%" (String (hex_digit (n / 16)) (String (hex_digit (n mod 16)) EmptyString)).

(** [quote_from_bytes(bs, safe)] *)
Fixpoint quote_from_bytes (bs : string) (safe : string) : string :=
  match bs with
  | EmptyString => EmptyString
  | String c r =>
      (if always_safe c || mem c safe then String c EmptyString else percent c)
        ^^ quote_from_bytes r safe
  end.

(** [quote(string, safe)] *)
Definition quote (s safe : string) : string := quote_from_bytes s safe.

(** [quote_plus(string, safe)]: blanks are kept by [quote] and then turned
    into ['+']. *)
Definition quote_plus (s safe : string) : string :=
  if mem " " s then replace " " "+" (quote s (safe ^^ " ")) else quote s safe.

(** [urlencode(query)] for a dict given by its items in insertion order. *)
Definition urlencode (query : list (string * string)) : string :=
  join "&" (map (fun kv => quote_plus (fst kv) "" ^^ "=" ^^ quote_plus (snd kv) "") query).

End Urllib.

Import Base64 Urllib.

(** ** [decimal.Decimal], for the finite numerals the documentation views meet *)

Module Decimal.

(** The number [unscaled / 10 ^ scale]; [Decimal("10.0")] keeps its
    trailing zero as [{| unscaled := 100; scale := 1 |}]. *)
Record t := mk { unscaled : Z; scale : nat }.

Definition of_Z (z : Z) : t := mk z 0.

Fixpoint split_dot (s : string) : string * option string :=
  match s with
  | EmptyString => (EmptyString, None)
  | String c r =>
      if Ascii.eqb c "." then (EmptyString, Some r)
      else let '(a, b) := split_dot r in (String c a, b)
  end.

(** [Decimal(s)] for a plain numeral: an optional sign, digits, and an
    optional point followed by digits (at least one digit in all).  The
    constructor's exponent, infinity and NaN forms are not numerals of
    this shape and are reported as [None], like a malformed string. *)
Definition of_string (s : string) : option t :=
  let '(negative, body) :=
    match s with
    | String "-" r => (true, r)
    | String "+" r => (false, r)
    | _ => (false, s)
    end in
  let '(ip, fp) := split_dot body in
  let fp := match fp with Some f => f | None => EmptyString end in
  if String.eqb ip "" && String.eqb fp "" then None
  else
    match digits_value ip 0%N, digits_value fp 0%N with
    | Some i, Some f =>
        let m := Z.of_N i * 10 ^ Z.of_nat (String.length fp) + Z.of_N f in
        Some (mk (if negative then - m else m) (String.length fp))
    | _, _ => None
    end.

Definition compare (a b : t) : comparison :=
  (unscaled a * 10 ^ Z.of_nat (scale b)) ?= (unscaled b * 10 ^ Z.of_nat (scale a)).

Definition eqb (a b : t) : bool := match compare a b with Eq => true | _ => false end.
Definition ltb (a b : t) : bool := match compare a b with Lt => true | _ => false end.
Definition leb (a b : t) : bool := match compare a b with Gt => false | _ => true end.
Definition gtb (a b : t) : bool := ltb b a.
Definition geb (a b : t) : bool := leb b a.

(** [int(d)]: truncation towards zero. *)
Definition to_int (a : t) : Z := Z.quot (unscaled a) (10 ^ Z.of_nat (scale a)).

End Decimal.

(** ** Data model *)

(** The model classes live in [models.py] files outside the sources read
    here; the records carry the fields the views use. *)

Record Organisation := {
  org_id : Z;
  orgname : string;
  require_consent : bool;
}.

Record CommunityAuthSite := {
  site_id : Z;
  site_name : string;
  redirecturl : string;
  cryptkey : string;
  org : Organisation;
  cooloff_hours : Z;
}.

Record User := {
  user_id : Z;
  username : string;
  first_name : string;
  last_name : string;
  email : string;
  date_joined : Z;
  last_login : option Z;
  is_active : bool;
}.

Record SecondaryEmail := {
  se_user : Z;
  se_email : string;
  confirmed : bool;
}.

Record CommunityAuthConsent := {
  consent_user : Z;
  consent_org : Z;
  consentgiven : Z;
}.

Record UserProfile := {
  profile_user : User;
  sshkey : string;
  lastmodified : Z;
}.

Record Version := {
  tree : Decimal.t;
  current : bool;
  docsloaded : option Z;
  docsgit : option string;
}.

(** Everything a view can read or change.  [lastlogin_table] is the table
    [account_communityauthlastlogin], whose primary key is the pair
    [(user_id, site_id)] and whose row is [(lastlogin, logincount)].
    [random_source] is the byte stream of the operating system's random
    generator and [random_pos] the number of bytes drawn from it so far. *)
Record World := {
  site_table : list CommunityAuthSite;
  user_table : list User;
  secondaryemail_table : list SecondaryEmail;
  consent_table : list CommunityAuthConsent;
  lastlogin_table : gmap (Z * Z) (Z * Z);
  userprofile_table : list UserProfile;
  version_table : list Version;
  random_source : nat -> ascii;
  random_pos : nat;
  log : list string;
}.

(** The clocks a request reads: [int(time.time())], [datetime.now()] and
    the database's [CURRENT_TIMESTAMP]. *)
Record Clock := {
  time_time : Z;
  datetime_now : Z;
  CURRENT_TIMESTAMP : Z;
}.

(** [request.GET] and [request.POST]: the pairs in the order received;
    indexing gives the last value of a key. *)
Definition QueryDict := list (string * string).

Fixpoint lookup_last (k : string) (q : QueryDict) : option string :=
  match q with
  | [] => None
  | (k', v) :: r =>
      match lookup_last k r with
      | Some v' => Some v'
      | None => if String.eqb k' k then Some v else None
      end
  end.

Definition contains (k : string) (q : QueryDict) : bool :=
  match lookup_last k q with Some _ => true | None => false end.

Record HttpRequest := {
  method : string;
  GET : QueryDict;
  POST : QueryDict;
  user : option User;   (* [None]: the anonymous user, not authenticated *)
}.

Inductive Form :=
| CommunityAuthConsentForm (orgname : string) (data : option QueryDict)
    (initial : list (string * string)).

Inductive ContextValue :=
| CtxStr (s : string)
| CtxSite (site : CommunityAuthSite)
| CtxForm (f : Form)
| CtxSettings (items : list (string * string)).

(** The answers of the views.  [render_pgweb] stands for the page
    rendered from a template and its context, and [LoginView] for the
    answer of Django's login view called with the given template and
    extra context; how these are rendered or processed is outside the
    views.  [LoginRequired] is the answer of the [login_required]
    decorator to an anonymous request. *)
Inductive HttpResponse :=
| HttpResponseBody (content : string)
| HttpResponseRedirect (url : string)
| HttpResponsePermanentRedirect (url : string)
| HttpResponseNotFound (msg xkey : string)
| render_pgweb (section template : string) (context : list (string * ContextValue))
| LoginView (template_name : string) (extra_context : list (string * ContextValue))
| LoginRequired.

Inductive json :=
| JString (s : string)
| JList (l : list json)
| JDict (items : list (string * json)).

(** ** Exceptions and the view monad *)

Inductive Exception :=
| Http404 (msg : string)
| ValueError
| IndexError
| UnicodeEncodeError
| binascii_Error
| InvalidOperation
| DoesNotExist
| MultipleObjectsReturned.

Inductive Result (A : Type) :=
| Ok (a : A)
| Raise (e : Exception).
Arguments Ok {A} a.
Arguments Raise {A} e.

(** A computation reads and changes the world and either returns or
    raises; what it changed before raising stays changed. *)
Definition M (A : Type) : Type := World -> Result A * World.

#[global] Instance M_ret : MRet M := fun A a w => (Ok a, w).

#[global] Instance M_bind : MBind M := fun A B f m w =>
  match m w with
  | (Ok a, w') => f a w'
  | (Raise e, w') => (Raise e, w')
  end.

Definition raise {A} (e : Exception) : M A := fun w => (Raise e, w).
Definition lift {A} (r : Result A) : M A := fun w => (r, w).
Definition get : M World := fun w => (Ok w, w).
Definition put (w' : World) : M unit := fun _ => (Ok tt, w').

Notation "m1 ;; m2" := (mbind (fun _ => m2) m1)
  (at level 100, m2 at level 200, right associativity, only parsing).

(** ** What the views call outside this repository's sources *)

(** [Cryptodome.Cipher.AES]: [AES_new key iv] is
    [AES.new(key, AES.MODE_CBC, iv)] and [encrypt] the cipher object's
    method; both raise [ValueError] on lengths they do not accept. *)
Class Cryptodome := {
  cipher : Type;
  AES_new : string -> string -> Result cipher;
  encrypt : cipher -> string -> Result string;
}.

(** Python library functions taken as given: [base64.b64decode],
    [json.dumps] and [datetime.fromtimestamp]. *)
Class PyLib := {
  b64decode : string -> Result string;
  json_dumps : json -> string;
  fromtimestamp : Z -> Result Z;
}.

(** How the database compares text: the collation behind
    [order_by('email')], a total preorder, and the [icontains] lookup. *)
Class Collation := {
  text_leb : string -> string -> bool;
  text_leb_total : forall a b, text_leb a b = true \/ text_leb b a = true;
  icontains : string -> string -> bool;
}.

(** Project code outside the sources read here: the list made of
    [sorted(settings.OAUTH.items())] and the validation of the consent
    form, which gives [cleaned_data['next']] when the form is valid. *)
Class Project := {
  oauth_providers : list (string * string);
  consent_form_clean : string -> QueryDict -> option string;
}.

Section Views.

Context {aes : Cryptodome} {py : PyLib} {collation : Collation} {project : Project}.

(** *** Helpers standing for library calls *)

(** [s.encode('ascii')] *)
Definition encode_ascii (s : string) : Result string :=
  if forallb (fun c => (N_of_ascii c <? 128)%N) s then Ok s else Raise UnicodeEncodeError.

(** [Random.new().read(n)]: the next [n] bytes of the random source. *)
Definition Random_read (n : nat) : M string := fun w =>
  (Ok (string_of_list_ascii (map (random_source w) (seq (random_pos w) n))),
   {| site_table := site_table w; user_table := user_table w;
      secondaryemail_table := secondaryemail_table w;
      consent_table := consent_table w; lastlogin_table := lastlogin_table w;
      userprofile_table := userprofile_table w; version_table := version_table w;
      random_source := random_source w; random_pos := (random_pos w + n)%nat;
      log := log w |}).

(** [log.warning(msg)] *)
Definition log_warning (msg : string) : M unit := fun w =>
  (Ok tt,
   {| site_table := site_table w; user_table := user_table w;
      secondaryemail_table := secondaryemail_table w;
      consent_table := consent_table w; lastlogin_table := lastlogin_table w;
      userprofile_table := userprofile_table w; version_table := version_table w;
      random_source := random_source w; random_pos := random_pos w;
      log := log w ++ [msg] |}).

Definition set_lastlogin_table (t : gmap (Z * Z) (Z * Z)) (w : World) : World :=
  {| site_table := site_table w; user_table := user_table w;
     secondaryemail_table := secondaryemail_table w;
     consent_table := consent_table w; lastlogin_table := t;
     userprofile_table := userprofile_table w; version_table := version_table w;
     random_source := random_source w; random_pos := random_pos w;
     log := log w |}.

Definition set_consent_table (t : list CommunityAuthConsent) (w : World) : World :=
  {| site_table := site_table w; user_table := user_table w;
     secondaryemail_table := secondaryemail_table w;
     consent_table := t; lastlogin_table := lastlogin_table w;
     userprofile_table := userprofile_table w; version_table := version_table w;
     random_source := random_source w; random_pos := random_pos w;
     log := log w |}.

(** [timedelta(hours=h)] in microseconds (for the hours a site can
    reasonably be configured with: the bound of [timedelta] on the number
    of days is not modelled). *)
Definition timedelta_hours (h : Z) : Z := h * 3600 * 1000000.

(** Truth value of an optional string: [None] and [''] are false. *)
Definition truthy (o : option string) : bool :=
  match o with
  | Some s => negb (String.eqb s "")
  | None => false
  end.

Definition opt_str (o : option string) : string :=
  match o with Some s => s | None => EmptyString end.

(** [get_object_or_404(CommunityAuthSite, pk=siteid)].  The route gives
    [siteid] as a string of digits; the primary key is unique, so the
    first row found is the row. *)
Definition get_site_or_404 (siteid : string) : M CommunityAuthSite :=
  w ← get;
  match to_N siteid with
  | None => raise ValueError
  | Some n =>
      match List.filter (fun s => site_id s =? Z.of_N n) (site_table w) with
      | s :: _ => mret s
      | [] => raise (Http404 "No CommunityAuthSite matches the given query.")
      end
  end.

(** [CommunityAuthConsent.objects.filter(org=o, user=u)] *)
Definition consents_of (o : Organisation) (u : User) (w : World) : list CommunityAuthConsent :=
  List.filter (fun c => (consent_org c =? org_id o) && (consent_user c =? user_id u))
    (consent_table w).

(** The single statement
    [INSERT INTO account_communityauthlastlogin (user_id, site_id, lastlogin, logincount)
     VALUES (%(userid)s, %(siteid)s, CURRENT_TIMESTAMP, 1)
     ON CONFLICT (user_id, site_id) DO UPDATE
     SET lastlogin=CURRENT_TIMESTAMP, logincount=account_communityauthlastlogin.logincount+1]. *)
Definition upsert_lastlogin (userid siteid now : Z) : M unit := fun w =>
  (Ok tt,
   set_lastlogin_table
     (match lastlogin_table w !! (userid, siteid) with
      | None => <[(userid, siteid) := (now, 1)]> (lastlogin_table w)
      | Some (_, logincount) => <[(userid, siteid) := (now, logincount + 1)]> (lastlogin_table w)
      end) w).

(** Insertion into a list ordered by the collation, and the sort it
    gives: what [order_by('email')] returns. *)
Fixpoint insert_sorted (x : string) (l : list string) : list string :=
  match l with
  | [] => [x]
  | y :: r => if text_leb x y then x :: l else y :: insert_sorted x r
  end.

Fixpoint order_by (l : list string) : list string :=
  match l with
  | [] => []
  | x :: r => insert_sorted x (order_by r)
  end.

(** [SecondaryEmail.objects.filter(user=u, confirmed=True)], addresses only. *)
Definition confirmed_emails (u : User) (w : World) : list string :=
  map se_email
    (List.filter (fun a => (se_user a =? user_id u) && confirmed a) (secondaryemail_table w)).

(** The sanitised request parameters of [communityauth]. *)
Definition param_su (request : HttpRequest) : option string :=
  match lookup_last "su" (GET request) with
  | Some su => if startswith su "/" then Some su else None
  | None => None
  end.

Definition param_d (request : HttpRequest) : option string :=
  match lookup_last "d" (GET request) with
  | Some d => if String.eqb d (quote_plus d "=$") then Some d else None
  | None => None
  end.

Definition urldata_of (d su : option string) : string :=
  if truthy d then "?d=" ^^ opt_str d
  else if truthy su then "?su=" ^^ opt_str su
  else "".

(** The record handed to the partner: the dict [info] in insertion order,
    URL-encoded behind the timestamp. *)
Definition info_of (u : User) (se : list string) (d su : option string)
  : list (string * string) :=
  [("u", username u); ("f", first_name u); ("l", last_name u); ("e", email u);
   ("se", join "," se)]
  ++ (if truthy d then [("d", opt_str d)]
      else if truthy su then [("su", opt_str su)]
      else []).

Definition serialize (clock : Clock) (info : list (string * string)) : string :=
  "t=" ^^ of_Z (time_time clock) ^^ "&" ^^ urlencode info.

(** *** [communityauth] *)

Definition communityauth (clock : Clock) (request : HttpRequest) (siteid : string)
  : M HttpResponse :=
  (* Get whatever site the user is trying to log in to. *)
  site ← get_site_or_404 siteid;
  (* "suburl" - old style way of passing parameters *)
  let su := param_su request in
  (* "data" - new style way of passing parameter *)
  let d := param_d request in
  let urldata := urldata_of d su in
  match user request with
  | None =>
      let nexturl :=
        if String.eqb (method request) "POST" && contains "next" (POST request)
           && contains "this_is_the_login_form" (POST request)
        then opt_str (lookup_last "next" (POST request))
        else "/account/auth/" ^^ siteid ^^ "/" ^^ urldata in
      mret (LoginView "account/login.html"
              [("sitename", CtxStr (site_name site)); ("next", CtxStr nexturl);
               ("oauth_providers", CtxSettings oauth_providers)])
  | Some u =>
      if String.eqb (first_name u) "" || String.eqb (last_name u) ""
         || String.eqb (email u) ""
      then mret (render_pgweb "account" "account/communityauth_noinfo.html" [])
      else if (cooloff_hours site >? 0)
              && (datetime_now clock - date_joined u <? timedelta_hours (cooloff_hours site))
      then
        log_warning ("User " ^^ username u ^^ " tried to log in to " ^^ site_name site
                     ^^ " before cooloff period ended.");;
        mret (render_pgweb "account" "account/communityauth_cooloff.html"
                [("site", CtxSite site)])
      else
        w ← get;
        if require_consent (org site)
           && negb (match consents_of (org site) u w with [] => false | _ => true end)
        then
          mret (HttpResponseRedirect
                  ("/account/auth/" ^^ siteid ^^ "/consent/?"
                   ^^ urlencode [("next", "/account/auth/" ^^ siteid ^^ "/" ^^ urldata)]))
        else
          (* Record the login as the last login to this site. *)
          upsert_lastlogin (user_id u) (site_id site) (CURRENT_TIMESTAMP clock);;
          w ← get;
          let info := info_of u (order_by (confirmed_emails u w)) d su in
          (* Make sure the timestamp is always first. *)
          let s := serialize clock info in
          (* Encrypt it with the shared key (and IV!) *)
          iv ← Random_read 16;
          key ← lift (b64decode (cryptkey site));
          encryptor ← lift (AES_new key iv);
          plain ← lift (encode_ascii s);
          ciphertext ← lift (encrypt encryptor
                               (plain ^^ times " " (16 - String.length s mod 16)));
          (* Generate redirect *)
          mret (HttpResponseRedirect
                  (redirecturl site ^^ "?i=" ^^ b64encode iv dash_underscore
                   ^^ "&d=" ^^ b64encode ciphertext dash_underscore))
  end.

(** *** [communityauth_consent] *)

(** Modelled from the spec: the decorator [login_required] of
    [pgweb.util.decorators] is not among the sources; the broker
    "requires an authenticated session" and otherwise answers with its
    login step, leaving the world as it is. *)
Definition login_required (view : User -> M HttpResponse) (request : HttpRequest)
  : M HttpResponse :=
  match user request with
  | Some u => view u
  | None => mret LoginRequired
  end.

(** [CommunityAuthConsent.objects.get_or_create(user=u, org=o,
    defaults={'consentgiven': now})] *)
Definition get_or_create_consent (u : User) (o : Organisation) (now : Z)
  : M (CommunityAuthConsent * bool) :=
  w ← get;
  match consents_of o u w with
  | [] =>
      let c := {| consent_user := user_id u; consent_org := org_id o;
                  consentgiven := now |} in
      put (set_consent_table (consent_table w ++ [c]) w);;
      mret (c, true)
  | [c] => mret (c, false)
  | _ :: _ :: _ => raise MultipleObjectsReturned
  end.

Definition consent_page (o : Organisation) (form : Form) : HttpResponse :=
  render_pgweb "account" "base/form.html"
    [("form", CtxForm form);
     ("operation", CtxStr "Authentication");
     ("form_intro",
      CtxStr ("The site you are about to log into is run by " ^^ orgname o
              ^^ ". If you choose to proceed with this authentication, your name and email address will be shared with <em>"
              ^^ orgname o
              ^^ "</em>.</p><p>Please confirm that you consent to this sharing."));
     ("savebutton", CtxStr "Proceed with login")].

Definition communityauth_consent (clock : Clock) (request : HttpRequest) (siteid : string)
  : M HttpResponse :=
  login_required (fun u =>
    site ← get_site_or_404 siteid;
    let o := org site in
    if String.eqb (method request) "POST" then
      let form := CommunityAuthConsentForm (orgname o) (Some (POST request)) [] in
      match consent_form_clean (orgname o) (POST request) with
      | Some next =>
          get_or_create_consent u o (datetime_now clock);;
          mret (HttpResponseRedirect next)
      | None => mret (consent_page o form)
      end
    else
      let form :=
        CommunityAuthConsentForm (orgname o) None
          [("next", opt_str (lookup_last "next" (GET request)))] in
      mret (consent_page o form)) request.

(** *** [_encrypt_site_response] *)

Definition _encrypt_site_response (site : CommunityAuthSite) (s : string) : M string :=
  (* Encrypt it with the shared key (and IV!) *)
  iv ← Random_read 16;
  key ← lift (b64decode (cryptkey site));
  encryptor ← lift (AES_new key iv);
  plain ← lift (encode_ascii s);
  ciphertext ← lift (encrypt encryptor (plain ^^ times " " (16 - String.length s mod 16)));
  (* Base64-encode the response, just to be consistent *)
  mret (b64encode iv dash_underscore ^^ "&" ^^ b64encode ciphertext dash_underscore).

(** *** [communityauth_search] *)

(** A non-empty request parameter: ['k' in request.GET and request.GET['k']]. *)
Definition given (k : string) (request : HttpRequest) : bool :=
  truthy (lookup_last k (GET request)).

Definition search_filter (request : HttpRequest) : Result (User -> bool) :=
  let arg k := opt_str (lookup_last k (GET request)) in
  if given "s" request then
    (* General search term, match both name and email *)
    Ok (fun u => is_active u
                 && (icontains (email u) (arg "s") || icontains (first_name u) (arg "s")
                     || icontains (last_name u) (arg "s")))
  else if given "e" request then
    Ok (fun u => is_active u && icontains (email u) (arg "e"))
  else if given "n" request then
    Ok (fun u => is_active u
                 && (icontains (first_name u) (arg "n") || icontains (last_name u) (arg "n")))
  else if given "u" request then
    Ok (fun u => is_active u && String.eqb (username u) (arg "u"))
  else Raise (Http404 "No search term specified").

Definition user_json (w : World) (u : User) : json :=
  JDict [("u", JString (username u)); ("e", JString (email u));
         ("f", JString (first_name u)); ("l", JString (last_name u));
         ("se", JList (map JString (confirmed_emails u w)))].

Definition communityauth_search (request : HttpRequest) (siteid : string)
  : M HttpResponse :=
  site ← get_site_or_404 siteid;
  q ← lift (search_filter request);
  w ← get;
  let users := List.filter q (user_table w) in
  let j := json_dumps (JList (map (user_json w) users)) in
  body ← _encrypt_site_response site j;
  mret (HttpResponseBody body).

(** *** [communityauth_getkeys] *)

(** [int(s)] for a string of digits with an optional sign. *)
Definition int_of_string (s : string) : Result Z :=
  let '(negative, body) :=
    match s with
    | String "-" r => (true, r)
    | String "+" r => (false, r)
    | _ => (false, s)
    end in
  match to_N body with
  | Some n => Ok (if negative then - Z.of_N n else Z.of_N n)
  | None => Raise ValueError
  end.

Definition key_json (k : UserProfile) : json :=
  JDict [("u", JString (username (profile_user k)));
         ("s", JString (replace "013" (String "010" EmptyString) (sshkey k)))].

Definition communityauth_getkeys (request : HttpRequest) (siteid : string)
    (since : option string) : M HttpResponse :=
  site ← get_site_or_404 siteid;
  w ← get;
  keys ←
    (if truthy since then
       ts ← lift (int_of_string (replace "/" "" (opt_str since)));
       t ← lift (fromtimestamp ts);
       mret (List.filter
               (fun k => (t <=? lastmodified k) && negb (String.eqb (sshkey k) ""))
               (userprofile_table w))
     else
       mret (List.filter (fun k => negb (String.eqb (sshkey k) "")) (userprofile_table w)));
  let j := json_dumps (JList (map key_json keys)) in
  body ← _encrypt_site_response site j;
  mret (HttpResponseBody body).

End Views.

(** ** Documentation pages: [pgweb/docs/views.py] *)

(** What [docpage] does once the URL is canonical (the release-note
    redirection, the page lookup and the rendering) is kept as one
    operation over the values [docpage] has computed by then. *)
Class DocsBackend := {
  docpage_serve :
    HttpRequest -> forall (version filename : string) (ver : Decimal.t)
      (extension indexname : string) (loaddate : option Z) (loadgit : option string),
      M HttpResponse;
}.

Section Docs.

Context {backend : DocsBackend}.

(** [s.find(c)] for a one-character [c]: the first index, or [-1]. *)
Fixpoint find (c : ascii) (s : string) : Z :=
  match s with
  | EmptyString => -1
  | String a r =>
      if Ascii.eqb a c then 0
      else let i := find c r in if i <? 0 then -1 else i + 1
  end.

Definition _versioned_404 (msg version : string) : HttpResponse :=
  HttpResponseNotFound msg ("pgdocs_" ^^ version).

(** [Version.objects.filter(current=True)[0]] *)
Definition current_version : M Version :=
  w ← get;
  match List.filter current (version_table w) with
  | v :: _ => mret v
  | [] => raise IndexError
  end.

(** [Version.objects.get(tree=t)] *)
Definition get_version (t : Decimal.t) : M Version :=
  w ← get;
  match List.filter (fun v => Decimal.eqb (tree v) t) (version_table w) with
  | [v] => mret v
  | [] => raise DoesNotExist
  | _ :: _ :: _ => raise MultipleObjectsReturned
  end.

(** The version a request names: either an early answer or the numeric
    version with the load date and commit shown for "devel". *)
Definition resolve_version (version : string)
  : M (HttpResponse + Decimal.t * option Z * option string) :=
  if String.eqb version "current" then
    v ← current_version;
    mret (inr (tree v, None, None))
  else if String.eqb version "devel" then
    verobj ← get_version (Decimal.of_Z 0);
    mret (inr (Decimal.of_Z 0, docsloaded verobj, docsgit verobj))
  else
    match Decimal.of_string version with
    | None => raise InvalidOperation
    | Some ver =>
        if Decimal.eqb ver (Decimal.of_Z 0)
        then mret (inl (_versioned_404 "Version not found" "all"))
        else mret (inr (ver, None, None))
    end.

Definition docpage (request : HttpRequest) (version filename : string) : M HttpResponse :=
  r ← resolve_version version;
  match r with
  | inl early => mret early
  | inr (ver, loaddate, loadgit) =>
      let old := Decimal.ltb ver (Decimal.mk 71 1) && Decimal.gtb ver (Decimal.of_Z 0) in
      let extension := if old then "htm" else "html" in
      let indexname :=
        if old then "postgres.htm"
        else if Decimal.eqb ver (Decimal.mk 71 1) then "postgres.html"
        else "index.html" in
      if Decimal.geb ver (Decimal.of_Z 10) && (find "." version >? -1) then
        (* Version 10 and up, but specified as 10.0 / 11.0 etc, so redirect
           back without the decimal. *)
        mret (HttpResponsePermanentRedirect
                ("/docs/" ^^ of_Z (Decimal.to_int ver) ^^ "/" ^^ filename ^^ ".html"))
      else
        docpage_serve request version filename ver extension indexname loaddate loadgit
  end.

Definition docsrootpage (request : HttpRequest) (version : string) : M HttpResponse :=
  docpage request version "index".

End Docs.

(** ** Logging out of a partner site: [communityauth_logout] *)

(** [django.contrib.auth.logout]: ends the session of the request. *)
Class Django := {
  django_logout : HttpRequest -> M unit;
}.

Section Logout.

Context {django : Django}.

Definition communityauth_logout (request : HttpRequest) (siteid : string) : M HttpResponse :=
  (* Get whatever site the user is trying to log in to. *)
  site ← get_site_or_404 siteid;
  (match user request with
   | Some _ => django_logout request
   | None => mret tt
   end);;
  (* Redirect user back to the specified suburl *)
  mret (HttpResponseRedirect (redirecturl site ^^ "?s=logout")).

End Logout.

(** ** Images of the documentation: [docsvg] *)

Record DocPage := {
  page_version : Decimal.t;
  page_file : string;
  page_content : string;
}.

(** The page table and the model method [display_version], both outside
    the sources read here: [get_docpage_or_404 ver file] is
    [get_object_or_404(DocPage, version=ver, file=file)]. *)
Class DocStore := {
  get_docpage_or_404 : Decimal.t -> string -> M DocPage;
  display_version : DocPage -> string;
}.

(** An answer of [docsvg]: either one of the answers above or a body with
    its content type and its [xkey] header. *)
Inductive SvgResponse :=
| Plain (r : HttpResponse)
| Image (content content_type xkey : string).

Section Docsvg.

Context {store : DocStore}.

Definition docsvg (request : HttpRequest) (version filename : string) : M SvgResponse :=
  r ← (if String.eqb version "current" then
         v ← current_version;
         mret (inr (tree v))
       else if String.eqb version "devel" then
         mret (inr (Decimal.of_Z 0))
       else
         match Decimal.of_string version with
         | None => raise InvalidOperation
         | Some ver =>
             if Decimal.eqb ver (Decimal.of_Z 0)
             then mret (inl (_versioned_404 "Version not found" "all"))
             else mret (inr ver)
         end);
  match r with
  | inl early => mret (Plain early)
  | inr ver =>
      if Decimal.ltb ver (Decimal.of_Z 12) && Decimal.gtb ver (Decimal.of_Z 0) then
        raise (Http404 "SVG images don't exist in this version")
      else
        page ← get_docpage_or_404 ver (filename ^^ ".svg");
        let xkey := "pgdocs_" ^^ display_version page in
        mret (Image (page_content page) "image/svg+xml"
                (if String.eqb version "current" then xkey ^^ " pgdocs_current" else xkey))
  end.

End Docsvg.

(** ** Template filters: [pgweb/core/templatetags/pgfilters.py] *)

Module Pgfilters.

(** [s.split(c)] for a one-character [c]. *)
Fixpoint split (c : ascii) (s : string) : list string :=
  match s with
  | EmptyString => [EmptyString]
  | String a r =>
      if Ascii.eqb a c then EmptyString :: split c r
      else match split c r with
           | x :: l => String a x :: l
           | [] => [String a EmptyString]
           end
  end.

(** [l[0]] *)
Definition first {A} (l : list A) : Result A :=
  match l with
  | x :: _ => Ok x
  | [] => Raise IndexError
  end.

(** [l[-1]] *)
Fixpoint final {A} (l : list A) : Result A :=
  match l with
  | [] => Raise IndexError
  | [x] => Ok x
  | _ :: r => final r
  end.

Definition hidemail (value : string) : string := replace "@" " at " value.

(** Takes the title of an entry of a Planet feed and extracts the author. *)
Definition planet_author (title : string) : Result string := first (split ":" title).

(** The part of the title that is specific to the entry. *)
Definition planet_title (title : string) : string := join ":" (tl (split ":" title)).

(** [value] is the list of the items as [str] shows them. *)
Definition joinandor (value : list string) (andor : string) : Result string :=
  if (length value =? 1)%nat then first value
  else
    let head := join ", " (removelast value) in
    match final value with
    | Ok x => Ok (head ^^ " " ^^ andor ^^ " " ^^ x)
    | Raise e => Raise e
    end.

End Pgfilters.

(** ** Secondary addresses: [confirm_add_email] *)

Module Addresses.

(** A row of the table of secondary addresses with all the columns the
    view uses; [visible] is what the hand-off reads of it. *)
Record Row := {
  row_id : Z;
  owner : Z;
  address : string;
  is_confirmed : bool;
  token : string;
}.

Definition visible (r : Row) : SecondaryEmail :=
  {| se_user := owner r; se_email := address r; confirmed := is_confirmed r |}.

(** [addr.save()] for a row that is in the table: the row with its
    primary key is overwritten. *)
Definition save (addr : Row) (table : list Row) : list Row :=
  map (fun r => if row_id r =? row_id addr then addr else r) table.

(** The view, run on the table of secondary addresses.  It is wrapped in
    [login_required]; the transaction it runs in makes no difference, as
    it can only raise before its one write. *)
Definition confirm_add_email (request : HttpRequest) (tokenhash : string) (table : list Row)
  : Result HttpResponse * list Row :=
  match user request with
  | None => (Ok LoginRequired, table)
  | Some u =>
      match List.filter (fun r => (owner r =? user_id u) && String.eqb (token r) tokenhash)
              table with
      | [] => (Raise (Http404 "No SecondaryEmail matches the given query."), table)
      | [addr] =>
          (* Valid token found, so mark the address as confirmed. *)
          let addr' := {| row_id := row_id addr; owner := owner addr;
                          address := address addr; is_confirmed := true; token := "" |} in
          (Ok (HttpResponseRedirect "/account/profile/"), save addr' table)
      | _ :: _ :: _ => (Raise MultipleObjectsReturned, table)
      end
  end.

End Addresses.

(** ** Signing up after an OAuth login: [signup_oauth] *)

(** The value stored in [user.password] for OAuth logins. *)
Definition OAUTH_PASSWORD_STORE : string := "oauth_signin_account_no_password".

(** What the view calls outside the sources read here: [str.lower],
    [get_client_ip], the validation of [SignupOauthForm] (giving
    [cleaned_data['username']] when the form is valid), the creation of
    the account ([User.objects.create_user(username, email, last_login)]
    followed by the assignment of both names and the password and by
    [user.save()]) and [django.contrib.auth.login], which works on the
    session. *)
Class Signup := {
  str_lower : string -> string;
  get_client_ip : HttpRequest -> string;
  signup_oauth_form_clean : QueryDict -> option string;
  create_account : string -> string -> Z -> string -> string -> string -> M User;
  django_login : HttpRequest -> User -> gmap string string -> M (gmap string string);
}.

(** The form of the page: bound to posted data, or filled with initial
    values. *)
Inductive SignupOauthForm :=
| BoundForm (data : QueryDict)
| InitialForm (username email first_name last_name : string).

(** The answers of [signup_oauth]: [HttpSimpleResponse], a redirect, or
    the page [account/signup_oauth.html] rendered around the form. *)
Inductive SignupResponse :=
| HttpSimpleResponse (title msg : string)
| SignupRedirect (url : string)
| SignupPage (form : SignupOauthForm).

(** [log.info(msg)]: the log keeps the messages of every level. *)
Definition log_info (msg : string) : M unit := log_warning msg.

(** [with transaction.atomic]: when the body raises, the tables are as
    they were before it; the log and the random source are not part of
    the transaction. *)
Definition transaction_atomic {A} (body : M A) : M A := fun w =>
  match body w with
  | (Ok a, w') => (Ok a, w')
  | (Raise e, w') =>
      (Raise e,
       {| site_table := site_table w; user_table := user_table w;
          secondaryemail_table := secondaryemail_table w;
          consent_table := consent_table w; lastlogin_table := lastlogin_table w;
          userprofile_table := userprofile_table w; version_table := version_table w;
          random_source := random_source w'; random_pos := random_pos w';
          log := log w' |})
  end.

(** [data[k] = v] on a copy of a [QueryDict]. *)
Definition set_item (k v : string) (q : QueryDict) : QueryDict :=
  (List.filter (fun kv => negb (String.eqb (fst kv) k)) q ++ [(k, v)])%list.

(** A byte that continues a character begun before it, in UTF-8. *)
Definition is_continuation (c : ascii) : bool :=
  let n := N_of_ascii c in ((128 <=? n) && (n <? 192))%N.

(** [len(s)]: the number of characters. *)
Fixpoint char_count (s : string) : nat :=
  match s with
  | EmptyString => O
  | String c r => ((if is_continuation c then 0 else 1) + char_count r)%nat
  end.

(** [s[:n]]: the first [n] characters, each with the bytes that continue it. *)
Fixpoint take_chars (n : nat) (s : string) : string :=
  match s with
  | EmptyString => EmptyString
  | String c r =>
      if is_continuation c then String c (take_chars n r)
      else match n with
           | O => EmptyString
           | S k => String c (take_chars k r)
           end
  end.

Section SignupOauth.

Context {signup : Signup}.

(** [User.objects.filter(username=name).exists()] *)
Definition username_exists (name : string) : M bool :=
  w ← get;
  mret (List.existsb (fun u => String.eqb (username u) name) (user_table w)).

(** The names tried in turn: first name and initial, initial and last
    name, then first name and initial followed by a number below 100. *)
Definition candidates (f l : string) : list string :=
  [f ^^ take_chars 1 l; take_chars 1 f ^^ l]
  ++ map (fun n => f ^^ take_chars 1 l ^^ of_Z (Z.of_nat n)) (seq 0 100).

(** The loop over the candidates: the first one that, cut to 30
    characters, is not a username yet; [suggested] when there is none. *)
Fixpoint first_free (names : list string) (suggested : string) : M string :=
  match names with
  | [] => mret suggested
  | u :: rest =>
      taken ← username_exists (take_chars 30 u);
      if (taken : bool) then first_free rest suggested else mret (take_chars 30 u)
  end.

Definition suggest_username (email firstname lastname : string) : M string :=
  (* Generate possible new username *)
  let suggested_username := take_chars 30 (replace "@" "." email) in
  (* Auto generation requires firstname and lastname to be specified *)
  let f := str_lower firstname in
  let l := str_lower lastname in
  if negb (String.eqb f "") && negb (String.eqb l "")
  then first_free (candidates f l) suggested_username
  else mret suggested_username.

(** [request.session.pop('login_next', default)] *)
Definition pop_login_next (default : string) (session : gmap string string)
  : string * gmap string string :=
  (match session !! "login_next" with Some url => url | None => default end,
   delete "login_next" session).

Definition clear_oauth (session : gmap string string) : gmap string string :=
  delete "oauth_lastname" (delete "oauth_firstname" (delete "oauth_email" session)).

Definition signup_oauth (clock : Clock) (request : HttpRequest) (session : gmap string string)
  : M (SignupResponse * gmap string string) :=
  transaction_atomic
    match session !! "oauth_email", session !! "oauth_firstname",
          session !! "oauth_lastname" with
    | Some oauth_email, Some oauth_firstname, Some oauth_lastname =>
        if String.eqb (method request) "POST" then
          (* Second stage, so create the account. *)
          let data :=
            set_item "last_name" oauth_lastname
              (set_item "first_name" oauth_firstname
                 (set_item "email" (str_lower oauth_email) (POST request))) in
          match signup_oauth_form_clean data with
          | Some cleaned_username =>
              log_info ("Creating user for " ^^ cleaned_username ^^ " from "
                        ^^ get_client_ip request ^^ " from oauth signin of email "
                        ^^ oauth_email);;
              u ← create_account (str_lower cleaned_username) (str_lower oauth_email)
                    (datetime_now clock) oauth_firstname oauth_lastname
                    OAUTH_PASSWORD_STORE;
              (* Clean up our session *)
              let session := clear_oauth session in
              (* We can immediately log the user in because their email is confirmed. *)
              session ← django_login request u session;
              (* Redirect to the sessions page, or to the account page if none was given. *)
              let '(url, session) := pop_login_next "/account/" session in
              mret (SignupRedirect url, session)
          | None => mret (SignupPage (BoundForm data), session)
          end
        else if contains "do_abort" (GET request) then
          let '(url, session) := pop_login_next "/" (clear_oauth session) in
          mret (SignupRedirect url, session)
        else
          suggested_username ← suggest_username oauth_email oauth_firstname oauth_lastname;
          mret (SignupPage
                  (InitialForm suggested_username (str_lower oauth_email)
                     (take_chars 30 oauth_firstname) (take_chars 30 oauth_lastname)),
                session)
    | _, _, _ =>
        mret (HttpSimpleResponse "OAuth error" "Invalid redirect received", session)
    end.

End SignupOauth.

(** * Notions used in the statements *)

(** A character the URL-safe encoding may produce for a 6-bit group. *)
Definition b64_out_char (c : ascii) : bool := urlsafe_char c || Ascii.eqb c "=".

(** What [quote_plus] makes of one character. *)
Definition quote_plus_char (safe : string) (c : ascii) : string :=
  if Ascii.eqb c " " then "+"
  else if always_safe c || mem c safe then String c "" else percent c.

(** The concatenation of [f c] over the characters [c] of [s]. *)
Fixpoint flat_map (f : ascii -> string) (s : string) : string :=
  match s with
  | EmptyString => EmptyString
  | String c r => f c ^^ flat_map f r
  end.

(** A 7-bit character, as [str.encode('ascii')] accepts. *)
Definition is_ascii (c : ascii) : bool := (N_of_ascii c <? 128)%N.

(** The characters a ['d'] payload may consist of. *)
Definition payload_char (c : ascii) : bool := always_safe c || mem c "=$".

Section HandoffNotions.

Context {aes : Cryptodome} {py : PyLib} {collation : Collation} {project : Project}.

(** The bytes the next [Random_read n] returns, and the world after it. *)
Definition next_random (n : nat) (w : World) : string :=
  string_of_list_ascii (map (random_source w) (seq (random_pos w) n)).

Definition advance (n : nat) (w : World) : World := snd (Random_read n w).

(** The key derivation and the two cipher calls shared by [communityauth]
    and [_encrypt_site_response]: the ciphertext of [s] under the key of
    [site] and the vector [iv], or the exception raised on the way. *)
Definition seal (site : CommunityAuthSite) (s iv : string) : Result string :=
  match b64decode (cryptkey site) with
  | Raise e => Raise e
  | Ok key =>
      match AES_new key iv with
      | Raise e => Raise e
      | Ok encryptor =>
          match encode_ascii s with
          | Raise e => Raise e
          | Ok plain => encrypt encryptor (plain ^^ times " " (16 - String.length s mod 16))
          end
      end
  end.

Definition profile_complete (u : User) : bool :=
  negb (String.eqb (first_name u) "" || String.eqb (last_name u) ""
        || String.eqb (email u) "").

Definition in_cooloff (clock : Clock) (site : CommunityAuthSite) (u : User) : bool :=
  (cooloff_hours site >? 0)
  && (datetime_now clock - date_joined u <? timedelta_hours (cooloff_hours site)).

Definition consent_missing (site : CommunityAuthSite) (u : User) (w : World) : bool :=
  require_consent (org site)
  && negb (match consents_of (org site) u w with [] => false | _ => true end).

(** The user passes every check of [communityauth]. *)
Definition eligible (clock : Clock) (site : CommunityAuthSite) (u : User) (w : World) : bool :=
  profile_complete u && negb (in_cooloff clock site u) && negb (consent_missing site u w).

(** The world after the upsert for [(u, site)] at [clock]. *)
Definition logged_in (clock : Clock) (site : CommunityAuthSite) (u : User) (w : World) : World :=
  snd (upsert_lastlogin (user_id u) (site_id site) (CURRENT_TIMESTAMP clock) w).

(** [logincount] of a pair, [0] when there is no row. *)
Definition logincount (k : Z * Z) (w : World) : Z :=
  match lastlogin_table w !! k with
  | Some (_, n) => n
  | None => 0
  end.

(** The three answers that end a hand-off before anything is recorded. *)
Definition noinfo_page : HttpResponse :=
  render_pgweb "account" "account/communityauth_noinfo.html" [].

Definition cooloff_page (site : CommunityAuthSite) : HttpResponse :=
  render_pgweb "account" "account/communityauth_cooloff.html" [("site", CtxSite site)].

Definition consent_redirect (siteid : string) (request : HttpRequest) : HttpResponse :=
  HttpResponseRedirect
    ("/account/auth/" ^^ siteid ^^ "/consent/?"
     ^^ urlencode [("next", "/account/auth/" ^^ siteid ^^ "/"
                            ^^ urldata_of (param_d request) (param_su request))]).

Definition cooloff_warning (site : CommunityAuthSite) (u : User) : string :=
  "User " ^^ username u ^^ " tried to log in to " ^^ site_name site
  ^^ " before cooloff period ended.".

Definition set_last_login (t : option Z) (u : User) : User :=
  {| user_id := user_id u; username := username u; first_name := first_name u;
     last_name := last_name u; email := email u; date_joined := date_joined u;
     last_login := t; is_active := is_active u |}.

Definition set_user (o : option User) (request : HttpRequest) : HttpRequest :=
  {| method := method request; GET := GET request; POST := POST request; user := o |}.

Definition text_le (a b : string) : Prop := text_leb a b = true.

(** The payload field of the record, from the raw request parameters: a
    non-empty ['d'] made of payload characters, else a ['su'] that starts
    with a slash, else nothing. *)
Definition payload_field (request : HttpRequest) : string :=
  match lookup_last "d" (GET request) with
  | Some (String c r as d) =>
      if forallb payload_char d then "&d=" ^^ quote_plus d ""
      else match lookup_last "su" (GET request) with
           | Some su => if startswith su "/" then "&su=" ^^ quote_plus su "" else ""
           | None => ""
           end
  | _ =>
      match lookup_last "su" (GET request) with
      | Some su => if startswith su "/" then "&su=" ^^ quote_plus su "" else ""
      | None => ""
      end
  end.

(** The record as the statement of C2 spells it. *)
Definition record_of (clock : Clock) (u : User) (se : list string) (request : HttpRequest)
  : string :=
  "t=" ^^ of_Z (time_time clock)
  ^^ "&u=" ^^ quote_plus (username u) ""
  ^^ "&f=" ^^ quote_plus (first_name u) ""
  ^^ "&l=" ^^ quote_plus (last_name u) ""
  ^^ "&e=" ^^ quote_plus (email u) ""
  ^^ "&se=" ^^ quote_plus (join "," se) ""
  ^^ payload_field request.

(** [enc] is the URL-safe encoding of [raw], padding included. *)
Definition urlsafe_padded (raw enc : string) : Prop :=
  enc = b64encode raw dash_underscore
  /\ forallb b64_out_char enc = true
  /\ count "+" enc = O /\ count "/" enc = O
  /\ count "=" enc = ((3 - String.length raw mod 3) mod 3)%nat.

(** [c] is the ciphertext of the blank-padded [s] under the key of [site]
    and the vector [iv], the next 16 bytes of the random source of [w]. *)
Definition sealed (site : CommunityAuthSite) (s : string) (w : World) (iv c : string) : Prop :=
  iv = next_random 16 w
  /\ String.length iv = 16%nat
  /\ exists key encryptor,
       b64decode (cryptkey site) = Ok key
       /\ AES_new key iv = Ok encryptor
       /\ encrypt encryptor (s ^^ times " " (16 - String.length s mod 16)) = Ok c.

(** The request without its parameter [k]. *)
Definition without_param (k : string) (request : HttpRequest) : HttpRequest :=
  {| method := method request;
     GET := List.filter (fun kv => negb (String.eqb (fst kv) k)) (GET request);
     POST := POST request;
     user := user request |}.

(** Parameter [k] of the request is there and malformed: a ['d'] with a
    character that is not a payload character, or an ['su'] that does not
    start with a slash. *)
Definition malformed (k : string) (request : HttpRequest) : Prop :=
  (k = "d" /\ exists d, lookup_last "d" (GET request) = Some d
                        /\ forallb payload_char d = false)
  \/ (k = "su" /\ exists su, lookup_last "su" (GET request) = Some su
                             /\ startswith su "/" = false).

Definition new_consent (clock : Clock) (o : Organisation) (u : User) : CommunityAuthConsent :=
  {| consent_user := user_id u; consent_org := org_id o; consentgiven := datetime_now clock |}.

(** The world after the consent form has been posted once per clock of
    the list, in order. *)
Fixpoint grants (clocks : list Clock) (request : HttpRequest) (siteid : string) (w : World)
  : World :=
  match clocks with
  | [] => w
  | clock :: rest =>
      grants rest request siteid (snd (communityauth_consent clock request siteid w))
  end.

End HandoffNotions.

Section SessionNotions.

Context {aes : Cryptodome} {py : PyLib} {collation : Collation} {project : Project}.

(** The world after one call of [communityauth] per clock of the list,
    in order, for the same request. *)
Fixpoint handoffs (clocks : list Clock) (request : HttpRequest) (siteid : string) (w : World)
  : World :=
  match clocks with
  | [] => w
  | clock :: rest =>
      handoffs rest request siteid (snd (communityauth clock request siteid w))
  end.

(** The two worlds differ at most in the last logins, the position in
    the random source and the log. *)
Definition same_records (w w' : World) : Prop :=
  site_table w' = site_table w
  /\ user_table w' = user_table w
  /\ secondaryemail_table w' = secondaryemail_table w
  /\ consent_table w' = consent_table w
  /\ userprofile_table w' = userprofile_table w
  /\ version_table w' = version_table w
  /\ random_source w' = random_source w.

(** The answer for a site that does not exist. *)
Definition site_not_found {A} : Result A :=
  Raise (Http404 "No CommunityAuthSite matches the given query.").

(** The login form shown for [site], with [next] as the way back. *)
Definition login_form (site : CommunityAuthSite) (next : string) : HttpResponse :=
  LoginView "account/login.html"
    [("sitename", CtxStr (site_name site)); ("next", CtxStr next);
     ("oauth_providers", CtxSettings oauth_providers)].

End SessionNotions.

(** The 6-bit value of a character of the URL-safe alphabet. *)
Definition sextet_of (c : ascii) : option N :=
  (let n := N_of_ascii c in
   if is_upper c then Some (n - 65)
   else if is_lower c then Some (n - 97 + 26)
   else if is_digit c then Some (n - 48 + 52)
   else if Ascii.eqb c "-" then Some 62
   else if Ascii.eqb c "_" then Some 63
   else None)%N.

(** A decoder for the texts [b64encode s dash_underscore] produces, as a
    partner would apply it: four characters give three bytes, and a last
    group ending in one or two ['='] gives two bytes or one. *)
Fixpoint urlsafe_b64decode (s : string) : option string :=
  match s with
  | EmptyString => Some EmptyString
  | String a (String b (String c (String d r))) =>
      match sextet_of a, sextet_of b with
      | Some x, Some y =>
          if Ascii.eqb c "=" then
            if Ascii.eqb d "=" && String.eqb r ""
            then Some (String (ascii_of_N (x * 4 + y / 16)) "")
            else None
          else
            match sextet_of c with
            | Some z =>
                if Ascii.eqb d "=" then
                  if String.eqb r ""
                  then Some (String (ascii_of_N (x * 4 + y / 16))
                               (String (ascii_of_N (y mod 16 * 16 + z / 4)) ""))
                  else None
                else
                  match sextet_of d, urlsafe_b64decode r with
                  | Some t, Some rest =>
                      Some (String (ascii_of_N (x * 4 + y / 16))
                              (String (ascii_of_N (y mod 16 * 16 + z / 4))
                                 (String (ascii_of_N (z mod 4 * 64 + t)) rest)))
                  | _, _ => None
                  end
            | None => None
            end
      | _, _ => None
      end%N
  | _ => None
  end.

(** The tables of the database are the same in both worlds. *)
Definition same_tables (w w' : World) : Prop :=
  site_table w' = site_table w
  /\ user_table w' = user_table w
  /\ secondaryemail_table w' = secondaryemail_table w
  /\ consent_table w' = consent_table w
  /\ lastlogin_table w' = lastlogin_table w
  /\ userprofile_table w' = userprofile_table w
  /\ version_table w' = version_table w.

(** No account of the world has this username. *)
Definition username_free (name : string) (w : World) : Prop :=
  forall u, In u (user_table w) -> username u <> name.

(** The keys [signup_oauth] keeps in the session between the two stages. *)
Definition oauth_keys : list string :=
  ["oauth_email"; "oauth_firstname"; "oauth_lastname"; "login_next"].

(** * A worked example *)

(** Stand-ins for the outside world, to run the views on concrete data.
    [toy_cipher] has the interface and the length checks of AES in CBC
    mode, but its transformation is a plain exclusive-or with the vector;
    [toy_pylib] decodes the one key of the example site. *)

Definition xor_ascii (a b : ascii) : ascii :=
  ascii_of_N (N.lxor (N_of_ascii a) (N_of_ascii b)).

Fixpoint xor_stream (iv cur data : string) : string :=
  match data with
  | EmptyString => EmptyString
  | String c r =>
      match cur with
      | String k cur' => String (xor_ascii c k) (xor_stream iv cur' r)
      | EmptyString =>
          match iv with
          | String k cur' => String (xor_ascii c k) (xor_stream iv cur' r)
          | EmptyString => data
          end
      end
  end.

Definition toy_cipher : Cryptodome :=
  {| cipher := string * string;
     AES_new key iv :=
       if ((String.length key =? 16) || (String.length key =? 24)
           || (String.length key =? 32))%nat && (String.length iv =? 16)%nat
       then Ok (key, iv) else Raise ValueError;
     encrypt c data :=
       if (String.length data mod 16 =? 0)%nat then Ok (xor_stream (snd c) (snd c) data)
       else Raise ValueError |}.

Definition dquote : string := String (ascii_of_N 34) EmptyString.

Fixpoint toy_dumps (j : json) : string :=
  match j with
  | JString s => dquote ^^ s ^^ dquote
  | JList l => "[" ^^ join ", " (map toy_dumps l) ^^ "]"
  | JDict items =>
      "{" ^^ join ", " (map (fun '(k, v) => dquote ^^ k ^^ dquote ^^ ": " ^^ toy_dumps v) items)
      ^^ "}"
  end.

Definition toy_pylib : PyLib :=
  {| b64decode s :=
       if String.eqb s "MDEyMzQ1Njc4OWFiY2RlZg==" then Ok "0123456789abcdef"
       else Raise binascii_Error;
     json_dumps := toy_dumps;
     fromtimestamp ts := Ok (ts * 1000000) |}.

Definition bytewise : Collation :=
  {| text_leb := String.leb;
     text_leb_total := String.leb_total;
     icontains hay needle :=
       match String.index 0 needle hay with Some _ => true | None => false end |}.

Definition toy_project : Project :=
  {| oauth_providers := [];
     consent_form_clean _ post :=
       if contains "consent" post then lookup_last "next" post else None |}.

Definition toy_backend : DocsBackend :=
  {| docpage_serve _ version filename _ extension _ _ _ :=
       mret (HttpResponseBody (version ^^ "/" ^^ filename ^^ "." ^^ extension)) |}.

Definition example_org : Organisation :=
  {| org_id := 7; orgname := "Example Org"; require_consent := true |}.

Definition wiki : CommunityAuthSite :=
  {| site_id := 1; site_name := "wiki";
     redirecturl := "https://wiki.example.org/auth_receive/";
     cryptkey := "MDEyMzQ1Njc4OWFiY2RlZg=="; org := example_org; cooloff_hours := 24 |}.

(** Joined at time 0, long before [noon]. *)
Definition alice : User :=
  {| user_id := 1; username := "alice"; first_name := "Alice"; last_name := "Liddell";
     email := "alice@example.org"; date_joined := 0; last_login := None;
     is_active := true |}.

(** Joined one hour before [noon]. *)
Definition bob : User :=
  {| user_id := 2; username := "bob"; first_name := "Bob"; last_name := "Builder";
     email := "bob@example.org"; date_joined := 1699996400000000; last_login := None;
     is_active := true |}.

(** No last name. *)
Definition carol : User :=
  {| user_id := 3; username := "carol"; first_name := "Carol"; last_name := "";
     email := "carol@example.org"; date_joined := 0; last_login := None;
     is_active := true |}.

(** Complete and old enough, but has not consented. *)
Definition dave : User :=
  {| user_id := 4; username := "dave"; first_name := "Dave"; last_name := "Bowman";
     email := "dave@example.org"; date_joined := 0; last_login := None;
     is_active := true |}.

Definition noon : Clock :=
  {| time_time := 1700000000; datetime_now := 1700000000000000;
     CURRENT_TIMESTAMP := 1700000000000000 |}.

Definition later : Clock :=
  {| time_time := 1700000600; datetime_now := 1700000600000000;
     CURRENT_TIMESTAMP := 1700000600000000 |}.

Definition start : World :=
  {| site_table := [wiki];
     user_table := [alice; bob; carol; dave];
     secondaryemail_table :=
       [ {| se_user := 1; se_email := "zoe@example.org"; confirmed := true |};
         {| se_user := 1; se_email := "al@example.org"; confirmed := true |};
         {| se_user := 1; se_email := "old@example.org"; confirmed := false |} ];
     consent_table :=
       [ {| consent_user := 1; consent_org := 7; consentgiven := 5 |};
         {| consent_user := 2; consent_org := 7; consentgiven := 6 |};
         {| consent_user := 3; consent_org := 7; consentgiven := 7 |} ];
     lastlogin_table := ∅;
     userprofile_table := [];
     version_table := [];
     random_source := fun n => ascii_of_nat (65 + n mod 26);
     random_pos := 0;
     log := [] |}.

Definition request_of (o : option User) (query : QueryDict) : HttpRequest :=
  {| method := "GET"; GET := query; POST := []; user := o |}.

Definition consent_post (u : User) : HttpRequest :=
  {| method := "POST"; GET := [];
     POST := [("consent", "on"); ("next", "/account/auth/1/")]; user := Some u |}.

(** Where Alice is sent by the hand-off at [noon] with ['d'] set to
    ["abc"], under the stand-in cipher. *)
Definition alice_redirect : string :=
  "https://wiki.example.org/auth_receive/?i=QUJDREVGR0hJSktMTU5PUA==&d=NX9yc3V2d3h5ent8aztyMS0rICFjIHoJJSMoKWsichwoJichKSphLXQrJyUuK2pkcSc7JSg2Ky1nJTkraz0qbSAuZnB1Iz8pJDonKWMhPTdkcAA-KiNifHkvMy0gPiM1by0xI2MieikrKWtsbW5vcA==".

(** ** More stand-ins *)

(** Ending a session leaves the tables alone. *)
Definition toy_django : Django :=
  {| django_logout _ := mret tt |}.

(** One image, for version 16. *)
Definition toy_store : DocStore :=
  {| get_docpage_or_404 ver file :=
       if Decimal.eqb ver (Decimal.of_Z 16) && String.eqb file "gist.svg"
       then mret {| page_version := ver; page_file := file; page_content := "<svg/>" |}
       else raise (Http404 "No DocPage matches the given query.");
     display_version page := of_Z (Decimal.to_int (page_version page)) |}.

Definition lower_ascii (c : ascii) : ascii :=
  if is_upper c then ascii_of_N (N_of_ascii c + 32) else c.

Fixpoint lower (s : string) : string :=
  match s with
  | EmptyString => EmptyString
  | String c r => String (lower_ascii c) (lower r)
  end.

(** The form asks for a username only; the new account gets the next
    free key; logging in notes the user in the session. *)
Definition toy_signup : Signup :=
  {| str_lower := lower;
     get_client_ip _ := "192.0.2.1";
     signup_oauth_form_clean data :=
       match lookup_last "username" data with
       | Some name => if String.eqb name "" then None else Some name
       | None => None
       end;
     create_account name mail now first last password := fun w =>
       if List.existsb (fun u => String.eqb (username u) name) (user_table w)
       then (Raise ValueError, w)
       else
         let u := {| user_id := 1 + Z.of_nat (length (user_table w)); username := name;
                     first_name := first; last_name := last; email := mail;
                     date_joined := now; last_login := Some now; is_active := true |} in
         (Ok u,
          {| site_table := site_table w; user_table := user_table w ++ [u];
             secondaryemail_table := secondaryemail_table w;
             consent_table := consent_table w; lastlogin_table := lastlogin_table w;
             userprofile_table := userprofile_table w; version_table := version_table w;
             random_source := random_source w; random_pos := random_pos w;
             log := log w |});
     django_login _ u session := mret (<["_auth_user_id" := of_Z (user_id u)]> session) |}.

(** The example world with two profiles, one of them without a key. *)
Definition with_keys : World :=
  {| site_table := site_table start;
     user_table := user_table start;
     secondaryemail_table := secondaryemail_table start;
     consent_table := consent_table start;
     lastlogin_table := lastlogin_table start;
     userprofile_table :=
       [ {| profile_user := alice;
            sshkey := "ssh-ed25519 AAAA alice" ^^ String "013" (String "010" EmptyString);
            lastmodified := 1699000000000000 |};
         {| profile_user := bob; sshkey := ""; lastmodified := 1699990000000000 |} ];
     version_table := version_table start;
     random_source := random_source start;
     random_pos := random_pos start;
     log := log start |}.

(** The login form of the site, posted by a visitor. *)
Definition login_post : HttpRequest :=
  {| method := "POST"; GET := [];
     POST := [("this_is_the_login_form", "1"); ("next", "/account/auth/1/?d=xyz")];
     user := None |}.

(** Addresses of Alice and Bob: two wait for their confirmation. *)
Definition address_book : list Addresses.Row :=
  [ {| Addresses.row_id := 1; Addresses.owner := 1; Addresses.address := "zoe@example.org";
       Addresses.is_confirmed := true; Addresses.token := "" |};
    {| Addresses.row_id := 2; Addresses.owner := 1; Addresses.address := "old@example.org";
       Addresses.is_confirmed := false; Addresses.token := "c0ffee" |};
    {| Addresses.row_id := 3; Addresses.owner := 2; Addresses.address := "rob@example.org";
       Addresses.is_confirmed := false; Addresses.token := "decade" |} ].

(** A session after an OAuth login of somebody new, and one of a
    namesake of Alice. *)
Definition oauth_session (first last : string) : gmap string string :=
  <["oauth_email" := "Erin.Roe@Example.org"]>
    (<["oauth_firstname" := first]>
       (<["oauth_lastname" := last]>
          (<["login_next" := "/account/auth/1/"]> (<["theme" := "dark"]> ∅)))).

Definition signup_post (name : string) : HttpRequest :=
  {| method := "POST"; GET := []; POST := [("username", name)]; user := None |}.

(** * Properties *)

(** ** The library models on examples *)

Example of_Z_examples :
  of_Z 0 = "0" /\ of_Z 1730743200 = "1730743200" /\ of_Z (-42) = "-42" /\ of_Z 1000 = "1000".
Proof. repeat split; reflexivity. Qed.

Example to_N_examples :
  to_N "007" = Some 7%N /\ to_N "" = None /\ to_N "12a" = None /\ to_N "120" = Some 120%N.
Proof. repeat split; reflexivity. Qed.

Example b64encode_examples :
  b64encode "" None = "" /\ b64encode "f" None = "Zg==" /\ b64encode "fo" None = "Zm8=" /\
  b64encode "foo" None = "Zm9v" /\ b64encode "foobar" None = "Zm9vYmFy" /\
  b64encode (String (ascii_of_N 251) (String (ascii_of_N 255) EmptyString)) None = "+/8=" /\
  b64encode (String (ascii_of_N 251) (String (ascii_of_N 255) EmptyString)) dash_underscore = "-_8=".
Proof. repeat split; reflexivity. Qed.

Example quote_plus_examples :
  quote_plus "a b&c=d/e" "" = "a+b%26c%3Dd%2Fe" /\ quote_plus "a=b$" "=$" = "a=b$" /\
  quote_plus "x+y" "=$" = "x%2By" /\ quote_plus "~_.-" "" = "~_.-" /\
  urlencode [("u", "j doe"); ("e", "j@example.org")] = "u=j+doe&e=j%40example.org".
Proof. repeat split; reflexivity. Qed.

Example Decimal_examples :
  Decimal.of_string "10.0" = Some (Decimal.mk 100 1) /\
  Decimal.of_string "9.6" = Some (Decimal.mk 96 1) /\
  Decimal.of_string "11" = Some (Decimal.mk 11 0) /\
  Decimal.of_string "current" = None /\ Decimal.of_string "." = None /\
  Decimal.of_string "1.2.3" = None /\
  Decimal.to_int (Decimal.mk 105 1) = 10 /\
  Decimal.geb (Decimal.mk 100 1) (Decimal.of_Z 10) = true /\
  Decimal.ltb (Decimal.mk 96 1) (Decimal.of_Z 10) = true.
Proof. repeat split; reflexivity. Qed.

(** ** Strings *)

#[local] Arguments String.append !s1 s2 : simpl nomatch.

Lemma append_length (a b : string) :
  String.length (a ^^ b) = (String.length a + String.length b)%nat.
Proof. induction a as [|c a IH]; simpl; [reflexivity | now rewrite IH]. Qed.

Lemma append_assoc (a b c : string) : (a ^^ b) ^^ c = a ^^ b ^^ c.
Proof. induction a as [|x a IH]; simpl; [reflexivity | now rewrite IH]. Qed.

Lemma append_nil_r (a : string) : a ^^ "" = a.
Proof. induction a as [|x a IH]; simpl; [reflexivity | now rewrite IH]. Qed.

Lemma forallb_append p (a b : string) :
  forallb p (a ^^ b) = forallb p a && forallb p b.
Proof. induction a as [|c a IH]; simpl; [reflexivity | now rewrite IH, andb_assoc]. Qed.

Lemma count_append c (a b : string) : count c (a ^^ b) = (count c a + count c b)%nat.
Proof. induction a as [|x a IH]; simpl; [reflexivity | rewrite IH; lia]. Qed.

Lemma times_length c n : String.length (times c n) = n.
Proof. induction n; simpl; congruence. Qed.

Lemma forallb_impl (p q : ascii -> bool) (s : string) :
  (forall c, p c = true -> q c = true) -> forallb p s = true -> forallb q s = true.
Proof.
  intros Hpq. induction s as [|c s IH]; simpl; [reflexivity|].
  rewrite !andb_true_iff. intros [Hc Hs]. split; [now apply Hpq | now apply IH].
Qed.

Lemma count_zero_of_forallb (p : ascii -> bool) c (s : string) :
  p c = false -> forallb p s = true -> count c s = O.
Proof.
  intros Hc. induction s as [|a s IH]; simpl; [reflexivity|].
  rewrite andb_true_iff. intros [Ha Hs]. rewrite (IH Hs).
  destruct (Ascii.eqb_spec a c) as [->|]; [congruence | reflexivity].
Qed.

(** A three-step induction principle, following the groups of [b2a_base64]. *)
Lemma string_ind3 (P : string -> Prop) :
  P "" ->
  (forall a, P (String a "")) ->
  (forall a b, P (String a (String b ""))) ->
  (forall a b c r, P r -> P (String a (String b (String c r)))) ->
  forall s, P s.
Proof.
  intros H0 H1 H2 H3 s.
  enough (P s /\ (forall a, P (String a s)) /\ (forall a b, P (String a (String b s))))
    as [Hs _] by exact Hs.
  induction s as [|c s (IHs & IH1 & IH2)].
  - repeat split; auto.
  - repeat split; auto.
Qed.

(** ** Base64 *)

Lemma std_char_table :
  List.forallb
    (fun n => let c := translate_char ("-"%char, "_"%char) (std_char (N.of_nat n)) in
              urlsafe_char c && negb (Ascii.eqb c "=") && negb (Ascii.eqb c "+")
              && negb (Ascii.eqb c "/"))
    (seq 0 64) = true.
Proof. vm_compute. reflexivity. Qed.

Lemma sextet_urlsafe (n : N) :
  (n < 64)%N ->
  let c := translate_char ("-"%char, "_"%char) (std_char n) in
  urlsafe_char c = true /\ Ascii.eqb c "=" = false /\ Ascii.eqb c "+" = false
  /\ Ascii.eqb c "/" = false.
Proof.
  intros Hn.
  pose proof (proj1 (List.forallb_forall _ _) std_char_table (N.to_nat n)) as Ht.
  assert (Hin : In (N.to_nat n) (seq 0 64)) by (apply in_seq; lia).
  specialize (Ht Hin). cbv beta zeta in Ht |- *. rewrite N2Nat.id in Ht.
  rewrite !andb_true_iff, !negb_true_iff in Ht. tauto.
Qed.

Ltac sextet_bound :=
  repeat match goal with
    | a : ascii |- _ =>
        lazymatch goal with
        | _ : (N_of_ascii a < 256)%N |- _ => fail
        | _ => pose proof (N_ascii_bounded a)
        end
    end;
  repeat match goal with
    | |- context [(?x mod ?k)%N] =>
        lazymatch goal with
        | _ : (x mod k < k)%N |- _ => fail
        | _ => assert (x mod k < k)%N by (apply N.mod_lt; lia)
        end
    | |- context [(?x / ?k)%N] =>
        lazymatch goal with
        | _ : (x / k < 256 / k)%N |- _ => fail
        | _ => assert (x / k < 256 / k)%N
                 by (apply N.Div0.div_lt_upper_bound; vm_compute (256 / k)%N;
                     vm_compute (k * _)%N; lia)
        end
    end;
  try (vm_compute (256 / _)%N in *); lia.

Lemma b64encode_alphabet (s : string) :
  forallb b64_out_char (b64encode s dash_underscore) = true.
Proof.
  unfold b64encode, dash_underscore.
  induction s as [|a|a b|a b c r IH] using string_ind3.
  - reflexivity.
  - cbn [b2a_base64 translate forallb]. unfold b64_out_char at 1 2.
    destruct (sextet_urlsafe (N_of_ascii a / 4)) as (-> & _); [sextet_bound|].
    destruct (sextet_urlsafe (N_of_ascii a mod 4 * 16)) as (-> & _); [sextet_bound|].
    reflexivity.
  - cbn [b2a_base64 translate forallb]. unfold b64_out_char at 1 2 3.
    destruct (sextet_urlsafe (N_of_ascii a / 4)) as (-> & _); [sextet_bound|].
    destruct (sextet_urlsafe (N_of_ascii a mod 4 * 16 + N_of_ascii b / 16)) as (-> & _);
      [sextet_bound|].
    destruct (sextet_urlsafe (N_of_ascii b mod 16 * 4)) as (-> & _); [sextet_bound|].
    reflexivity.
  - cbn [b2a_base64 translate forallb]. unfold b64_out_char at 1 2 3 4.
    destruct (sextet_urlsafe (N_of_ascii a / 4)) as (-> & _); [sextet_bound|].
    destruct (sextet_urlsafe (N_of_ascii a mod 4 * 16 + N_of_ascii b / 16)) as (-> & _);
      [sextet_bound|].
    destruct (sextet_urlsafe (N_of_ascii b mod 16 * 4 + N_of_ascii c / 64)) as (-> & _);
      [sextet_bound|].
    destruct (sextet_urlsafe (N_of_ascii c mod 64)) as (-> & _); [sextet_bound|].
    exact IH.
Qed.

(** Neither ['+'] nor ['/'] survives the substitution. *)
Lemma b64encode_no_plus_slash (s : string) :
  count "+" (b64encode s dash_underscore) = O /\ count "/" (b64encode s dash_underscore) = O.
Proof.
  split; apply (count_zero_of_forallb b64_out_char); try reflexivity;
    apply b64encode_alphabet.
Qed.

(** The number of padding characters depends on the length alone. *)
Lemma b64encode_padding (s : string) :
  count "=" (b64encode s dash_underscore) = ((3 - String.length s mod 3) mod 3)%nat.
Proof.
  unfold b64encode, dash_underscore.
  induction s as [|a|a b|a b c r IH] using string_ind3.
  - reflexivity.
  - cbn [b2a_base64 translate count].
    destruct (sextet_urlsafe (N_of_ascii a / 4)) as (_ & -> & _); [sextet_bound|].
    destruct (sextet_urlsafe (N_of_ascii a mod 4 * 16)) as (_ & -> & _); [sextet_bound|].
    reflexivity.
  - cbn [b2a_base64 translate count].
    destruct (sextet_urlsafe (N_of_ascii a / 4)) as (_ & -> & _); [sextet_bound|].
    destruct (sextet_urlsafe (N_of_ascii a mod 4 * 16 + N_of_ascii b / 16)) as (_ & -> & _);
      [sextet_bound|].
    destruct (sextet_urlsafe (N_of_ascii b mod 16 * 4)) as (_ & -> & _); [sextet_bound|].
    reflexivity.
  - cbn [b2a_base64 translate count].
    destruct (sextet_urlsafe (N_of_ascii a / 4)) as (_ & -> & _); [sextet_bound|].
    destruct (sextet_urlsafe (N_of_ascii a mod 4 * 16 + N_of_ascii b / 16)) as (_ & -> & _);
      [sextet_bound|].
    destruct (sextet_urlsafe (N_of_ascii b mod 16 * 4 + N_of_ascii c / 64)) as (_ & -> & _);
      [sextet_bound|].
    destruct (sextet_urlsafe (N_of_ascii c mod 64)) as (_ & -> & _); [sextet_bound|].
    rewrite IH. cbn [String.length].
    replace (S (S (S (String.length r)))) with (String.length r + 1 * 3)%nat by lia.
    now rewrite Nat.Div0.mod_add.
Qed.

Lemma b64encode_length (s : string) :
  String.length (b64encode s dash_underscore) = (4 * ((String.length s + 2) / 3))%nat.
Proof.
  unfold b64encode, dash_underscore.
  induction s as [|a|a b|a b c r IH] using string_ind3; try reflexivity.
  cbn [b2a_base64 translate String.length]. rewrite IH.
  replace (S (S (S (String.length r))) + 2)%nat with ((String.length r + 2) + 1 * 3)%nat by lia.
  rewrite Nat.div_add by lia. lia.
Qed.

(** A 16-byte initialisation vector is always encoded with two padding
    characters. *)
Lemma b64encode_iv_padding (iv : string) :
  String.length iv = 16%nat ->
  count "=" (b64encode iv dash_underscore) = 2%nat
  /\ String.length (b64encode iv dash_underscore) = 24%nat.
Proof.
  intros Hl. rewrite b64encode_padding, b64encode_length, Hl. split; reflexivity.
Qed.

(** ** URL quoting *)

Ltac each_char c := destruct c as [[] [] [] [] [] [] [] []].

Lemma mem_append c (a b : string) : mem c (a ^^ b) = mem c a || mem c b.
Proof.
  unfold mem. induction a as [|x a IH]; simpl; [reflexivity | now rewrite IH, orb_assoc].
Qed.

Lemma replace_append c t (a b : string) :
  replace c t (a ^^ b) = replace c t a ^^ replace c t b.
Proof.
  induction a as [|x a IH]; simpl; [reflexivity|].
  rewrite IH. destruct (Ascii.eqb x c); simpl; [now rewrite append_assoc | reflexivity].
Qed.

Lemma replace_percent c : replace " " "+" (percent c) = percent c.
Proof. each_char c; reflexivity. Qed.

Lemma quote_blank_pointwise (safe s : string) :
  replace " " "+" (quote_from_bytes s (safe ^^ " ")) = flat_map (quote_plus_char safe) s.
Proof.
  induction s as [|c s IH]; [reflexivity|].
  cbn [quote_from_bytes flat_map]. rewrite replace_append, IH. f_equal.
  unfold quote_plus_char. rewrite mem_append.
  destruct (Ascii.eqb_spec c " ") as [->|Hc].
  - replace (mem " " " ") with true by reflexivity. rewrite !orb_true_r. reflexivity.
  - replace (mem c " ") with false
      by (unfold mem; simpl; destruct (Ascii.eqb_spec c " "); [contradiction|reflexivity]).
    rewrite orb_false_r.
    destruct (always_safe c || mem c safe).
    + simpl. destruct (Ascii.eqb_spec c " "); [contradiction|reflexivity].
    + apply replace_percent.
Qed.

Lemma quote_noblank_pointwise (safe s : string) :
  mem " " s = false ->
  quote_from_bytes s safe = flat_map (quote_plus_char safe) s.
Proof.
  induction s as [|c s IH]; [reflexivity|].
  unfold mem. cbn [existsb]. rewrite orb_false_iff. intros [Hc Hs].
  cbn [quote_from_bytes flat_map]. rewrite (IH Hs). f_equal.
  unfold quote_plus_char. rewrite Ascii.eqb_sym in Hc. now rewrite Hc.
Qed.

(** [quote_plus] works character by character. *)
Lemma quote_plus_pointwise (safe s : string) :
  quote_plus s safe = flat_map (quote_plus_char safe) s.
Proof.
  unfold quote_plus, quote. destruct (mem " " s) eqn:Hs.
  - apply quote_blank_pointwise.
  - now apply quote_noblank_pointwise.
Qed.

Lemma quote_plus_char_length safe c :
  (1 <= String.length (quote_plus_char safe c))%nat.
Proof.
  unfold quote_plus_char, percent.
  destruct (Ascii.eqb c " "); [simpl; lia|].
  destruct (always_safe c || mem c safe); simpl; lia.
Qed.

Lemma flat_map_length safe s :
  (String.length s <= String.length (flat_map (quote_plus_char safe) s))%nat.
Proof.
  induction s as [|c s IH]; simpl; [lia|].
  rewrite append_length. pose proof (quote_plus_char_length safe c). lia.
Qed.

(** The check [d != quote_plus(d, '=$')] accepts exactly the strings of
    letters, digits and the characters [_.-~=$]. *)
Lemma quote_plus_fixpoint (d : string) :
  String.eqb d (quote_plus d "=$") = forallb payload_char d.
Proof.
  rewrite quote_plus_pointwise.
  induction d as [|c d IH]; [reflexivity|].
  cbn [flat_map forallb]. unfold quote_plus_char at 1. fold (payload_char c).
  destruct (Ascii.eqb_spec c " ") as [->|Hc].
  - replace (payload_char " ") with false by reflexivity. simpl. reflexivity.
  - destruct (payload_char c) eqn:Hp.
    + simpl. rewrite Ascii.eqb_refl. exact IH.
    + cbn [andb]. apply (proj2 (String.eqb_neq _ _)). unfold percent. intros Heq.
      simpl in Heq. injection Heq as _ Hd.
      pose proof (flat_map_length "=$" d) as Hl.
      rewrite Hd in Hl at 1. simpl in Hl. lia.
Qed.

Lemma quote_plus_char_ascii c : forallb is_ascii (quote_plus_char "" c) = true.
Proof. each_char c; reflexivity. Qed.

Lemma quote_plus_ascii (s : string) : forallb is_ascii (quote_plus s "") = true.
Proof.
  rewrite quote_plus_pointwise.
  induction s as [|c s IH]; [reflexivity|].
  cbn [flat_map]. now rewrite forallb_append, quote_plus_char_ascii, IH.
Qed.

(** A quoted value holds neither ['&'] nor ['=']: the fields of an
    encoded record cannot run into one another. *)
Lemma quote_plus_char_separators c :
  count "&" (quote_plus_char "" c) = O /\ count "=" (quote_plus_char "" c) = O.
Proof. each_char c; split; reflexivity. Qed.

Lemma quote_plus_separators (s : string) :
  count "&" (quote_plus s "") = O /\ count "=" (quote_plus s "") = O.
Proof.
  rewrite quote_plus_pointwise.
  induction s as [|c s [IH1 IH2]]; [split; reflexivity|].
  cbn [flat_map]. rewrite !count_append, IH1, IH2.
  destruct (quote_plus_char_separators c) as [-> ->]. split; reflexivity.
Qed.

Lemma join_forallb p sep (l : list string) :
  forallb p sep = true ->
  List.forallb (forallb p) l = true ->
  forallb p (join sep l) = true.
Proof.
  intros Hsep. induction l as [|x l IH]; [reflexivity|].
  cbn [List.forallb]. rewrite andb_true_iff. intros [Hx Hl].
  destruct l as [|y l]; [exact Hx|].
  change (join sep (x :: y :: l)) with (x ^^ sep ^^ join sep (y :: l)).
  now rewrite !forallb_append, Hx, Hsep, IH.
Qed.

Lemma urlencode_ascii (query : list (string * string)) :
  forallb is_ascii (urlencode query) = true.
Proof.
  unfold urlencode. apply join_forallb; [reflexivity|].
  induction query as [|[k v] q IH]; [reflexivity|].
  cbn [map List.forallb fst snd].
  now rewrite !forallb_append, !quote_plus_ascii, IH.
Qed.

(** ** Decimal numerals *)

Lemma digit_char_ok (n : N) : is_digit (ascii_of_N (48 + n mod 10)) = true.
Proof.
  unfold is_digit. rewrite N_ascii_embedding.
  - assert (n mod 10 < 10)%N by (apply N.mod_lt; lia).
    pose proof (N.le_0_l (n mod 10)).
    apply andb_true_iff. split; apply N.leb_le; lia.
  - assert (n mod 10 < 10)%N by (apply N.mod_lt; lia). lia.
Qed.

Lemma digits_of_digits fuel n acc :
  forallb is_digit acc = true -> forallb is_digit (digits_of fuel n acc) = true.
Proof.
  revert n acc. induction fuel as [|f IH]; intros n acc Hacc; [exact Hacc|].
  cbn [digits_of].
  assert (forallb is_digit (String (ascii_of_N (48 + n mod 10)) acc) = true)
    by (cbn [forallb]; now rewrite digit_char_ok).
  destruct (n <? 10)%N; [assumption | now apply IH].
Qed.

Lemma is_digit_ascii c : is_digit c = true -> is_ascii c = true.
Proof.
  unfold is_digit, is_ascii. rewrite andb_true_iff, !N.leb_le, N.ltb_lt. lia.
Qed.

Lemma of_Z_ascii (z : Z) : forallb is_ascii (of_Z z) = true.
Proof.
  unfold of_Z.
  assert (forallb is_ascii
            (digits_of (S (N.to_nat (N.log2 (Z.abs_N z)))) (Z.abs_N z) "") = true)
    by (apply (forallb_impl is_digit); [apply is_digit_ascii | now apply digits_of_digits]).
  destruct (z <? 0); [cbn [forallb]; now rewrite H|assumption].
Qed.

Lemma of_N_no_dot (n : N) : forallb is_digit (of_Z (Z.of_N n)) = true.
Proof.
  unfold of_Z. replace (Z.of_N n <? 0) with false by (symmetry; apply Z.ltb_ge; lia).
  now apply digits_of_digits.
Qed.

(** ** The hand-off *)

Section HandoffProperties.

Context {aes : Cryptodome} {py : PyLib} {collation : Collation} {project : Project}.

Ltac run := unfold mbind, M_bind, mret, M_ret, lift, raise, get, put.

Lemma next_random_length n w : String.length (next_random n w) = n.
Proof.
  unfold next_random. generalize (random_pos w) as p.
  induction n as [|n IH]; intros p; simpl; [reflexivity | now rewrite IH].
Qed.

(** A later read takes the bytes after the ones already drawn. *)
Lemma next_random_after n m w :
  next_random n (advance m w)
  = string_of_list_ascii (map (random_source w) (seq (random_pos w + m) n)).
Proof. reflexivity. Qed.

Lemma get_site_world siteid w r w' : get_site_or_404 siteid w = (r, w') -> w' = w.
Proof.
  unfold get_site_or_404. run.
  destruct (to_N siteid); [|now intros [= _ <-]].
  destruct (List.filter _ _); now intros [= _ <-].
Qed.

(** The site found depends on the site table alone. *)
Lemma get_site_stable siteid w w' site :
  site_table w' = site_table w ->
  get_site_or_404 siteid w = (Ok site, w) -> get_site_or_404 siteid w' = (Ok site, w').
Proof.
  unfold get_site_or_404. run. intros ->.
  destruct (to_N siteid); [|discriminate].
  destruct (List.filter _ _); [discriminate|]. now intros [= ->].
Qed.

Lemma encrypt_site_response_run site s w :
  _encrypt_site_response site s w =
    (match seal site s (next_random 16 w) with
     | Ok c => Ok (b64encode (next_random 16 w) dash_underscore ^^ "&"
                   ^^ b64encode c dash_underscore)
     | Raise e => Raise e
     end, advance 16 w).
Proof.
  unfold _encrypt_site_response, seal. run.
  change (Random_read 16 w) with (Ok (next_random 16 w), advance 16 w).
  cbv iota beta.
  destruct (b64decode (cryptkey site)) as [key|e]; [|reflexivity].
  destruct (AES_new key (next_random 16 w)) as [enc|e]; [|reflexivity].
  destruct (encode_ascii s) as [plain|e]; [|reflexivity].
  destruct (encrypt enc _) as [c|e]; reflexivity.
Qed.

(** What [communityauth] does for a user who passes every check. *)
Lemma communityauth_run clock request siteid site u w :
  get_site_or_404 siteid w = (Ok site, w) ->
  user request = Some u ->
  eligible clock site u w = true ->
  communityauth clock request siteid w =
    (let w1 := logged_in clock site u w in
     let s := serialize clock
                (info_of u (order_by (confirmed_emails u w)) (param_d request)
                   (param_su request)) in
     match seal site s (next_random 16 w1) with
     | Ok c => Ok (HttpResponseRedirect
                     (redirecturl site ^^ "?i="
                      ^^ b64encode (next_random 16 w1) dash_underscore
                      ^^ "&d=" ^^ b64encode c dash_underscore))
     | Raise e => Raise e
     end, advance 16 (logged_in clock site u w)).
Proof.
  intros Hsite Hu Hel. unfold eligible, profile_complete, in_cooloff, consent_missing in Hel.
  rewrite !andb_true_iff, !negb_true_iff in Hel. destruct Hel as [[Hp Hc] Hm].
  unfold communityauth. unfold mbind at 1. unfold M_bind at 1. rewrite Hsite. cbv iota beta.
  rewrite Hu, Hp, Hc. run. rewrite Hm. cbv zeta.
  unfold seal.
  change (upsert_lastlogin (user_id u) (site_id site) (CURRENT_TIMESTAMP clock) w)
    with (Ok tt, logged_in clock site u w).
  cbv iota beta.
  set (w1 := logged_in clock site u w).
  change (confirmed_emails u w1) with (confirmed_emails u w).
  change (Random_read 16 w1) with (Ok (next_random 16 w1), advance 16 w1).
  cbv iota beta.
  destruct (b64decode (cryptkey site)) as [key|e]; [|reflexivity].
  destruct (AES_new key (next_random 16 w1)) as [enc|e]; [|reflexivity].
  destruct (encode_ascii _) as [plain|e]; [|reflexivity].
  destruct (encrypt enc _) as [c|e]; reflexivity.
Qed.

Lemma communityauth_noinfo clock request siteid site u w :
  get_site_or_404 siteid w = (Ok site, w) ->
  user request = Some u ->
  profile_complete u = false ->
  communityauth clock request siteid w = (Ok noinfo_page, w).
Proof.
  intros Hsite Hu Hp. unfold profile_complete in Hp. apply negb_false_iff in Hp.
  unfold communityauth. unfold mbind at 1. unfold M_bind at 1. rewrite Hsite. cbv iota beta.
  rewrite Hu, Hp. reflexivity.
Qed.

Lemma communityauth_in_cooloff clock request siteid site u w :
  get_site_or_404 siteid w = (Ok site, w) ->
  user request = Some u ->
  profile_complete u = true ->
  in_cooloff clock site u = true ->
  communityauth clock request siteid w =
    (Ok (cooloff_page site), snd (log_warning (cooloff_warning site u) w)).
Proof.
  intros Hsite Hu Hp Hc. unfold profile_complete in Hp. apply negb_true_iff in Hp.
  unfold in_cooloff in Hc.
  unfold communityauth. unfold mbind at 1. unfold M_bind at 1. rewrite Hsite. cbv iota beta.
  rewrite Hu, Hp, Hc. reflexivity.
Qed.

Lemma communityauth_needs_consent clock request siteid site u w :
  get_site_or_404 siteid w = (Ok site, w) ->
  user request = Some u ->
  profile_complete u = true ->
  in_cooloff clock site u = false ->
  consent_missing site u w = true ->
  communityauth clock request siteid w = (Ok (consent_redirect siteid request), w).
Proof.
  intros Hsite Hu Hp Hc Hm. unfold profile_complete in Hp. apply negb_true_iff in Hp.
  unfold in_cooloff in Hc. unfold consent_missing in Hm.
  unfold communityauth. unfold mbind at 1. unfold M_bind at 1. rewrite Hsite. cbv iota beta.
  rewrite Hu, Hp, Hc. run. rewrite Hm. reflexivity.
Qed.

(** Whatever the request, the table of last logins afterwards is either
    the table before or the table after one upsert for a user who passed
    every check. *)
Lemma communityauth_lastlogin clock request siteid w :
  lastlogin_table (snd (communityauth clock request siteid w)) = lastlogin_table w
  \/ exists site u,
       get_site_or_404 siteid w = (Ok site, w) /\ user request = Some u
       /\ eligible clock site u w = true
       /\ lastlogin_table (snd (communityauth clock request siteid w))
          = lastlogin_table (logged_in clock site u w).
Proof.
  destruct (get_site_or_404 siteid w) as [[site|e] w0] eqn:Hsite.
  - pose proof (get_site_world _ _ _ _ Hsite) as ->.
    destruct (user request) as [u|] eqn:Hu.
    + destruct (eligible clock site u w) eqn:Hel.
      * right. exists site, u. repeat split; try assumption.
        rewrite (communityauth_run _ _ _ _ _ _ Hsite Hu Hel). reflexivity.
      * left. unfold eligible in Hel.
        destruct (profile_complete u) eqn:Hp;
          [|now rewrite (communityauth_noinfo _ _ _ _ _ _ Hsite Hu Hp)].
        destruct (in_cooloff clock site u) eqn:Hc;
          [now rewrite (communityauth_in_cooloff _ _ _ _ _ _ Hsite Hu Hp Hc)|].
        destruct (consent_missing site u w) eqn:Hm; [|discriminate].
        now rewrite (communityauth_needs_consent _ _ _ _ _ _ Hsite Hu Hp Hc Hm).
    + left. unfold communityauth. unfold mbind at 1. unfold M_bind at 1.
      rewrite Hsite. cbv iota beta. rewrite Hu. reflexivity.
  - left. pose proof (get_site_world _ _ _ _ Hsite) as ->.
    unfold communityauth. unfold mbind at 1. unfold M_bind at 1. now rewrite Hsite.
Qed.

Lemma logged_in_table clock site u w :
  lastlogin_table (logged_in clock site u w) =
    <[(user_id u, site_id site) :=
        (CURRENT_TIMESTAMP clock,
         match lastlogin_table w !! (user_id u, site_id site) with
         | None => 1
         | Some (_, n) => n + 1
         end)]> (lastlogin_table w).
Proof.
  unfold logged_in, upsert_lastlogin. cbn [snd set_lastlogin_table lastlogin_table].
  destruct (lastlogin_table w !! (user_id u, site_id site)) as [[t n]|]; reflexivity.
Qed.

Lemma logincount_logged_in clock site u w k :
  logincount k (logged_in clock site u w) =
    if decide (k = (user_id u, site_id site)) then logincount k w + 1 else logincount k w.
Proof.
  unfold logincount. rewrite logged_in_table.
  destruct (decide (k = (user_id u, site_id site))) as [->|Hk].
  - rewrite lookup_insert_eq.
    destruct (lastlogin_table w !! (user_id u, site_id site)) as [[t n]|]; reflexivity.
  - rewrite lookup_insert_ne by congruence. reflexivity.
Qed.

(** C6: an authenticated request whose user lacks a first name, a last
    name or an email address is answered with the "no info" page; the
    world is left exactly as it was (so no login-count row is written) and
    the answer is a rendered page, not a redirect to the partner. *)
Theorem communityauth_incomplete_profile clock request siteid site u w :
  get_site_or_404 siteid w = (Ok site, w) ->
  user request = Some u ->
  first_name u = "" \/ last_name u = "" \/ email u = "" ->
  communityauth clock request siteid w
  = (Ok (render_pgweb "account" "account/communityauth_noinfo.html" []), w).
Proof.
  intros Hsite Hu Hempty. apply (communityauth_noinfo _ _ _ site u); try assumption.
  unfold profile_complete. apply negb_false_iff.
  destruct Hempty as [-> | [-> | ->]]; cbn [String.eqb]; now rewrite ?orb_true_r.
Qed.

(** C3: for a site with a positive cooloff period and a user whose account
    is younger than [cooloff_hours] hours, the hand-off is refused: the
    answer is a rendered page and the last-login table is untouched; once
    the profile check is passed the page is the cooloff page, returned
    normally with a warning logged; and the outcome is the same whatever
    the user's [last_login] is: only [date_joined] enters the comparison. *)
Theorem communityauth_cooloff clock request siteid site u w :
  get_site_or_404 siteid w = (Ok site, w) ->
  user request = Some u ->
  cooloff_hours site > 0 ->
  datetime_now clock - date_joined u < cooloff_hours site * 3600 * 1000000 ->
  (exists template context w',
     communityauth clock request siteid w
     = (Ok (render_pgweb "account" template context), w')
     /\ lastlogin_table w' = lastlogin_table w /\ random_pos w' = random_pos w)
  /\ (first_name u <> "" -> last_name u <> "" -> email u <> "" ->
      communityauth clock request siteid w
      = (Ok (render_pgweb "account" "account/communityauth_cooloff.html"
               [("site", CtxSite site)]),
         snd (log_warning (cooloff_warning site u) w)))
  /\ (forall t,
        communityauth clock (set_user (Some (set_last_login t u)) request) siteid w
        = communityauth clock request siteid w).
Proof.
  intros Hsite Hu Hpos Hyoung.
  assert (Hc : in_cooloff clock site u = true).
  { unfold in_cooloff, timedelta_hours. apply andb_true_iff. split.
    - apply Z.gtb_lt. lia.
    - apply Z.ltb_lt. lia. }
  split; [|split].
  - destruct (profile_complete u) eqn:Hp.
    + eexists _, _, _. rewrite (communityauth_in_cooloff _ _ _ _ _ _ Hsite Hu Hp Hc).
      split; [reflexivity | split; reflexivity].
    + eexists _, _, _. rewrite (communityauth_noinfo _ _ _ _ _ _ Hsite Hu Hp).
      split; [reflexivity | split; reflexivity].
  - intros Hf Hl He. apply communityauth_in_cooloff; try assumption.
    unfold profile_complete. apply negb_true_iff.
    apply String.eqb_neq in Hf, Hl, He. now rewrite Hf, Hl, He.
  - intros t. destruct request as [m g p o]. cbn in Hu. subst o. destruct u. reflexivity.
Qed.

(** C7: a hand-off that passes every check performs the upsert once: a
    missing row for [(user, site)] becomes [(CURRENT_TIMESTAMP, 1)], an
    existing row gets the new timestamp and its count plus one, and no
    other row changes; and over any call of [communityauth] whatsoever no
    login count ever decreases. *)
Theorem communityauth_upsert clock request siteid site u w :
  get_site_or_404 siteid w = (Ok site, w) ->
  user request = Some u ->
  eligible clock site u w = true ->
  let k := (user_id u, site_id site) in
  let w' := snd (communityauth clock request siteid w) in
  (lastlogin_table w !! k = None ->
   lastlogin_table w' !! k = Some (CURRENT_TIMESTAMP clock, 1))
  /\ (forall t n, lastlogin_table w !! k = Some (t, n) ->
      lastlogin_table w' !! k = Some (CURRENT_TIMESTAMP clock, n + 1))
  /\ (forall k', k' <> k -> lastlogin_table w' !! k' = lastlogin_table w !! k')
  /\ logincount k w' = logincount k w + 1
  /\ (forall clock2 request2 siteid2 w2 k2,
        logincount k2 w2 <= logincount k2 (snd (communityauth clock2 request2 siteid2 w2))).
Proof.
  intros Hsite Hu Hel k w'.
  assert (Hw' : lastlogin_table w' = lastlogin_table (logged_in clock site u w)).
  { subst w'. now rewrite (communityauth_run _ _ _ _ _ _ Hsite Hu Hel). }
  repeat split.
  - intros Hnone. rewrite Hw', logged_in_table. fold k. rewrite Hnone.
    apply lookup_insert_eq.
  - intros t n Hsome. rewrite Hw', logged_in_table. fold k. rewrite Hsome.
    apply lookup_insert_eq.
  - intros k' Hk'. rewrite Hw', logged_in_table. fold k.
    apply lookup_insert_ne. congruence.
  - unfold logincount at 1. rewrite Hw'. fold (logincount k (logged_in clock site u w)).
    rewrite logincount_logged_in. subst k. now rewrite decide_True.
  - intros clock2 request2 siteid2 w2 k2.
    destruct (communityauth_lastlogin clock2 request2 siteid2 w2)
      as [Heq | (site2 & u2 & _ & _ & _ & Heq)].
    + unfold logincount. rewrite Heq. lia.
    + unfold logincount at 2. rewrite Heq.
      fold (logincount k2 (logged_in clock2 site2 u2 w2)).
      rewrite logincount_logged_in. destruct (decide _); lia.
Qed.

(** *** The record and its ordering *)

Lemma insert_sorted_perm x l : Permutation (x :: l) (insert_sorted x l).
Proof.
  induction l as [|y l IH]; cbn [insert_sorted]; [reflexivity|].
  destruct (text_leb x y); [reflexivity|].
  rewrite perm_swap. now apply perm_skip.
Qed.

Lemma order_by_perm l : Permutation (order_by l) l.
Proof.
  induction l as [|x l IH]; cbn [order_by]; [reflexivity|].
  rewrite <- insert_sorted_perm. now apply perm_skip.
Qed.

Lemma insert_sorted_hdrel a x l :
  HdRel text_le a l -> text_le a x -> HdRel text_le a (insert_sorted x l).
Proof.
  intros Hl Hx. destruct l as [|y l]; cbn [insert_sorted]; [now constructor|].
  destruct (text_leb x y); constructor; [assumption | now inversion Hl].
Qed.

Lemma insert_sorted_sorted x l : Sorted text_le l -> Sorted text_le (insert_sorted x l).
Proof.
  induction 1 as [|y l Hs IH Hhd]; cbn [insert_sorted]; [repeat constructor|].
  destruct (text_leb x y) eqn:Hxy.
  - constructor; [now constructor | now constructor].
  - constructor; [exact IH|].
    apply insert_sorted_hdrel; [exact Hhd|].
    destruct (text_leb_total x y) as [Hle|Hle]; [congruence | exact Hle].
Qed.

Lemma order_by_sorted l : Sorted text_le (order_by l).
Proof.
  induction l as [|x l IH]; cbn [order_by]; [constructor | now apply insert_sorted_sorted].
Qed.

Lemma startswith_slash_nonempty su : startswith su "/" = true -> String.eqb su "" = false.
Proof. destruct su; [discriminate | reflexivity]. Qed.

Lemma serialize_record clock u se request :
  serialize clock (info_of u se (param_d request) (param_su request))
  = record_of clock u se request.
Proof.
  unfold serialize, record_of, info_of, payload_field, param_d, param_su.
  do 2 f_equal.
  assert (Hsu : forall su, (if truthy (if startswith su "/" then Some su else None)
                            then [("su", opt_str (if startswith su "/" then Some su else None))]
                            else [])
                           = if startswith su "/" then [("su", su)] else []).
  { intros su. destruct (startswith su "/") eqn:Hs; [|reflexivity].
    cbn [truthy opt_str]. now rewrite (startswith_slash_nonempty _ Hs). }
  destruct (lookup_last "d" (GET request)) as [d|].
  - rewrite quote_plus_fixpoint.
    destruct d as [|c r].
    + cbn [forallb truthy opt_str String.eqb negb].
      destruct (lookup_last "su" (GET request)) as [su|];
        [|now rewrite append_nil_r].
      rewrite Hsu. destruct (startswith su "/"); [reflexivity | now rewrite append_nil_r].
    + destruct (forallb payload_char (String c r)).
      * reflexivity.
      * cbn [truthy].
        destruct (lookup_last "su" (GET request)) as [su|];
          [|now rewrite append_nil_r].
        rewrite Hsu. destruct (startswith su "/"); [reflexivity | now rewrite append_nil_r].
  - cbn [truthy].
    destruct (lookup_last "su" (GET request)) as [su|]; [|now rewrite append_nil_r].
    rewrite Hsu. destruct (startswith su "/"); [reflexivity | now rewrite append_nil_r].
Qed.

Lemma serialize_ascii clock info : encode_ascii (serialize clock info) = Ok (serialize clock info).
Proof.
  unfold encode_ascii, serialize.
  fold is_ascii. change (fun c => is_ascii c) with is_ascii.
  now rewrite !forallb_append, of_Z_ascii, urlencode_ascii.
Qed.


(** *** Encoding and sealing of what goes to the partner *)

Lemma urlsafe_padded_b64encode raw : urlsafe_padded raw (b64encode raw dash_underscore).
Proof.
  unfold urlsafe_padded. pose proof (b64encode_no_plus_slash raw) as [Hp Hs].
  repeat split; auto using b64encode_alphabet, b64encode_padding.
Qed.

Lemma seal_sealed site s w c :
  seal site s (next_random 16 w) = Ok c -> sealed site s w (next_random 16 w) c.
Proof.
  unfold seal, sealed. intros Hseal.
  split; [reflexivity|]. split; [apply next_random_length|].
  destruct (b64decode (cryptkey site)) as [key|]; [|discriminate].
  destruct (AES_new key _) as [enc|] eqn:Henc; [|discriminate].
  unfold encode_ascii in Hseal.
  destruct (forallb _ s); [|discriminate].
  exists key, enc. repeat split; assumption.
Qed.

Lemma get_site_id siteid w site :
  get_site_or_404 siteid w = (Ok site, w) ->
  exists n, to_N siteid = Some n /\ site_id site = Z.of_N n /\ In site (site_table w).
Proof.
  unfold get_site_or_404. run.
  destruct (to_N siteid) as [n|]; [|discriminate].
  destruct (List.filter _ _) as [|s l] eqn:Hf; [discriminate|].
  intros [= ->]. exists n. split; [reflexivity|].
  assert (Hin : In site (List.filter (fun s => site_id s =? Z.of_N n) (site_table w)))
    by (rewrite Hf; now left).
  apply List.filter_In in Hin as [Hin Hid]. apply Z.eqb_eq in Hid. now split.
Qed.

Lemma encrypt_site_response_sealed site s w out w' :
  _encrypt_site_response site s w = (Ok out, w') ->
  exists iv c,
    sealed site s w iv c
    /\ out = b64encode iv dash_underscore ^^ "&" ^^ b64encode c dash_underscore
    /\ w' = advance 16 w.
Proof.
  rewrite encrypt_site_response_run.
  destruct (seal site s (next_random 16 w)) as [c|e] eqn:Hseal; [|discriminate].
  intros [= <- <-]. exists (next_random 16 w), c.
  split; [apply seal_sealed; exact Hseal | split; reflexivity].
Qed.

Lemma communityauth_sealed clock request siteid site u w url w' :
  get_site_or_404 siteid w = (Ok site, w) ->
  user request = Some u ->
  eligible clock site u w = true ->
  communityauth clock request siteid w = (Ok (HttpResponseRedirect url), w') ->
  exists se iv c,
    Permutation se (confirmed_emails u w)
    /\ sealed site (record_of clock u se request) (logged_in clock site u w) iv c
    /\ url = redirecturl site ^^ "?i=" ^^ b64encode iv dash_underscore
             ^^ "&d=" ^^ b64encode c dash_underscore
    /\ w' = advance 16 (logged_in clock site u w).
Proof.
  intros Hsite Hu Hel. rewrite (communityauth_run _ _ _ _ _ _ Hsite Hu Hel). cbv zeta.
  rewrite serialize_record.
  destruct (seal site _ _) as [c|e] eqn:Hseal; [|discriminate].
  intros [= <- <-]. eexists _, _, c.
  split; [apply order_by_perm|]. split; [apply seal_sealed; exact Hseal | split; reflexivity].
Qed.

(** C1 (as amended): on a successful hand-off the redirect is the
    partner's URL followed by [?i=<iv>&d=<ciphertext>], and a
    server-to-server body is [<iv>&<ciphertext>]; both parts are base64
    with ['-'] for ['+'] and ['_'] for ['/'], so neither ['+'] nor ['/']
    occurs; the padding is kept: the 16-byte vector always ends up with
    two ['='] characters and the ciphertext with as many as its length
    calls for. *)
Theorem handoff_encoding clock request siteid site u w url w' :
  get_site_or_404 siteid w = (Ok site, w) ->
  user request = Some u ->
  eligible clock site u w = true ->
  communityauth clock request siteid w = (Ok (HttpResponseRedirect url), w') ->
  (exists iv c i d,
     url = redirecturl site ^^ "?i=" ^^ i ^^ "&d=" ^^ d
     /\ String.length iv = 16%nat
     /\ urlsafe_padded iv i /\ urlsafe_padded c d
     /\ count "=" i = 2%nat /\ String.length i = 24%nat)
  /\ (forall site2 s w2 out w2',
        _encrypt_site_response site2 s w2 = (Ok out, w2') ->
        exists iv c i d,
          out = i ^^ "&" ^^ d
          /\ String.length iv = 16%nat
          /\ urlsafe_padded iv i /\ urlsafe_padded c d
          /\ count "=" i = 2%nat /\ String.length i = 24%nat).
Proof.
  intros Hsite Hu Hel Hrun. split.
  - destruct (communityauth_sealed _ _ _ _ _ _ _ _ Hsite Hu Hel Hrun)
      as (se & iv & c & _ & (_ & Hlen & _) & -> & _).
    exists iv, c, (b64encode iv dash_underscore), (b64encode c dash_underscore).
    destruct (b64encode_iv_padding iv Hlen) as [Hpad Hl].
    split; [reflexivity|]. split; [exact Hlen|].
    split; [apply urlsafe_padded_b64encode|]. split; [apply urlsafe_padded_b64encode|].
    split; assumption.
  - intros site2 s w2 out w2' Hout.
    destruct (encrypt_site_response_sealed _ _ _ _ _ Hout)
      as (iv & c & (_ & Hlen & _) & -> & _).
    exists iv, c, (b64encode iv dash_underscore), (b64encode c dash_underscore).
    destruct (b64encode_iv_padding iv Hlen) as [Hpad Hl].
    split; [reflexivity|]. split; [exact Hlen|].
    split; [apply urlsafe_padded_b64encode|]. split; [apply urlsafe_padded_b64encode|].
    split; assumption.
Qed.

Lemma search_sealed request siteid w resp w' :
  communityauth_search request siteid w = (Ok resp, w') ->
  exists site s iv c,
    get_site_or_404 siteid w = (Ok site, w)
    /\ sealed site s w iv c
    /\ resp = HttpResponseBody (b64encode iv dash_underscore ^^ "&"
                                ^^ b64encode c dash_underscore)
    /\ w' = advance 16 w.
Proof.
  unfold communityauth_search. unfold mbind at 1. unfold M_bind at 1.
  destruct (get_site_or_404 siteid w) as [[site|e] w0] eqn:Hsite; [|discriminate].
  pose proof (get_site_world _ _ _ _ Hsite) as ->. run.
  destruct (search_filter request) as [q|e]; [|discriminate].
  rewrite encrypt_site_response_run.
  destruct (seal site _ _) as [c|e] eqn:Hseal; [|discriminate].
  intros [= <- <-]. eexists site, _, _, c.
  split; [reflexivity|]. split; [apply seal_sealed; exact Hseal | split; reflexivity].
Qed.

Lemma getkeys_sealed request siteid since w resp w' :
  communityauth_getkeys request siteid since w = (Ok resp, w') ->
  exists site s iv c,
    get_site_or_404 siteid w = (Ok site, w)
    /\ sealed site s w iv c
    /\ resp = HttpResponseBody (b64encode iv dash_underscore ^^ "&"
                                ^^ b64encode c dash_underscore)
    /\ w' = advance 16 w.
Proof.
  unfold communityauth_getkeys. unfold mbind at 1. unfold M_bind at 1.
  destruct (get_site_or_404 siteid w) as [[site|e] w0] eqn:Hsite; [|discriminate].
  pose proof (get_site_world _ _ _ _ Hsite) as ->. run.
  destruct (truthy since).
  - destruct (int_of_string _) as [ts|e]; [|discriminate].
    destruct (fromtimestamp ts) as [t|e]; [|discriminate].
    rewrite encrypt_site_response_run.
    destruct (seal site _ _) as [c|e] eqn:Hseal; [|discriminate].
    intros [= <- <-]. eexists site, _, _, c.
    split; [reflexivity|]. split; [apply seal_sealed; exact Hseal | split; reflexivity].
  - rewrite encrypt_site_response_run.
    destruct (seal site _ _) as [c|e] eqn:Hseal; [|discriminate].
    intros [= <- <-]. eexists site, _, _, c.
    split; [reflexivity|]. split; [apply seal_sealed; exact Hseal | split; reflexivity].
Qed.

(** C8: whatever the hand-off, the user search or the key export sends
    to a partner is built from a ciphertext alone: the plaintext is
    encrypted under the key decoded from the [cryptkey] of the very site
    the request names, with a 16-byte vector read from the random source
    for that one operation, after which the source has moved on by 16
    bytes, so the next operation reads other bytes. *)
Theorem partner_responses_sealed clock request siteid site u w url w' :
  get_site_or_404 siteid w = (Ok site, w) ->
  user request = Some u ->
  eligible clock site u w = true ->
  communityauth clock request siteid w = (Ok (HttpResponseRedirect url), w') ->
  (exists n s iv c,
     to_N siteid = Some n /\ site_id site = Z.of_N n
     /\ sealed site s (logged_in clock site u w) iv c
     /\ url = redirecturl site ^^ "?i=" ^^ b64encode iv dash_underscore
              ^^ "&d=" ^^ b64encode c dash_underscore
     /\ random_pos w' = (random_pos w + 16)%nat
     /\ random_source w' = random_source w)
  /\ (forall request2 siteid2 w2 resp w2',
        communityauth_search request2 siteid2 w2 = (Ok resp, w2') ->
        exists site2 n s iv c,
          get_site_or_404 siteid2 w2 = (Ok site2, w2)
          /\ to_N siteid2 = Some n /\ site_id site2 = Z.of_N n
          /\ sealed site2 s w2 iv c
          /\ resp = HttpResponseBody (b64encode iv dash_underscore ^^ "&"
                                      ^^ b64encode c dash_underscore)
          /\ random_pos w2' = (random_pos w2 + 16)%nat
          /\ random_source w2' = random_source w2)
  /\ (forall request2 siteid2 since w2 resp w2',
        communityauth_getkeys request2 siteid2 since w2 = (Ok resp, w2') ->
        exists site2 n s iv c,
          get_site_or_404 siteid2 w2 = (Ok site2, w2)
          /\ to_N siteid2 = Some n /\ site_id site2 = Z.of_N n
          /\ sealed site2 s w2 iv c
          /\ resp = HttpResponseBody (b64encode iv dash_underscore ^^ "&"
                                      ^^ b64encode c dash_underscore)
          /\ random_pos w2' = (random_pos w2 + 16)%nat
          /\ random_source w2' = random_source w2).
Proof.
  intros Hsite Hu Hel Hrun. split; [|split].
  - destruct (communityauth_sealed _ _ _ _ _ _ _ _ Hsite Hu Hel Hrun)
      as (se & iv & c & _ & Hsealed & -> & ->).
    destruct (get_site_id _ _ _ Hsite) as (n & Hn & Hid & _).
    exists n, (record_of clock u se request), iv, c.
    split; [exact Hn|]. split; [exact Hid|]. split; [exact Hsealed|].
    split; [reflexivity|]. split; reflexivity.
  - intros request2 siteid2 w2 resp w2' Hsearch.
    destruct (search_sealed _ _ _ _ _ Hsearch) as (site2 & s & iv & c & Hs2 & Hsealed & -> & ->).
    destruct (get_site_id _ _ _ Hs2) as (n & Hn & Hid & _).
    exists site2, n, s, iv, c.
    split; [exact Hs2|]. split; [exact Hn|]. split; [exact Hid|]. split; [exact Hsealed|].
    split; [reflexivity|]. split; reflexivity.
  - intros request2 siteid2 since w2 resp w2' Hkeys.
    destruct (getkeys_sealed _ _ _ _ _ _ Hkeys) as (site2 & s & iv & c & Hs2 & Hsealed & -> & ->).
    destruct (get_site_id _ _ _ Hs2) as (n & Hn & Hid & _).
    exists site2, n, s, iv, c.
    split; [exact Hs2|]. split; [exact Hn|]. split; [exact Hid|]. split; [exact Hsealed|].
    split; [reflexivity|]. split; reflexivity.
Qed.

(** *** Request parameters *)

Lemma lookup_last_without_same k (q : QueryDict) :
  lookup_last k (List.filter (fun kv => negb (String.eqb (fst kv) k)) q) = None.
Proof.
  induction q as [|[k' v] q IH]; [reflexivity|].
  cbn [List.filter fst]. destruct (String.eqb_spec k' k) as [->|Hk]; cbn [negb]; [exact IH|].
  cbn [lookup_last]. rewrite IH. now apply String.eqb_neq in Hk as ->.
Qed.

Lemma lookup_last_without_other k k' (q : QueryDict) :
  k <> k' ->
  lookup_last k' (List.filter (fun kv => negb (String.eqb (fst kv) k)) q) = lookup_last k' q.
Proof.
  intros Hne. induction q as [|[k0 v] q IH]; [reflexivity|].
  cbn [List.filter fst lookup_last]. destruct (String.eqb_spec k0 k) as [->|Hk]; cbn [negb].
  - rewrite IH. apply String.eqb_neq in Hne as ->. now destruct (lookup_last k' q).
  - cbn [lookup_last]. now rewrite IH.
Qed.

(** [communityauth] reads the query string through [param_d] and
    [param_su] only. *)
Lemma communityauth_params clock r1 r2 siteid w :
  method r1 = method r2 -> POST r1 = POST r2 -> user r1 = user r2 ->
  param_d r1 = param_d r2 -> param_su r1 = param_su r2 ->
  communityauth clock r1 siteid w = communityauth clock r2 siteid w.
Proof.
  intros Hm Hp Hu Hd Hsu. unfold communityauth. now rewrite Hm, Hp, Hu, Hd, Hsu.
Qed.

Lemma payload_field_params r1 r2 :
  param_d r1 = param_d r2 -> param_su r1 = param_su r2 ->
  forall clock u se, record_of clock u se r1 = record_of clock u se r2.
Proof.
  intros Hd Hsu clock u se. rewrite <- !serialize_record. now rewrite Hd, Hsu.
Qed.

Lemma malformed_params k request :
  malformed k request ->
  param_d (without_param k request) = param_d request
  /\ param_su (without_param k request) = param_su request.
Proof.
  unfold param_d, param_su, without_param. cbn [GET].
  intros [[-> (d & Hd & Hbad)] | [-> (su & Hsu & Hbad)]].
  - rewrite lookup_last_without_same, (lookup_last_without_other "d" "su") by discriminate.
    rewrite Hd, quote_plus_fixpoint, Hbad. split; reflexivity.
  - rewrite lookup_last_without_same, (lookup_last_without_other "su" "d") by discriminate.
    rewrite Hsu, Hbad. split; reflexivity.
Qed.

(** C4 (as amended): a ['d'] holding a character other than a letter, a
    digit or one of [_.-~=$], or an ['su'] that does not start with a
    slash, is dropped as a whole and without complaint: the outcome is
    that of the same request without the parameter, and for a user who
    passes every check it is the redirect to the partner as soon as the
    cipher calls succeed. *)
Theorem malformed_payload_dropped clock request siteid w k :
  malformed k request ->
  communityauth clock request siteid w
  = communityauth clock (without_param k request) siteid w
  /\ (forall site u c,
        get_site_or_404 siteid w = (Ok site, w) ->
        user request = Some u ->
        eligible clock site u w = true ->
        let w1 := logged_in clock site u w in
        seal site (record_of clock u (order_by (confirmed_emails u w))
                     (without_param k request)) (next_random 16 w1) = Ok c ->
        communityauth clock request siteid w
        = (Ok (HttpResponseRedirect
                 (redirecturl site ^^ "?i=" ^^ b64encode (next_random 16 w1) dash_underscore
                  ^^ "&d=" ^^ b64encode c dash_underscore)),
           advance 16 w1)).
Proof.
  intros Hbad. destruct (malformed_params _ _ Hbad) as [Hd Hsu]. split.
  - symmetry. now apply communityauth_params.
  - intros site u c Hsite Hu Hel w1 Hseal.
    rewrite (communityauth_run _ _ _ _ _ _ Hsite Hu Hel). cbv zeta. fold w1.
    rewrite serialize_record, <- (payload_field_params _ _ Hd Hsu), Hseal. reflexivity.
Qed.

(** C10 (as amended): when the request carries a non-empty ['d'] made of
    payload characters, an ['su'] is ignored: return path and record hold
    the ['d'] payload alone, and the outcome is that of the request
    without ['su']. *)
Theorem d_takes_precedence clock request siteid w d :
  lookup_last "d" (GET request) = Some d ->
  d <> "" ->
  forallb payload_char d = true ->
  urldata_of (param_d request) (param_su request) = "?d=" ^^ d
  /\ (forall u se,
        info_of u se (param_d request) (param_su request)
        = [("u", username u); ("f", first_name u); ("l", last_name u); ("e", email u);
           ("se", join "," se); ("d", d)])
  /\ communityauth clock request siteid w
     = communityauth clock (without_param "su" request) siteid w.
Proof.
  intros Hd Hne Hok.
  assert (Hpd : param_d request = Some d)
    by (unfold param_d; now rewrite Hd, quote_plus_fixpoint, Hok).
  assert (Ht : truthy (Some d) = true)
    by (cbn [truthy]; apply negb_true_iff; now apply String.eqb_neq).
  split; [|split].
  - unfold urldata_of. now rewrite Hpd, Ht.
  - intros u se. unfold info_of. now rewrite Hpd, Ht.
  - unfold communityauth.
    assert (Hpd' : param_d (without_param "su" request) = Some d).
    { unfold param_d, without_param. cbn [GET].
      rewrite (lookup_last_without_other "su" "d") by discriminate.
      now rewrite Hd, quote_plus_fixpoint, Hok. }
    cbn [method POST user without_param]. rewrite Hpd, Hpd'.
    unfold urldata_of, info_of. rewrite Ht. reflexivity.
Qed.

(** *** Consent *)

Lemma consent_grant_run clock request siteid site u w next :
  get_site_or_404 siteid w = (Ok site, w) ->
  user request = Some u ->
  method request = "POST" ->
  consent_form_clean (orgname (org site)) (POST request) = Some next ->
  communityauth_consent clock request siteid w =
    match consents_of (org site) u w with
    | [] => (Ok (HttpResponseRedirect next),
             set_consent_table (consent_table w ++ [new_consent clock (org site) u]) w)
    | [_] => (Ok (HttpResponseRedirect next), w)
    | _ :: _ :: _ => (Raise MultipleObjectsReturned, w)
    end.
Proof.
  intros Hsite Hu Hm Hform. unfold communityauth_consent, login_required. rewrite Hu.
  unfold mbind at 1. unfold M_bind at 1. rewrite Hsite. cbv iota beta.
  rewrite Hm. cbn [String.eqb Ascii.eqb Bool.eqb]. rewrite Hform.
  unfold get_or_create_consent. run.
  destruct (consents_of (org site) u w) as [|c [|c' l]]; reflexivity.
Qed.

Lemma consents_of_new clock o u w :
  consents_of o u (set_consent_table (consent_table w ++ [new_consent clock o u]) w)
  = (consents_of o u w ++ [new_consent clock o u])%list.
Proof.
  unfold consents_of. cbn [consent_table set_consent_table].
  rewrite List.filter_app. cbn [List.filter new_consent consent_org consent_user].
  now rewrite !Z.eqb_refl.
Qed.

Lemma grants_settled clocks request siteid site u w next c :
  get_site_or_404 siteid w = (Ok site, w) ->
  user request = Some u ->
  method request = "POST" ->
  consent_form_clean (orgname (org site)) (POST request) = Some next ->
  consents_of (org site) u w = [c] ->
  grants clocks request siteid w = w.
Proof.
  intros Hsite Hu Hm Hform Hone. induction clocks as [|clock rest IH]; [reflexivity|].
  cbn [grants]. rewrite (consent_grant_run _ _ _ _ _ _ _ Hsite Hu Hm Hform), Hone.
  exact IH.
Qed.


End HandoffProperties.

(** ** Documentation URLs *)

Section DocsProperties.

Context {backend : DocsBackend}.

Lemma find_digits (s : string) : forallb is_digit s = true -> find "." s = -1.
Proof.
  induction s as [|c s IH]; [reflexivity|].
  cbn [forallb find]. rewrite andb_true_iff. intros [Hc Hs]. rewrite (IH Hs).
  destruct (Ascii.eqb_spec c ".") as [->|]; [discriminate | reflexivity].
Qed.

Lemma pow10_pos (n : nat) : 0 < 10 ^ Z.of_nat n.
Proof. apply Z.pow_pos_nonneg; lia. Qed.

Lemma geb_ten (ver : Decimal.t) :
  Decimal.geb ver (Decimal.of_Z 10) = true ->
  10 * 10 ^ Z.of_nat (Decimal.scale ver) <= Decimal.unscaled ver.
Proof.
  unfold Decimal.geb, Decimal.leb, Decimal.compare. cbn [Decimal.unscaled Decimal.scale Decimal.of_Z].
  change (10 ^ Z.of_nat 0) with 1. rewrite Z.mul_1_r.
  destruct (_ ?= _) eqn:Hcmp; try discriminate; intros _.
  - apply Z.compare_eq in Hcmp. now apply Z.eq_le_incl.
  - apply Z.compare_lt_iff in Hcmp. now apply Z.lt_le_incl.
Qed.


End DocsProperties.

(** ** Further properties of the hand-off *)

Section MoreHandoffProperties.

Context {aes : Cryptodome} {py : PyLib} {collation : Collation} {project : Project}.

Ltac run_m := unfold mbind, M_bind, mret, M_ret, lift, raise, get, put.

Lemma get_site_missing siteid n w :
  to_N siteid = Some n ->
  (forall s, In s (site_table w) -> site_id s <> Z.of_N n) ->
  get_site_or_404 siteid w = (site_not_found, w).
Proof.
  intros Hn Hnone. unfold get_site_or_404. run_m. rewrite Hn.
  destruct (List.filter _ _) as [|s l] eqn:Hf; [reflexivity|].
  assert (Hin : In s (List.filter (fun s => site_id s =? Z.of_N n) (site_table w)))
    by (rewrite Hf; now left).
  apply List.filter_In in Hin as [Hin Hid]. apply Z.eqb_eq in Hid.
  now destruct (Hnone s Hin).
Qed.

(** X1. A site identifier that names no site is answered with "not found" by
    every community-authentication view, before anything else happens:
    nothing is recorded and no random byte is read. *)
Theorem unknown_site_not_found clock request siteid since n w :
  to_N siteid = Some n ->
  (forall s, In s (site_table w) -> site_id s <> Z.of_N n) ->
  communityauth clock request siteid w = (site_not_found, w)
  /\ communityauth_search request siteid w = (site_not_found, w)
  /\ communityauth_getkeys request siteid since w = (site_not_found, w)
  /\ (forall u, user request = Some u ->
      communityauth_consent clock request siteid w = (site_not_found, w)).
Proof.
  intros Hn Hnone. pose proof (get_site_missing _ _ _ Hn Hnone) as Hsite.
  repeat split.
  - unfold communityauth. unfold mbind at 1. unfold M_bind at 1. now rewrite Hsite.
  - unfold communityauth_search. unfold mbind at 1. unfold M_bind at 1. now rewrite Hsite.
  - unfold communityauth_getkeys. unfold mbind at 1. unfold M_bind at 1. now rewrite Hsite.
  - intros u Hu. unfold communityauth_consent, login_required. rewrite Hu.
    unfold mbind at 1. unfold M_bind at 1. now rewrite Hsite.
Qed.


(** *** Fields of the record *)

Lemma count_join c sep (l : list string) :
  count c (join sep l)
  = (list_sum (map (count c) l) + count c sep * pred (length l))%nat.
Proof.
  induction l as [|x l IH]; [cbn; lia|].
  destruct l as [|y l]; [cbn; lia|].
  change (join sep (x :: y :: l)) with (x ^^ sep ^^ join sep (y :: l)).
  rewrite !count_append, IH. unfold list_sum. cbn [map fold_right length pred].
  rewrite Nat.mul_succ_r. lia.
Qed.

Lemma of_Z_no_separator c (z : Z) :
  is_digit c = false -> c <> "-"%char -> count c (of_Z z) = O.
Proof.
  intros Hd Hm. unfold of_Z.
  assert (Hbody : count c (digits_of (S (N.to_nat (N.log2 (Z.abs_N z)))) (Z.abs_N z) "") = O)
    by (apply (count_zero_of_forallb is_digit); [exact Hd | now apply digits_of_digits]).
  destruct (z <? 0); [|exact Hbody].
  cbn [count]. rewrite Hbody.
  destruct (Ascii.eqb_spec "-" c) as [<-|_]; [contradiction | reflexivity].
Qed.

Lemma urlencode_separators (query : list (string * string)) :
  count "&" (urlencode query) = pred (length query)
  /\ count "=" (urlencode query) = length query.
Proof.
  unfold urlencode. rewrite !count_join, !length_map.
  assert (Hitems : list_sum (map (count "&")
                     (map (fun kv => quote_plus (fst kv) "" ^^ "=" ^^ quote_plus (snd kv) "")
                        query)) = O
                   /\ list_sum (map (count "=")
                        (map (fun kv => quote_plus (fst kv) "" ^^ "=" ^^ quote_plus (snd kv) "")
                           query)) = length query).
  { induction query as [|[k v] q [IH1 IH2]]; [split; reflexivity|].
    unfold list_sum in *. cbn [map fold_right fst snd length].
    rewrite !count_append, IH1, IH2.
    destruct (quote_plus_separators k) as [-> ->].
    destruct (quote_plus_separators v) as [-> ->]. split; reflexivity. }
  destruct Hitems as [-> ->]. cbn [count]. split; cbn; lia.
Qed.

(** X3. However the user's names, addresses or payload read, the record has
    one ['&'] per field after the timestamp and one ['='] per field: no
    value can add a field to the record or cut one short. *)
Theorem record_fields_are_closed clock u se d su :
  let info := info_of u se d su in
  count "&" (serialize clock info) = length info
  /\ count "=" (serialize clock info) = S (length info)
  /\ (length info = 5%nat \/ length info = 6%nat).
Proof.
  cbv zeta.
  assert (Hlen : length (info_of u se d su) = 5%nat \/ length (info_of u se d su) = 6%nat).
  { unfold info_of. rewrite length_app. cbn [length].
    destruct (truthy d); [right; reflexivity|].
    destruct (truthy su); [right | left]; reflexivity. }
  unfold serialize. rewrite !count_append.
  destruct (urlencode_separators (info_of u se d su)) as [-> ->].
  rewrite !(of_Z_no_separator _ (time_time clock)) by (reflexivity || discriminate).
  cbn [count Ascii.eqb Bool.eqb]. cbn. repeat split; try lia. exact Hlen.
Qed.

(** *** Padding *)

Lemma times_blank n : forallb (Ascii.eqb " ") (times " " n) = true.
Proof. induction n as [|n IH]; [reflexivity | exact IH]. Qed.

Lemma pad_fills_block (n : nat) :
  (1 <= 16 - n mod 16 <= 16 /\ (n + (16 - n mod 16)) mod 16 = 0)%nat.
Proof.
  pose proof (Nat.mod_upper_bound n 16 ltac:(lia)) as Hr.
  pose proof (Nat.div_mod_eq n 16) as Hq.
  split; [lia|].
  replace (n + (16 - n mod 16))%nat with ((n / 16 + 1) * 16)%nat by lia.
  apply Nat.Div0.mod_mul.
Qed.

Lemma sealed_padding site s w iv c :
  sealed site s w iv c ->
  exists key encryptor pad,
    b64decode (cryptkey site) = Ok key
    /\ AES_new key iv = Ok encryptor
    /\ encrypt encryptor (s ^^ pad) = Ok c
    /\ forallb (Ascii.eqb " ") pad = true
    /\ (1 <= String.length pad <= 16)%nat
    /\ (String.length (s ^^ pad) mod 16 = 0)%nat.
Proof.
  intros (_ & _ & key & enc & Hkey & Henc & Hc).
  exists key, enc, (times " " (16 - String.length s mod 16)).
  destruct (pad_fills_block (String.length s)) as [Hb Hm].
  rewrite append_length, times_length.
  repeat split; auto using times_blank; lia.
Qed.


(** *** The cooloff window *)

Lemma in_cooloff_iff clock site u :
  in_cooloff clock site u = true
  <-> cooloff_hours site > 0
      /\ datetime_now clock - date_joined u < cooloff_hours site * 3600 * 1000000.
Proof.
  unfold in_cooloff, timedelta_hours. rewrite andb_true_iff, Z.gtb_lt, Z.ltb_lt. lia.
Qed.

Lemma profile_complete_iff u :
  profile_complete u = true
  <-> first_name u <> "" /\ last_name u <> "" /\ email u <> "".
Proof.
  unfold profile_complete. rewrite negb_true_iff, !orb_false_iff, !String.eqb_neq. tauto.
Qed.

(** X5. The cooloff page is the answer exactly when the profile is complete,
    the site has a positive cooloff period and the account is younger
    than that period: an account aged exactly [cooloff_hours] hours is let
    through, and so is every account on a site whose period is zero or
    negative. *)
Theorem cooloff_page_exactly_when clock request siteid site u w :
  get_site_or_404 siteid w = (Ok site, w) ->
  user request = Some u ->
  fst (communityauth clock request siteid w) = Ok (cooloff_page site)
  <-> (first_name u <> "" /\ last_name u <> "" /\ email u <> "")
      /\ cooloff_hours site > 0
      /\ datetime_now clock - date_joined u < cooloff_hours site * 3600 * 1000000.
Proof.
  intros Hsite Hu. rewrite <- profile_complete_iff, <- in_cooloff_iff.
  destruct (profile_complete u) eqn:Hp.
  - destruct (in_cooloff clock site u) eqn:Hc.
    + rewrite (communityauth_in_cooloff _ _ _ _ _ _ Hsite Hu Hp Hc). cbn [fst]. tauto.
    + split; [|intros [_ Hf]; discriminate].
      destruct (consent_missing site u w) eqn:Hm.
      * rewrite (communityauth_needs_consent _ _ _ _ _ _ Hsite Hu Hp Hc Hm). discriminate.
      * assert (Hel : eligible clock site u w = true)
          by (unfold eligible; now rewrite Hp, Hc, Hm).
        rewrite (communityauth_run _ _ _ _ _ _ Hsite Hu Hel). cbv zeta. cbn [fst].
        destruct (seal site _ _); discriminate.
  - rewrite (communityauth_noinfo _ _ _ _ _ _ Hsite Hu Hp). cbn [fst].
    split; [discriminate | intros [Hf _]; discriminate].
Qed.

(** *** What the views leave alone *)

Lemma same_records_refl w : same_records w w.
Proof. repeat split. Qed.

Lemma same_records_trans w1 w2 w3 :
  same_records w1 w2 -> same_records w2 w3 -> same_records w1 w3.
Proof.
  unfold same_records. intros (a1 & a2 & a3 & a4 & a5 & a6 & a7) (b1 & b2 & b3 & b4 & b5 & b6 & b7).
  repeat split; congruence.
Qed.

Lemma communityauth_same_records clock request siteid w :
  same_records w (snd (communityauth clock request siteid w)).
Proof.
  destruct (get_site_or_404 siteid w) as [[site|e] w0] eqn:Hsite.
  - pose proof (get_site_world _ _ _ _ Hsite) as ->.
    destruct (user request) as [u|] eqn:Hu.
    + destruct (profile_complete u) eqn:Hp;
        [|rewrite (communityauth_noinfo _ _ _ _ _ _ Hsite Hu Hp); apply same_records_refl].
      destruct (in_cooloff clock site u) eqn:Hc;
        [rewrite (communityauth_in_cooloff _ _ _ _ _ _ Hsite Hu Hp Hc); repeat split|].
      destruct (consent_missing site u w) eqn:Hm;
        [rewrite (communityauth_needs_consent _ _ _ _ _ _ Hsite Hu Hp Hc Hm);
         apply same_records_refl|].
      assert (Hel : eligible clock site u w = true)
        by (unfold eligible; now rewrite Hp, Hc, Hm).
      rewrite (communityauth_run _ _ _ _ _ _ Hsite Hu Hel). repeat split.
    + unfold communityauth. unfold mbind at 1. unfold M_bind at 1.
      rewrite Hsite. cbv iota beta. rewrite Hu. apply same_records_refl.
  - pose proof (get_site_world _ _ _ _ Hsite) as ->.
    unfold communityauth. unfold mbind at 1. unfold M_bind at 1. rewrite Hsite.
    apply same_records_refl.
Qed.

Lemma search_world request siteid w r w' :
  communityauth_search request siteid w = (r, w') -> w' = w \/ w' = advance 16 w.
Proof.
  unfold communityauth_search. unfold mbind at 1. unfold M_bind at 1.
  destruct (get_site_or_404 siteid w) as [[site|e] w0] eqn:Hsite;
    pose proof (get_site_world _ _ _ _ Hsite) as ->; [|intros [= _ <-]; now left].
  run_m. destruct (search_filter request) as [q|e]; [|intros [= _ <-]; now left].
  rewrite encrypt_site_response_run.
  destruct (seal site _ _); intros [= _ <-]; now right.
Qed.

Lemma getkeys_world request siteid since w r w' :
  communityauth_getkeys request siteid since w = (r, w') -> w' = w \/ w' = advance 16 w.
Proof.
  unfold communityauth_getkeys. unfold mbind at 1. unfold M_bind at 1.
  destruct (get_site_or_404 siteid w) as [[site|e] w0] eqn:Hsite;
    pose proof (get_site_world _ _ _ _ Hsite) as ->; [|intros [= _ <-]; now left].
  run_m. destruct (truthy since).
  - destruct (int_of_string _) as [ts|e]; [|intros [= _ <-]; now left].
    destruct (fromtimestamp ts) as [t|e]; [|intros [= _ <-]; now left].
    rewrite encrypt_site_response_run.
    destruct (seal site _ _); intros [= _ <-]; now right.
  - rewrite encrypt_site_response_run.
    destruct (seal site _ _); intros [= _ <-]; now right.
Qed.

Lemma consent_world clock request siteid w r w' :
  communityauth_consent clock request siteid w = (r, w') ->
  w' = w \/ exists c, w' = set_consent_table (consent_table w ++ [c]) w.
Proof.
  unfold communityauth_consent, login_required.
  destruct (user request) as [u|]; [|intros [= _ <-]; now left].
  unfold mbind at 1. unfold M_bind at 1.
  destruct (get_site_or_404 siteid w) as [[site|e] w0] eqn:Hsite;
    pose proof (get_site_world _ _ _ _ Hsite) as ->; [|intros [= _ <-]; now left].
  destruct (String.eqb (method request) "POST"); [|intros [= _ <-]; now left].
  destruct (consent_form_clean _ _) as [next|]; [|intros [= _ <-]; now left].
  unfold get_or_create_consent. run_m.
  destruct (consents_of (org site) u w) as [|c [|c' l]]; intros [= _ <-];
    [right; eexists; reflexivity | now left | now left].
Qed.


(** *** Hand-offs in a row *)

Lemma eligible_same_consents clock site u w w' :
  consent_table w' = consent_table w ->
  eligible clock site u w' = eligible clock site u w.
Proof.
  intros Hc. unfold eligible, consent_missing, consents_of. now rewrite Hc.
Qed.

(** X7. A user who passes every check at each of the given times is counted
    once per hand-off: after them the login count of the pair has grown
    by their number, and the random source has been read 16 bytes further
    for each. *)
Theorem repeated_handoffs_are_counted clocks request siteid site u w :
  get_site_or_404 siteid w = (Ok site, w) ->
  user request = Some u ->
  Forall (fun clock => eligible clock site u w = true) clocks ->
  let w' := handoffs clocks request siteid w in
  logincount (user_id u, site_id site) w'
  = logincount (user_id u, site_id site) w + Z.of_nat (length clocks)
  /\ random_pos w' = (random_pos w + 16 * length clocks)%nat.
Proof.
  intros Hsite Hu Hall. cbv zeta. revert w Hsite Hall.
  induction clocks as [|clock rest IH]; intros w Hsite Hall.
  - cbn [handoffs length]. split; lia.
  - inversion Hall as [|? ? Hel Hrest]; subst. cbn [handoffs length].
    pose proof (communityauth_same_records clock request siteid w)
      as (Hs & _ & _ & Hc & _).
    set (w1 := snd (communityauth clock request siteid w)) in *.
    assert (Hsite1 : get_site_or_404 siteid w1 = (Ok site, w1))
      by (now apply (get_site_stable siteid w w1)).
    assert (Hall1 : Forall (fun clock => eligible clock site u w1 = true) rest).
    { apply Forall_forall. intros c Hin. rewrite (eligible_same_consents _ _ _ _ _ Hc).
      revert c Hin. now apply Forall_forall. }
    destruct (IH w1 Hsite1 Hall1) as [Hcount Hpos]. rewrite Hcount, Hpos.
    assert (Hw1 : w1 = advance 16 (logged_in clock site u w))
      by (subst w1; now rewrite (communityauth_run _ _ _ _ _ _ Hsite Hu Hel)).
    rewrite Hw1.
    change (logincount (user_id u, site_id site) (advance 16 (logged_in clock site u w)))
      with (logincount (user_id u, site_id site) (logged_in clock site u w)).
    rewrite logincount_logged_in, decide_True by reflexivity.
    change (random_pos (advance 16 (logged_in clock site u w)))
      with (random_pos w + 16)%nat.
    split; lia.
Qed.

(** *** The consent form *)

(** X8. Consent is recorded only by a posted form that validates: a request
    with another method, or a post that does not validate, is answered
    with the form again and the world stays as it was. *)
Theorem consent_needs_a_valid_post clock request siteid site u w :
  get_site_or_404 siteid w = (Ok site, w) ->
  user request = Some u ->
  method request <> "POST"
  \/ consent_form_clean (orgname (org site)) (POST request) = None ->
  exists form, communityauth_consent clock request siteid w
               = (Ok (consent_page (org site) form), w).
Proof.
  intros Hsite Hu Hno. unfold communityauth_consent, login_required. rewrite Hu.
  unfold mbind at 1. unfold M_bind at 1. rewrite Hsite. cbv iota beta.
  destruct (String.eqb_spec (method request) "POST") as [Hm|Hm].
  - destruct Hno as [Hno|Hno]; [contradiction|]. rewrite Hno. eexists. reflexivity.
  - eexists. reflexivity.
Qed.

(** *** The user search *)

(** X9. Without a non-empty search term among [s], [e], [n] and [u] the
    search is answered with "not found": nothing is encrypted and no
    random byte is read. *)
Theorem search_needs_a_term request siteid site w :
  get_site_or_404 siteid w = (Ok site, w) ->
  given "s" request = false -> given "e" request = false ->
  given "n" request = false -> given "u" request = false ->
  communityauth_search request siteid w
  = (Raise (Http404 "No search term specified"), w).
Proof.
  intros Hsite Hs He Hn Hu.
  unfold communityauth_search. unfold mbind at 1. unfold M_bind at 1. rewrite Hsite.
  cbv iota beta. unfold search_filter. rewrite Hs, He, Hn, Hu. reflexivity.
Qed.

Lemma search_filter_active request q u :
  search_filter request = Ok q -> q u = true -> is_active u = true.
Proof.
  unfold search_filter.
  destruct (given "s" request); [intros [= <-]; now rewrite andb_true_iff|].
  destruct (given "e" request); [intros [= <-]; now rewrite andb_true_iff|].
  destruct (given "n" request); [intros [= <-]; now rewrite andb_true_iff|].
  destruct (given "u" request); [intros [= <-]; now rewrite andb_true_iff|].
  discriminate.
Qed.

Lemma given_some k request :
  given k request = true -> exists v, lookup_last k (GET request) = Some v /\ v <> "".
Proof.
  unfold given, truthy. destruct (lookup_last k (GET request)) as [v|]; [|discriminate].
  rewrite negb_true_iff, String.eqb_neq. intros Hv. now exists v.
Qed.

(** X10. The list a successful search encrypts holds users of the user table
    that are active, and nobody else; and when the username is the only
    term given, it holds exactly the active users with that very username. *)
Theorem search_lists_active_users_only request siteid w resp w' :
  communityauth_search request siteid w = (Ok resp, w') ->
  exists site users iv c,
    get_site_or_404 siteid w = (Ok site, w)
    /\ sealed site (json_dumps (JList (map (user_json w) users))) w iv c
    /\ resp = HttpResponseBody (b64encode iv dash_underscore ^^ "&"
                                ^^ b64encode c dash_underscore)
    /\ (forall u, In u users -> In u (user_table w) /\ is_active u = true)
    /\ (given "s" request = false -> given "e" request = false ->
        given "n" request = false ->
        forall u, In u users
                  <-> In u (user_table w) /\ is_active u = true
                      /\ lookup_last "u" (GET request) = Some (username u)).
Proof.
  unfold communityauth_search. unfold mbind at 1. unfold M_bind at 1.
  destruct (get_site_or_404 siteid w) as [[site|e] w0] eqn:Hsite; [|discriminate].
  pose proof (get_site_world _ _ _ _ Hsite) as ->. run_m.
  destruct (search_filter request) as [q|e] eqn:Hq; [|discriminate].
  rewrite encrypt_site_response_run.
  destruct (seal site _ _) as [c|e] eqn:Hseal; [|discriminate].
  intros [= <- <-]. exists site, (List.filter q (user_table w)), (next_random 16 w), c.
  split; [reflexivity|]. split; [apply seal_sealed; exact Hseal|]. split; [reflexivity|].
  split.
  - intros u Hin. apply List.filter_In in Hin as [Hin Hqu].
    split; [exact Hin | exact (search_filter_active _ _ _ Hq Hqu)].
  - intros Hs He Hn u. unfold search_filter in Hq. rewrite Hs, He, Hn in Hq.
    destruct (given "u" request) eqn:Hu; [|discriminate].
    injection Hq as <-. destruct (given_some _ _ Hu) as (v & Hv & _).
    rewrite List.filter_In, Hv, andb_true_iff. cbn [opt_str]. rewrite String.eqb_eq.
    split.
    + intros (Hin & Ha & ->). auto.
    + intros (Hin & Ha & [= ->]). auto.
Qed.

(** *** The key export *)

Lemma replace_char_gone c t (s : string) :
  count c t = O -> count c (replace c t s) = O.
Proof.
  intros Ht. induction s as [|a s IH]; [reflexivity|].
  cbn [replace]. rewrite count_append, IH.
  destruct (Ascii.eqb_spec a c) as [->|Hne]; [lia|].
  cbn [count]. destruct (Ascii.eqb_spec a c); [contradiction | reflexivity].
Qed.

Lemma replace_nothing_left c (s : string) :
  replace c "" (replace c "" s) = replace c "" s.
Proof.
  induction s as [|a s IH]; [reflexivity|].
  cbn [replace]. destruct (Ascii.eqb_spec a c) as [->|Hne].
  - exact IH.
  - cbn [String.append replace].
    destruct (Ascii.eqb_spec a c); [contradiction|]. cbn [String.append]. now rewrite IH.
Qed.


(** X12. Slashes in [since] are ignored: as long as something is left once
    they are taken out, the export is that for the remaining text. *)
Theorem slashes_in_since_are_ignored request siteid since w :
  replace "/" "" since <> "" ->
  communityauth_getkeys request siteid (Some since) w
  = communityauth_getkeys request siteid (Some (replace "/" "" since)) w.
Proof.
  intros Hleft.
  assert (Hs : truthy (Some since) = true).
  { cbn [truthy]. apply negb_true_iff, String.eqb_neq. intros ->. now apply Hleft. }
  assert (Hr : truthy (Some (replace "/" "" since)) = true)
    by (cbn [truthy]; now apply negb_true_iff, String.eqb_neq).
  unfold communityauth_getkeys. rewrite Hs, Hr. cbn [opt_str].
  now rewrite replace_nothing_left.
Qed.

End MoreHandoffProperties.

(** ** Decoding what was encoded *)

Lemma sextet_of_table :
  List.forallb
    (fun n => match sextet_of (translate_char ("-"%char, "_"%char) (std_char (N.of_nat n))) with
              | Some m => (m =? N.of_nat n)%N
              | None => false
              end)
    (seq 0 64) = true.
Proof. vm_compute. reflexivity. Qed.

Lemma sextet_of_std_char (n : N) :
  (n < 64)%N -> sextet_of (translate_char ("-"%char, "_"%char) (std_char n)) = Some n.
Proof.
  intros Hn.
  pose proof (proj1 (List.forallb_forall _ _) sextet_of_table (N.to_nat n)) as Ht.
  assert (Hin : In (N.to_nat n) (seq 0 64)) by (apply in_seq; lia).
  specialize (Ht Hin). cbv beta in Ht. rewrite N2Nat.id in Ht.
  destruct (sextet_of _) as [m|]; [|discriminate]. apply N.eqb_eq in Ht. now subst.
Qed.

Ltac bits :=
  repeat match goal with
    | a : ascii |- _ =>
        lazymatch goal with
        | _ : (N_of_ascii a < 256)%N |- _ => fail
        | _ => pose proof (N_ascii_bounded a)
        end
    end;
  zify; Z.quot_rem_to_equations; Z.div_mod_to_equations; lia.

Ltac decode_sextet n :=
  let H := fresh in
  assert (H : (n < 64)%N) by bits;
  rewrite (sextet_of_std_char n H);
  try rewrite (proj1 (proj2 (sextet_urlsafe n H)));
  clear H.

Lemma byte_back (a : ascii) (n : N) : n = N_of_ascii a -> ascii_of_N n = a.
Proof. intros ->. apply ascii_N_embedding. Qed.

(** The decoder undoes the encoder. *)
Lemma urlsafe_b64decode_b64encode (s : string) :
  urlsafe_b64decode (b64encode s dash_underscore) = Some s.
Proof.
  unfold b64encode, dash_underscore.
  induction s as [|a|a b|a b c r IH] using string_ind3.
  - reflexivity.
  - cbn [b2a_base64 translate urlsafe_b64decode].
    decode_sextet (N_of_ascii a / 4)%N. decode_sextet (N_of_ascii a mod 4 * 16)%N.
    cbn. f_equal. f_equal. apply byte_back. bits.
  - cbn [b2a_base64 translate urlsafe_b64decode].
    decode_sextet (N_of_ascii a / 4)%N.
    decode_sextet (N_of_ascii a mod 4 * 16 + N_of_ascii b / 16)%N.
    decode_sextet (N_of_ascii b mod 16 * 4)%N.
    cbn. f_equal. f_equal; [|f_equal]; apply byte_back; bits.
  - cbn [b2a_base64 translate urlsafe_b64decode].
    decode_sextet (N_of_ascii a / 4)%N.
    decode_sextet (N_of_ascii a mod 4 * 16 + N_of_ascii b / 16)%N.
    decode_sextet (N_of_ascii b mod 16 * 4 + N_of_ascii c / 64)%N.
    decode_sextet (N_of_ascii c mod 64)%N.
    rewrite IH. f_equal. f_equal; [|f_equal; [|f_equal]]; apply byte_back; bits.
Qed.

Lemma b64encode_injective (a b : string) :
  b64encode a dash_underscore = b64encode b dash_underscore -> a = b.
Proof.
  intros Heq. pose proof (urlsafe_b64decode_b64encode a) as Ha.
  rewrite Heq, urlsafe_b64decode_b64encode in Ha. congruence.
Qed.

Lemma b64encode_no_ampersand (s : string) : count "&" (b64encode s dash_underscore) = O.
Proof.
  apply (count_zero_of_forallb b64_out_char); [reflexivity | apply b64encode_alphabet].
Qed.

Lemma split_at_separator c (a a' b b' : string) :
  count c a = O -> count c a' = O ->
  a ^^ String c b = a' ^^ String c b' -> a = a' /\ b = b'.
Proof.
  revert a'. induction a as [|x a IH]; intros a' Ha Ha' Heq.
  - destruct a' as [|x' a']; cbn in Heq.
    + now injection Heq.
    + injection Heq as <- _. cbn [count] in Ha'. rewrite Ascii.eqb_refl in Ha'. discriminate.
  - destruct a' as [|x' a']; cbn in Heq.
    + injection Heq as -> _. cbn [count] in Ha. rewrite Ascii.eqb_refl in Ha. discriminate.
    + injection Heq as <- Heq. cbn [count] in Ha, Ha'.
      destruct (IH a') as [-> ->]; try assumption; try lia. now split.
Qed.

(** X13. The two encoded parts of an answer determine the vector and the
    ciphertext: answers that read the same were made from the same vector
    and the same ciphertext, so a partner can take them apart and decode
    them without loss. *)
Theorem answer_determines_iv_and_ciphertext (iv1 c1 iv2 c2 : string) :
  b64encode iv1 dash_underscore ^^ "&" ^^ b64encode c1 dash_underscore
  = b64encode iv2 dash_underscore ^^ "&" ^^ b64encode c2 dash_underscore ->
  iv1 = iv2 /\ c1 = c2
  /\ urlsafe_b64decode (b64encode iv1 dash_underscore) = Some iv1
  /\ urlsafe_b64decode (b64encode c1 dash_underscore) = Some c1.
Proof.
  intros Heq.
  destruct (split_at_separator "&" _ _ _ _ (b64encode_no_ampersand iv1)
              (b64encode_no_ampersand iv2) Heq) as [Hiv Hc].
  repeat split; auto using b64encode_injective, urlsafe_b64decode_b64encode.
Qed.

(** ** Numerals read back *)

Lemma digit_value_back (n : N) :
  (N_of_ascii (ascii_of_N (48 + n mod 10)) - 48 = n mod 10)%N.
Proof.
  assert (n mod 10 < 10)%N by (apply N.mod_lt; lia).
  rewrite N_ascii_embedding by lia. now rewrite N.add_comm, N.add_sub.
Qed.

Lemma digits_of_value fuel :
  forall n acc a,
    (n < 10 ^ N.of_nat fuel)%N ->
    exists k, digits_value (digits_of fuel n acc) a = digits_value acc (a * 10 ^ k + n)%N.
Proof.
  induction fuel as [|f IH]; intros n acc a Hn.
  - cbn in Hn. assert (n = 0)%N as -> by lia. exists 0%N. cbn [digits_of]. f_equal. cbn. lia.
  - cbn [digits_of]. destruct (n <? 10)%N eqn:Hsmall.
    + apply N.ltb_lt in Hsmall. exists 1%N. cbn [digits_value].
      rewrite digit_char_ok, digit_value_back, N.mod_small by lia. f_equal.
      rewrite N.pow_1_r. lia.
    + apply N.ltb_ge in Hsmall.
      assert (Hdiv : (n / 10 < 10 ^ N.of_nat f)%N).
      { apply N.Div0.div_lt_upper_bound.
        rewrite Nat2N.inj_succ, N.pow_succ_r' in Hn. exact Hn. }
      destruct (IH (n / 10)%N (String (ascii_of_N (48 + n mod 10)) acc) a Hdiv) as [k Hk].
      exists (N.succ k). rewrite Hk. cbn [digits_value].
      rewrite digit_char_ok, digit_value_back. f_equal.
      rewrite N.pow_succ_r'. pose proof (N.Div0.div_mod n 10).
      set (q := (n / 10)%N) in *. set (r := (n mod 10)%N) in *.
      set (p := (10 ^ k)%N) in *. lia.
Qed.

Lemma enough_fuel (n : N) : (n < 10 ^ N.of_nat (S (N.to_nat (N.log2 n))))%N.
Proof.
  rewrite Nat2N.inj_succ, N2Nat.id.
  destruct n as [|p]; [cbn; lia|].
  pose proof (N.log2_spec (N.pos p) ltac:(lia)) as [_ Hlt].
  eapply N.lt_le_trans; [exact Hlt|].
  apply N.pow_le_mono_l. lia.
Qed.

Lemma digits_of_nonempty fuel n acc : digits_of (S fuel) n acc <> "".
Proof.
  revert n acc. induction fuel as [|f IH]; intros n acc.
  - cbn [digits_of]. now destruct (n <? 10)%N.
  - change (digits_of (S (S f)) n acc)
      with (if (n <? 10)%N then String (ascii_of_N (48 + n mod 10)) acc
            else digits_of (S f) (n / 10)%N (String (ascii_of_N (48 + n mod 10)) acc)).
    destruct (n <? 10)%N; [discriminate | apply IH].
Qed.

(** A natural number written out and read back is the number. *)
Lemma to_N_of_Z (n : N) : to_N (of_Z (Z.of_N n)) = Some n.
Proof.
  unfold of_Z. replace (Z.of_N n <? 0) with false by (symmetry; apply Z.ltb_ge; lia).
  rewrite Zabs2N.id.
  destruct (digits_of_value _ n "" 0%N (enough_fuel n)) as [k Hk].
  unfold to_N.
  destruct (digits_of (S (N.to_nat (N.log2 n))) n "") eqn:Hd;
    [now apply digits_of_nonempty in Hd|].
  rewrite Hk. cbn [digits_value]. f_equal; lia.
Qed.

Lemma split_dot_digits (s : string) :
  forallb is_digit s = true -> Decimal.split_dot s = (s, None).
Proof.
  induction s as [|c s IH]; [reflexivity|].
  cbn [forallb Decimal.split_dot]. rewrite andb_true_iff. intros [Hc Hs]. rewrite (IH Hs).
  destruct (Ascii.eqb_spec c ".") as [->|]; [discriminate | reflexivity].
Qed.

(** A natural number written out is read as that number by [Decimal]. *)
Lemma Decimal_of_string_of_Z (n : N) :
  Decimal.of_string (of_Z (Z.of_N n)) = Some (Decimal.of_Z (Z.of_N n)).
Proof.
  pose proof (of_N_no_dot n) as Hdigits. pose proof (to_N_of_Z n) as Hval.
  unfold Decimal.of_string, to_N in *.
  destruct (of_Z (Z.of_N n)) as [|c s] eqn:Hs; [discriminate|].
  assert (Hc : is_digit c = true) by (cbn [forallb] in Hdigits; now apply andb_true_iff in Hdigits).
  assert (Hsign : (if Ascii.eqb c "-" then true else Ascii.eqb c "+") = false).
  { destruct (Ascii.eqb_spec c "-") as [->|]; [discriminate|].
    destruct (Ascii.eqb_spec c "+") as [->|]; [discriminate | reflexivity]. }
  replace (match String c s with
           | String "-" r => (true, r)
           | String "+" r => (false, r)
           | _ => (false, String c s)
           end) with (false, String c s).
  2:{ destruct (Ascii.eqb_spec c "-") as [->|Hm]; [discriminate|].
      destruct (Ascii.eqb_spec c "+") as [->|Hp]; [discriminate|].
      destruct c as [[] [] [] [] [] [] [] []]; try reflexivity; congruence. }
  rewrite (split_dot_digits _ Hdigits). cbn [String.eqb andb]. rewrite Hval.
  cbn [digits_value String.length]. unfold Decimal.of_Z. f_equal. f_equal. cbn. lia.
Qed.

(** ** Further properties of the documentation pages *)

Section MoreDocsProperties.

Context {backend : DocsBackend}.

Lemma compare_swap (a b : Decimal.t) :
  Decimal.compare b a = CompOpp (Decimal.compare a b).
Proof. unfold Decimal.compare. apply Z.compare_antisym. Qed.

Lemma not_a_keyword version ver :
  Decimal.of_string version = Some ver ->
  String.eqb version "current" = false /\ String.eqb version "devel" = false.
Proof.
  intros Hver. split; apply String.eqb_neq; intros ->; discriminate Hver.
Qed.


(** X15. A version that is a numeral for zero, however it is written, is
    answered with "Version not found" under the key [pgdocs_all]. *)
Theorem version_zero_is_not_found request version filename ver w :
  Decimal.of_string version = Some ver ->
  Decimal.unscaled ver = 0 ->
  docpage request version filename w
  = (Ok (HttpResponseNotFound "Version not found" "pgdocs_all"), w).
Proof.
  intros Hver Hzero. destruct (not_a_keyword _ _ Hver) as [Hc Hd].
  unfold docpage, resolve_version. rewrite Hc, Hd, Hver.
  assert (Heq : Decimal.eqb ver (Decimal.of_Z 0) = true)
    by (unfold Decimal.eqb, Decimal.compare; rewrite Hzero; reflexivity).
  rewrite Heq. reflexivity.
Qed.


End MoreDocsProperties.

(** ** Logging out *)

Section LogoutProperties.

Context {django : Django}.

(** X17. Logging out of a partner site involves no cipher and no payload: for
    a site that does not exist the answer is "not found" and the session
    is left alone; otherwise the visitor is sent to the partner's address
    followed by [?s=logout], an anonymous one with nothing changed and a
    logged-in one after the session has been ended. *)
Theorem logout_answer request siteid w :
  (forall n,
     to_N siteid = Some n ->
     (forall s, In s (site_table w) -> site_id s <> Z.of_N n) ->
     communityauth_logout request siteid w = (site_not_found, w))
  /\ (forall site,
        get_site_or_404 siteid w = (Ok site, w) ->
        (user request = None ->
         communityauth_logout request siteid w
         = (Ok (HttpResponseRedirect (redirecturl site ^^ "?s=logout")), w))
        /\ (forall u w1,
              user request = Some u ->
              django_logout request w = (Ok tt, w1) ->
              communityauth_logout request siteid w
              = (Ok (HttpResponseRedirect (redirecturl site ^^ "?s=logout")), w1))).
Proof.
  split.
  - intros n Hn Hnone. unfold communityauth_logout. unfold mbind at 1. unfold M_bind at 1.
    now rewrite (get_site_missing _ _ _ Hn Hnone).
  - intros site Hsite. split.
    + intros Hu. unfold communityauth_logout. unfold mbind at 1. unfold M_bind at 1.
      rewrite Hsite. cbv iota beta. rewrite Hu. reflexivity.
    + intros u w1 Hu Hout. unfold communityauth_logout. unfold mbind at 1. unfold M_bind at 1.
      rewrite Hsite. cbv iota beta. rewrite Hu. unfold mbind, M_bind. now rewrite Hout.
Qed.

End LogoutProperties.

(** ** Images of the documentation *)

Section DocsvgProperties.

Context {store : DocStore}.

(** X18. There are no images before version 12: for a numeric version above
    zero and below 12 the answer is "not found" and no page is looked up;
    for a numeral for zero it is "Version not found" under [pgdocs_all]. *)
Theorem svg_images_start_with_version_12 request version filename ver w :
  Decimal.of_string version = Some ver ->
  Decimal.ltb ver (Decimal.of_Z 12) = true ->
  (Decimal.gtb ver (Decimal.of_Z 0) = true ->
   docsvg request version filename w
   = (Raise (Http404 "SVG images don't exist in this version"), w))
  /\ (Decimal.unscaled ver = 0 ->
      docsvg request version filename w
      = (Ok (Plain (HttpResponseNotFound "Version not found" "pgdocs_all")), w)).
Proof.
  intros Hver Hlt.
  assert (Hc : String.eqb version "current" = false)
    by (apply String.eqb_neq; intros ->; discriminate Hver).
  assert (Hd : String.eqb version "devel" = false)
    by (apply String.eqb_neq; intros ->; discriminate Hver).
  split.
  - intros Hpos. unfold docsvg. rewrite Hc, Hd, Hver.
    assert (Hnz : Decimal.eqb ver (Decimal.of_Z 0) = false).
    { unfold Decimal.gtb, Decimal.ltb in Hpos. unfold Decimal.eqb, Decimal.compare in *.
      rewrite Z.compare_antisym. now destruct (_ ?= _). }
    rewrite Hnz. unfold mbind, M_bind, mret, M_ret. cbv iota beta. now rewrite Hlt, Hpos.
  - intros Hzero. unfold docsvg. rewrite Hc, Hd, Hver.
    assert (Heq : Decimal.eqb ver (Decimal.of_Z 0) = true)
      by (unfold Decimal.eqb, Decimal.compare; rewrite Hzero; reflexivity).
    rewrite Heq. reflexivity.
Qed.

End DocsvgProperties.

(** ** Template filters *)

Lemma replace_length c t (s : string) :
  (String.length (replace c t s) + count c s
   = String.length s + String.length t * count c s)%nat.
Proof.
  induction s as [|a s IH]; [cbn; lia|].
  cbn [replace count String.length]. rewrite append_length.
  destruct (Ascii.eqb a c); cbn [String.length]; lia.
Qed.

Lemma replace_absent c t (s : string) : count c s = O -> replace c t s = s.
Proof.
  induction s as [|a s IH]; [reflexivity|].
  cbn [count replace]. destruct (Ascii.eqb a c); [discriminate|].
  intros Hs. cbn [String.append]. now rewrite IH.
Qed.

(** X19. [hidemail] leaves no ['@'] in the text: each one becomes [" at "],
    which makes the text three characters longer, and a text without
    ['@'] comes back as it is. *)
Theorem hidemail_leaves_no_at (value : string) :
  count "@" (Pgfilters.hidemail value) = O
  /\ String.length (Pgfilters.hidemail value)
     = (String.length value + 3 * count "@" value)%nat
  /\ (count "@" value = O -> Pgfilters.hidemail value = value).
Proof.
  unfold Pgfilters.hidemail. split; [now apply replace_char_gone|]. split.
  - pose proof (replace_length "@" " at " value) as Hl. cbn [String.length] in Hl. lia.
  - apply replace_absent.
Qed.

Lemma split_nonempty c (s : string) : Pgfilters.split c s <> [].
Proof.
  destruct s as [|a s]; [discriminate|]. cbn [Pgfilters.split].
  destruct (Ascii.eqb a c); [discriminate|]. now destruct (Pgfilters.split c s).
Qed.

Lemma join_cons sep (x : string) (l : list string) :
  join sep (x :: l) = x ^^ match l with [] => "" | _ => sep ^^ join sep l end.
Proof. destruct l; [cbn [join]; now rewrite append_nil_r | reflexivity]. Qed.

Lemma split_parts c (s : string) :
  exists x l,
    Pgfilters.split c s = x :: l
    /\ count c x = O
    /\ s = x ^^ match l with [] => "" | _ => String c (join (String c "") l) end
    /\ (l = [] <-> count c s = O).
Proof.
  induction s as [|a s (x & l & Hsplit & Hx & Hs & Hl)].
  - exists "", []. repeat split; reflexivity.
  - cbn [Pgfilters.split count]. destruct (Ascii.eqb_spec a c) as [->|Hne].
    + exists "", (Pgfilters.split c s). rewrite Hsplit.
      repeat split; try reflexivity; try discriminate.
      cbn [String.append]. f_equal. rewrite join_cons. exact Hs.
    + rewrite Hsplit. exists (String a x), l. split; [reflexivity|]. split.
      * cbn [count]. destruct (Ascii.eqb_spec a c); [contradiction | exact Hx].
      * split; [cbn [String.append]; now f_equal | exact Hl].
Qed.

(** X20. A title is its author, and after the first colon what
    [planet_title] gives: the author never holds a colon, asking for the
    author never fails, and a title without a colon is all author. *)
Theorem planet_title_parts (title : string) :
  exists author,
    Pgfilters.planet_author title = Ok author
    /\ count ":" author = O
    /\ (count ":" title = O -> author = title /\ Pgfilters.planet_title title = "")
    /\ (count ":" title <> O -> title = author ^^ ":" ^^ Pgfilters.planet_title title).
Proof.
  destruct (split_parts ":" title) as (x & l & Hsplit & Hx & Hs & Hl).
  exists x. unfold Pgfilters.planet_author, Pgfilters.planet_title. rewrite Hsplit.
  cbn [Pgfilters.first tl]. split; [reflexivity|]. split; [exact Hx|]. split.
  - intros Hnone. apply Hl in Hnone. subst l. rewrite append_nil_r in Hs. now split.
  - intros Hsome. destruct l as [|y l]; [now destruct Hsome; apply Hl | exact Hs].
Qed.

Lemma final_app {A} (l : list A) (x : A) : Pgfilters.final (l ++ [x])%list = Ok x.
Proof.
  induction l as [|y l IH]; [reflexivity|].
  cbn [app Pgfilters.final]. destruct (l ++ [x])%list eqn:Hl; [now destruct l | exact IH].
Qed.

(** X21. [joinandor] fails on an empty list; one item comes back alone; and
    for more items the last one is set off by the given word, the others
    being joined by commas. *)
Theorem joinandor_shape (items : list string) (x andor : string) :
  Pgfilters.joinandor [] andor = Raise IndexError
  /\ Pgfilters.joinandor [x] andor = Ok x
  /\ (items <> [] ->
      Pgfilters.joinandor (items ++ [x])%list andor
      = Ok (join ", " items ^^ " " ^^ andor ^^ " " ^^ x)).
Proof.
  split; [reflexivity|]. split; [reflexivity|].
  intros Hne. unfold Pgfilters.joinandor.
  rewrite length_app. cbn [length].
  replace (length items + 1 =? 1)%nat with false.
  2:{ symmetry. apply Nat.eqb_neq. destruct items; [contradiction | cbn; lia]. }
  now rewrite final_app, removelast_last.
Qed.

(** ** Confirming a secondary address *)

Lemma filter_singleton_in {A} (p : A -> bool) (l : list A) (x : A) :
  List.filter p l = [x] -> In x l /\ p x = true /\ forall y, In y l -> p y = true -> y = x.
Proof.
  intros Hf.
  assert (Hx : In x (List.filter p l)) by (rewrite Hf; now left).
  apply List.filter_In in Hx as [Hin Hp]. repeat split; try assumption.
  intros y Hy Hpy.
  assert (Hy' : In y (List.filter p l)) by (now apply List.filter_In).
  rewrite Hf in Hy'. destruct Hy' as [<-|[]]. reflexivity.
Qed.

Lemma filter_none {A} (p : A -> bool) (l : list A) :
  (forall x, In x l -> p x = false) -> List.filter p l = [].
Proof.
  induction l as [|a l IH]; [reflexivity|]. intros Hall. cbn [List.filter].
  rewrite (Hall a) by now left. apply IH. intros x Hx. apply Hall. now right.
Qed.

(** X22. A token that belongs to exactly one address of the user confirms
    that address and nothing else: the row keeps its key, owner and
    address, loses its token and is confirmed; rows with another key stay
    as they were; the address is from then on among the confirmed
    addresses the hand-off reports; and the token, if it is not empty,
    works only once. *)
Theorem confirmation_marks_one_address request tokenhash table u addr :
  user request = Some u ->
  List.filter (fun r => (Addresses.owner r =? user_id u)
                        && String.eqb (Addresses.token r) tokenhash) table = [addr] ->
  exists table',
    Addresses.confirm_add_email request tokenhash table
    = (Ok (HttpResponseRedirect "/account/profile/"), table')
    /\ length table' = length table
    /\ In {| Addresses.row_id := Addresses.row_id addr; Addresses.owner := user_id u;
             Addresses.address := Addresses.address addr;
             Addresses.is_confirmed := true; Addresses.token := "" |} table'
    /\ (forall r, In r table -> Addresses.row_id r <> Addresses.row_id addr -> In r table')
    /\ (forall w, secondaryemail_table w = map Addresses.visible table' ->
        In (Addresses.address addr) (confirmed_emails u w))
    /\ (tokenhash <> "" ->
        Addresses.confirm_add_email request tokenhash table'
        = (Raise (Http404 "No SecondaryEmail matches the given query."), table')).
Proof.
  intros Hu Hf. destruct (filter_singleton_in _ _ _ Hf) as (Hin & Hp & Honly).
  apply andb_true_iff in Hp as [Howner Htok].
  apply Z.eqb_eq in Howner. apply String.eqb_eq in Htok.
  set (addr' := {| Addresses.row_id := Addresses.row_id addr; Addresses.owner := user_id u;
                   Addresses.address := Addresses.address addr;
                   Addresses.is_confirmed := true; Addresses.token := "" |}).
  assert (Hrun : Addresses.confirm_add_email request tokenhash table
                 = (Ok (HttpResponseRedirect "/account/profile/"), Addresses.save addr' table)).
  { unfold Addresses.confirm_add_email. rewrite Hu, Hf. subst addr'. now rewrite Howner. }
  assert (Hin' : In addr' (Addresses.save addr' table)).
  { unfold Addresses.save. apply in_map_iff. exists addr. split; [|exact Hin].
    cbn [Addresses.row_id addr']. now rewrite Z.eqb_refl. }
  exists (Addresses.save addr' table). split; [exact Hrun|].
  split; [apply length_map|]. split; [exact Hin'|]. split; [|split].
  - intros r Hr Hne. unfold Addresses.save. apply in_map_iff. exists r. split; [|exact Hr].
    cbn [Addresses.row_id addr']. apply Z.eqb_neq in Hne. now rewrite Hne.
  - intros w Hw. unfold confirmed_emails. rewrite Hw.
    change (Addresses.address addr) with (se_email (Addresses.visible addr')).
    apply in_map, List.filter_In. split; [now apply in_map|].
    cbn. now rewrite Z.eqb_refl.
  - intros Hne. unfold Addresses.confirm_add_email. rewrite Hu.
    replace (List.filter _ (Addresses.save addr' table)) with (@nil Addresses.Row);
      [reflexivity|].
    symmetry. apply filter_none. intros r Hr.
    unfold Addresses.save in Hr. apply in_map_iff in Hr as (r0 & Hr0 & Hin0).
    destruct (Addresses.row_id r0 =? Addresses.row_id addr') eqn:Hid.
    + subst r. cbn [Addresses.token Addresses.owner addr'].
      apply String.eqb_neq in Hne. rewrite String.eqb_sym in Hne.
      now rewrite Hne, andb_false_r.
    + subst r.
      destruct ((Addresses.owner r0 =? user_id u)
                && String.eqb (Addresses.token r0) tokenhash) eqn:Hmatch; [|reflexivity].
      rewrite (Honly r0 Hin0 Hmatch) in Hid. cbn [Addresses.row_id addr'] in Hid.
      now rewrite Z.eqb_refl in Hid.
Qed.

(** X23. A token is no use to anyone but the owner of its address: when no
    address of the user carries it, the answer is "not found" and the
    table is untouched, whoever else the token belongs to. *)
Theorem foreign_token_is_not_found request tokenhash table u :
  user request = Some u ->
  (forall r, In r table -> Addresses.token r = tokenhash -> Addresses.owner r <> user_id u) ->
  Addresses.confirm_add_email request tokenhash table
  = (Raise (Http404 "No SecondaryEmail matches the given query."), table).
Proof.
  intros Hu Hforeign. unfold Addresses.confirm_add_email. rewrite Hu.
  replace (List.filter _ table) with (@nil Addresses.Row); [reflexivity|].
  symmetry. apply filter_none. intros r Hr.
  destruct (String.eqb_spec (Addresses.token r) tokenhash) as [Ht|]; [|apply andb_false_r].
  apply (Hforeign r Hr) in Ht. apply Z.eqb_neq in Ht. now rewrite Ht.
Qed.

(** ** Signing up after an OAuth login *)

Lemma take_chars_count n (s : string) : (char_count (take_chars n s) <= n)%nat.
Proof.
  revert n; induction s as [|c r IH]; intros n; cbn; [lia|].
  destruct (is_continuation c) eqn:Hc.
  - cbn. rewrite Hc. apply IH.
  - destruct n as [|k]; cbn; [lia|]. rewrite Hc. specialize (IH k). lia.
Qed.

Section SignupProperties.

Context {signup : Signup}.

Lemma username_exists_free name w :
  username_exists name w
  = (Ok (List.existsb (fun u => String.eqb (username u) name) (user_table w)), w).
Proof. reflexivity. Qed.

Lemma existsb_free name w :
  List.existsb (fun u => String.eqb (username u) name) (user_table w) = false ->
  username_free name w.
Proof.
  intros H u Hu Heq.
  assert (Hex : List.existsb (fun u => String.eqb (username u) name) (user_table w) = true).
  { apply List.existsb_exists. exists u. split; [exact Hu|]. now apply String.eqb_eq. }
  congruence.
Qed.

Lemma existsb_taken name w :
  List.existsb (fun u => String.eqb (username u) name) (user_table w) = true ->
  ~ username_free name w.
Proof.
  intros H Hfree. apply List.existsb_exists in H. destruct H as [u [Hu He]].
  apply String.eqb_eq in He. exact (Hfree u Hu He).
Qed.

(** The loop stops at the first candidate that is free once cut. *)
Lemma first_free_spec names suggested w :
  exists name,
    first_free names suggested w = (Ok name, w)
    /\ ((name = suggested
         /\ Forall (fun c => ~ username_free (take_chars 30 c) w) names)
        \/ (exists before c after,
              names = (before ++ c :: after)%list
              /\ Forall (fun c => ~ username_free (take_chars 30 c) w) before
              /\ name = take_chars 30 c
              /\ username_free name w)).
Proof.
  induction names as [|c rest IH].
  - exists suggested. split; [reflexivity|]. left. split; [reflexivity|constructor].
  - cbn [first_free]. unfold mbind, M_bind. rewrite username_exists_free.
    destruct (List.existsb _ (user_table w)) eqn:Hex.
    + destruct IH as [name [Hrun Hname]]. exists name. split; [exact Hrun|].
      destruct Hname as [[Hs Hall] | [before [c' [after [Hn [Hb [Hc Hf]]]]]]].
      * left. split; [exact Hs|]. constructor; [now apply existsb_taken|exact Hall].
      * right. exists (c :: before), c', after. repeat split.
        -- now rewrite Hn.
        -- constructor; [now apply existsb_taken|exact Hb].
        -- exact Hc.
        -- exact Hf.
    + exists (take_chars 30 c). split; [reflexivity|]. right.
      exists [], c, rest. repeat split; [constructor|now apply existsb_free].
Qed.

Lemma transaction_atomic_ok {A} (body : M A) w a w' :
  body w = (Ok a, w') -> transaction_atomic body w = (Ok a, w').
Proof. intros H. unfold transaction_atomic. now rewrite H. Qed.

Lemma transaction_atomic_tables {A} (body : M A) w r w' :
  transaction_atomic body w = (r, w') ->
  (exists a, r = Ok a /\ body w = (Ok a, w')) \/ ((exists e, r = Raise e) /\ same_tables w w').
Proof.
  unfold transaction_atomic. destruct (body w) as [[a|e] w1]; intros H; inversion H; subst.
  - left. now exists a.
  - right. split; [now exists e|]. repeat split.
Qed.

(** X24. A request that does not come from an OAuth login is turned away,
    and neither the session nor the world changes. *)
Theorem oauth_signup_needs_its_session clock request (session : gmap string string) w :
  session !! "oauth_email" = None \/ session !! "oauth_firstname" = None
  \/ session !! "oauth_lastname" = None ->
  signup_oauth clock request session w
  = (Ok (HttpSimpleResponse "OAuth error" "Invalid redirect received", session), w).
Proof.
  intros H. unfold signup_oauth. apply transaction_atomic_ok.
  destruct (session !! "oauth_email"), (session !! "oauth_firstname"),
    (session !! "oauth_lastname"); try reflexivity.
  destruct H as [H | [H | H]]; discriminate.
Qed.

(** X25. Giving up the signup ([do_abort]) redirects to the page the login
    was started from, or to the front page, forgets the OAuth identity
    and that page, keeps every other key of the session and leaves the
    world as it was. *)
Theorem oauth_abort_forgets_the_login clock request (session : gmap string string)
    email firstname lastname w :
  session !! "oauth_email" = Some email ->
  session !! "oauth_firstname" = Some firstname ->
  session !! "oauth_lastname" = Some lastname ->
  method request <> "POST" ->
  contains "do_abort" (GET request) = true ->
  exists session',
    signup_oauth clock request session w
    = (Ok (SignupRedirect (match session !! "login_next" with
                           | Some url => url
                           | None => "/"
                           end), session'), w)
    /\ (forall k, In k oauth_keys -> session' !! k = None)
    /\ (forall k, ~ In k oauth_keys -> session' !! k = session !! k).
Proof.
  intros He Hf Hl Hm Ha.
  exists (delete "login_next" (clear_oauth session)). split; [|split].
  - unfold signup_oauth. apply transaction_atomic_ok. rewrite He, Hf, Hl.
    apply String.eqb_neq in Hm. rewrite Hm, Ha. unfold pop_login_next.
    unfold clear_oauth at 1. rewrite !lookup_delete_ne by discriminate. reflexivity.
  - intros k Hk. unfold oauth_keys in Hk. cbn in Hk. unfold clear_oauth.
    destruct Hk as [<- | [<- | [<- | [<- | []]]]].
    + rewrite !lookup_delete_ne by discriminate. apply lookup_delete_eq.
    + rewrite !lookup_delete_ne by discriminate. apply lookup_delete_eq.
    + rewrite lookup_delete_ne by discriminate. apply lookup_delete_eq.
    + apply lookup_delete_eq.
  - intros k Hk. unfold oauth_keys in Hk. cbn in Hk. unfold clear_oauth.
    rewrite !lookup_delete_ne; [reflexivity| | | |]; intros E; apply Hk; tauto.
Qed.


(** X27. The tables of the database change only when a valid form is
    posted and the account is created and logged in: every other
    answer, and every failure, leaves them as they were. *)
Theorem signup_changes_tables_only_on_success clock request (session : gmap string string)
    w r w' :
  signup_oauth clock request session w = (r, w') ->
  same_tables w w'
  \/ (method request = "POST"
      /\ exists url session', r = Ok (SignupRedirect url, session')).
Proof.
  intros H. unfold signup_oauth in H. apply transaction_atomic_tables in H.
  destruct H as [[a [-> H]] | [_ H]]; [|now left].
  destruct (session !! "oauth_email") as [email|];
    [|inversion H; subst; left; repeat split].
  destruct (session !! "oauth_firstname") as [firstname|];
    [|inversion H; subst; left; repeat split].
  destruct (session !! "oauth_lastname") as [lastname|];
    [|inversion H; subst; left; repeat split].
  destruct (String.eqb (method request) "POST") eqn:Hm.
  - apply String.eqb_eq in Hm.
    destruct (signup_oauth_form_clean _) as [cleaned|];
      [|inversion H; subst; left; repeat split].
    right. split; [exact Hm|].
    unfold mbind, M_bind, log_info, log_warning in H. cbn in H.
    destruct (create_account _ _ _ _ _ _ _) as [[u|e] w1]; [|discriminate].
    destruct (django_login _ _ _ _) as [[s|e] w2]; [|discriminate].
    unfold pop_login_next, mret, M_ret in H. inversion H; subst. eauto.
  - destruct (contains "do_abort" (GET request)).
    + unfold pop_login_next, mret, M_ret in H. inversion H; subst. left. repeat split.
    + unfold mbind, M_bind in H.
      unfold suggest_username in H.
      destruct (negb _ && negb _).
      * destruct (first_free_spec (candidates (str_lower firstname) (str_lower lastname))
                    (take_chars 30 (replace "@" "." email)) w) as [name [Hs _]].
        rewrite Hs in H. inversion H; subst. left. repeat split.
      * inversion H; subst. left. repeat split.
Qed.

End SignupProperties.

#[local] Existing Instance toy_cipher.
#[local] Existing Instance toy_pylib.
#[local] Existing Instance bytewise.
#[local] Existing Instance toy_project.
#[local] Existing Instance toy_backend.

(** ** The claims on the example *)

Example communityauth_incomplete_profile_example :
  communityauth noon (request_of (Some carol) []) "1" start
  = (Ok (render_pgweb "account" "account/communityauth_noinfo.html" []), start).
Proof.
  apply (communityauth_incomplete_profile noon _ "1" wiki carol start);
    [reflexivity | reflexivity | right; left; reflexivity].
Defined.

Example communityauth_cooloff_example :
  communityauth noon (request_of (Some bob) []) "1" start
  = (Ok (render_pgweb "account" "account/communityauth_cooloff.html" [("site", CtxSite wiki)]),
     snd (log_warning "User bob tried to log in to wiki before cooloff period ended." start)).
Proof.
  apply (communityauth_cooloff noon (request_of (Some bob) []) "1" wiki bob start);
    try reflexivity; discriminate.
Defined.

Example communityauth_upsert_example :
  lastlogin_table (snd (communityauth noon (request_of (Some alice) []) "1" start)) !! (1, 1)
  = Some (1700000000000000, 1)
  /\ logincount (1, 1) (snd (communityauth noon (request_of (Some alice) []) "1" start)) = 1.
Proof.
  destruct (communityauth_upsert noon (request_of (Some alice) []) "1" wiki alice start
              eq_refl eq_refl eq_refl) as (Hnew & _ & _ & Hcount & _).
  split; [apply Hnew; reflexivity | exact Hcount].
Defined.


Lemma alice_handoff :
  communityauth noon (request_of (Some alice) [("d", "abc")]) "1" start
  = (Ok (HttpResponseRedirect alice_redirect),
     snd (communityauth noon (request_of (Some alice) [("d", "abc")]) "1" start)).
Proof.
  rewrite (communityauth_run noon (request_of (Some alice) [("d", "abc")]) "1" wiki alice
             start eq_refl eq_refl eq_refl).
  reflexivity.
Defined.

Example handoff_encoding_example :
  exists iv c i d,
    alice_redirect = "https://wiki.example.org/auth_receive/" ^^ "?i=" ^^ i ^^ "&d=" ^^ d
    /\ String.length iv = 16%nat
    /\ urlsafe_padded iv i /\ urlsafe_padded c d
    /\ count "=" i = 2%nat /\ String.length i = 24%nat.
Proof.
  exact (proj1 (handoff_encoding noon (request_of (Some alice) [("d", "abc")]) "1" wiki alice
                  start alice_redirect _ eq_refl eq_refl eq_refl alice_handoff)).
Defined.

Example partner_responses_sealed_example :
  exists n s iv c,
    to_N "1" = Some n /\ site_id wiki = Z.of_N n
    /\ sealed wiki s (logged_in noon wiki alice start) iv c
    /\ alice_redirect = redirecturl wiki ^^ "?i=" ^^ b64encode iv dash_underscore
                        ^^ "&d=" ^^ b64encode c dash_underscore
    /\ random_pos (snd (communityauth noon (request_of (Some alice) [("d", "abc")]) "1" start))
       = (random_pos start + 16)%nat
    /\ random_source (snd (communityauth noon (request_of (Some alice) [("d", "abc")]) "1" start))
       = random_source start.
Proof.
  exact (proj1 (partner_responses_sealed noon (request_of (Some alice) [("d", "abc")]) "1" wiki
                  alice start alice_redirect _ eq_refl eq_refl eq_refl alice_handoff)).
Defined.

Example malformed_payload_dropped_example :
  communityauth noon (request_of (Some alice) [("d", "a b"); ("su", "/x")]) "1" start
  = communityauth noon (without_param "d" (request_of (Some alice) [("d", "a b"); ("su", "/x")]))
      "1" start.
Proof.
  apply (malformed_payload_dropped noon _ "1" start "d").
  left. split; [reflexivity|]. exists "a b". split; reflexivity.
Defined.

Example d_takes_precedence_example :
  urldata_of (param_d (request_of None [("su", "/x"); ("d", "abc")]))
    (param_su (request_of None [("su", "/x"); ("d", "abc")])) = "?d=abc".
Proof.
  apply (d_takes_precedence noon (request_of None [("su", "/x"); ("d", "abc")]) "1" start "abc");
    [reflexivity | discriminate | reflexivity].
Defined.



#[local] Existing Instance toy_django.
#[local] Existing Instance toy_store.
#[local] Existing Instance toy_signup.

(** ** The further properties on the example *)

Example unknown_site_not_found_example :
  communityauth noon (request_of (Some alice) []) "2" start = (site_not_found, start)
  /\ communityauth_search (request_of (Some alice) []) "2" start = (site_not_found, start)
  /\ communityauth_getkeys (request_of (Some alice) []) "2" None start = (site_not_found, start)
  /\ communityauth_consent noon (request_of (Some alice) []) "2" start
     = (site_not_found, start).
Proof.
  assert (Hnone : forall s, In s (site_table start) -> site_id s <> Z.of_N 2).
  { intros s [<- | []]. cbv. discriminate. }
  destruct (unknown_site_not_found noon (request_of (Some alice) []) "2" None 2%N start
              eq_refl Hnone) as (H1 & H2 & H3 & H4).
  split; [exact H1|]. split; [exact H2|]. split; [exact H3|]. exact (H4 alice eq_refl).
Defined.



Example cooloff_page_exactly_when_example :
  fst (communityauth noon (request_of (Some bob) []) "1" start) = Ok (cooloff_page wiki)
  /\ fst (communityauth noon (request_of (Some alice) []) "1" start) <> Ok (cooloff_page wiki).
Proof.
  split.
  - apply (proj2 (cooloff_page_exactly_when noon (request_of (Some bob) []) "1" wiki bob start
                    eq_refl eq_refl)).
    split; [repeat split; discriminate | split; reflexivity].
  - intros H.
    apply (proj1 (cooloff_page_exactly_when noon (request_of (Some alice) []) "1" wiki alice
                    start eq_refl eq_refl)) in H.
    destruct H as (_ & _ & Hyoung). vm_compute in Hyoung. discriminate Hyoung.
Defined.

Example repeated_handoffs_are_counted_example :
  logincount (1, 1) (handoffs [noon; later] (request_of (Some alice) []) "1" start) = 2
  /\ random_pos (handoffs [noon; later] (request_of (Some alice) []) "1" start) = 32%nat.
Proof.
  apply (repeated_handoffs_are_counted [noon; later] (request_of (Some alice) []) "1" wiki
           alice start); [reflexivity | reflexivity | repeat constructor].
Defined.

Example consent_needs_a_valid_post_example :
  exists form,
    communityauth_consent noon (request_of (Some dave) []) "1" start
    = (Ok (consent_page example_org form), start).
Proof.
  apply (consent_needs_a_valid_post noon (request_of (Some dave) []) "1" wiki dave start
           eq_refl eq_refl).
  left. discriminate.
Defined.

Example search_needs_a_term_example :
  communityauth_search (request_of None [("s", ""); ("q", "bob")]) "1" start
  = (Raise (Http404 "No search term specified"), start).
Proof.
  apply (search_needs_a_term (request_of None [("s", ""); ("q", "bob")]) "1" wiki start);
    reflexivity.
Defined.

Example search_lists_active_users_only_example :
  exists site users iv c,
    get_site_or_404 "1" start = (Ok site, start)
    /\ sealed site (json_dumps (JList (map (user_json start) users))) start iv c
    /\ "QUJDREVGR0hJSktMTU5PUA==&GjlhMWd8Z2orJSluYW5tNWN4Y2YnKSUILDIqIT0iKn4uMCRmaWZlLmtwa24PIS1ybWJhKGd8Z2oLPyIgKSs9cm1iYTcgZH1oEhc2EW1ub3A="
       = b64encode iv dash_underscore ^^ "&" ^^ b64encode c dash_underscore
    /\ (forall u, In u users
                  <-> In u (user_table start) /\ is_active u = true
                      /\ Some "bob" = Some (username u)).
Proof.
  assert (Hrun : communityauth_search (request_of None [("u", "bob")]) "1" start
                 = (Ok (HttpResponseBody "QUJDREVGR0hJSktMTU5PUA==&GjlhMWd8Z2orJSluYW5tNWN4Y2YnKSUILDIqIT0iKn4uMCRmaWZlLmtwa24PIS1ybWJhKGd8Z2oLPyIgKSs9cm1iYTcgZH1oEhc2EW1ub3A="),
                    advance 16 start)) by reflexivity.
  destruct (search_lists_active_users_only (request_of None [("u", "bob")]) "1" start _ _ Hrun)
    as (site & users & iv & c & Hsite & Hsealed & Hresp & _ & Honly).
  exists site, users, iv, c.
  split; [exact Hsite|]. split; [exact Hsealed|].
  split; [injection Hresp as Hresp; exact Hresp|].
  exact (Honly eq_refl eq_refl eq_refl).
Defined.


Example slashes_in_since_are_ignored_example :
  communityauth_getkeys (request_of None []) "1" (Some "1699/500/000") with_keys
  = communityauth_getkeys (request_of None []) "1" (Some "1699500000") with_keys.
Proof.
  apply (slashes_in_since_are_ignored (request_of None []) "1" "1699/500/000" with_keys).
  vm_compute. discriminate.
Defined.

Example answer_determines_iv_and_ciphertext_example :
  urlsafe_b64decode (b64encode "ABCDEFGHIJKLMNOP" dash_underscore) = Some "ABCDEFGHIJKLMNOP"
  /\ urlsafe_b64decode (b64encode "sixteen byte msg" dash_underscore)
     = Some "sixteen byte msg".
Proof.
  destruct (answer_determines_iv_and_ciphertext "ABCDEFGHIJKLMNOP" "sixteen byte msg"
              "ABCDEFGHIJKLMNOP" "sixteen byte msg" eq_refl) as (_ & _ & Hiv & Hc).
  exact (conj Hiv Hc).
Defined.


Example version_zero_is_not_found_example :
  docpage (request_of None []) "0.0" "index" start
  = (Ok (HttpResponseNotFound "Version not found" "pgdocs_all"), start).
Proof.
  apply (version_zero_is_not_found (request_of None []) "0.0" "index" (Decimal.mk 0 1) start);
    reflexivity.
Defined.


Example logout_answer_example :
  communityauth_logout (request_of (Some alice) []) "2" start = (site_not_found, start)
  /\ communityauth_logout (request_of None []) "1" start
     = (Ok (HttpResponseRedirect "https://wiki.example.org/auth_receive/?s=logout"), start)
  /\ communityauth_logout (request_of (Some alice) []) "1" start
     = (Ok (HttpResponseRedirect "https://wiki.example.org/auth_receive/?s=logout"), start).
Proof.
  split; [|split].
  - apply (proj1 (logout_answer (request_of (Some alice) []) "2" start) 2%N eq_refl).
    intros s [<- | []]. cbv. discriminate.
  - apply (proj1 (proj2 (logout_answer (request_of None []) "1" start) wiki eq_refl)).
    reflexivity.
  - apply (proj2 (proj2 (logout_answer (request_of (Some alice) []) "1" start) wiki eq_refl)
             alice start); reflexivity.
Defined.

Example svg_images_start_with_version_12_example :
  docsvg (request_of None []) "11" "gist" start
  = (Raise (Http404 "SVG images don't exist in this version"), start)
  /\ docsvg (request_of None []) "0.0" "gist" start
     = (Ok (Plain (HttpResponseNotFound "Version not found" "pgdocs_all")), start).
Proof.
  split.
  - apply (proj1 (svg_images_start_with_version_12 (request_of None []) "11" "gist"
                    (Decimal.mk 11 0) start eq_refl eq_refl)).
    reflexivity.
  - apply (proj2 (svg_images_start_with_version_12 (request_of None []) "0.0" "gist"
                    (Decimal.mk 0 1) start eq_refl eq_refl)).
    reflexivity.
Defined.

Example hidemail_leaves_no_at_example :
  Pgfilters.hidemail "alice at example.org" = "alice at example.org"
  /\ count "@" (Pgfilters.hidemail "alice@example.org") = O.
Proof.
  split.
  - apply (proj2 (proj2 (hidemail_leaves_no_at "alice at example.org"))). reflexivity.
  - exact (proj1 (hidemail_leaves_no_at "alice@example.org")).
Defined.

Example planet_title_parts_example :
  exists author,
    Pgfilters.planet_author "Alice: On keys: part 2" = Ok author
    /\ count ":" author = O
    /\ "Alice: On keys: part 2"
       = author ^^ ":" ^^ Pgfilters.planet_title "Alice: On keys: part 2".
Proof.
  destruct (planet_title_parts "Alice: On keys: part 2") as (author & Hauthor & Hclean & _ & Hsplit).
  exists author. split; [exact Hauthor|]. split; [exact Hclean|].
  apply Hsplit. vm_compute. discriminate.
Defined.

Example joinandor_shape_example :
  Pgfilters.joinandor ["a"; "b"; "c"] "and" = Ok "a, b and c".
Proof.
  apply (proj2 (proj2 (joinandor_shape ["a"; "b"] "c" "and"))). discriminate.
Defined.

Example confirmation_marks_one_address_example :
  exists table',
    Addresses.confirm_add_email (request_of (Some alice) []) "c0ffee" address_book
    = (Ok (HttpResponseRedirect "/account/profile/"), table')
    /\ In {| Addresses.row_id := 2; Addresses.owner := 1;
             Addresses.address := "old@example.org";
             Addresses.is_confirmed := true; Addresses.token := "" |} table'
    /\ Addresses.confirm_add_email (request_of (Some alice) []) "c0ffee" table'
       = (Raise (Http404 "No SecondaryEmail matches the given query."), table').
Proof.
  destruct (confirmation_marks_one_address (request_of (Some alice) []) "c0ffee" address_book
              alice
              {| Addresses.row_id := 2; Addresses.owner := 1;
                 Addresses.address := "old@example.org";
                 Addresses.is_confirmed := false; Addresses.token := "c0ffee" |}
              eq_refl eq_refl)
    as (table' & Hrun & _ & Hin & _ & _ & Honce).
  exists table'. split; [exact Hrun|]. split; [exact Hin|].
  apply Honce. discriminate.
Defined.

Example foreign_token_is_not_found_example :
  Addresses.confirm_add_email (request_of (Some alice) []) "decade" address_book
  = (Raise (Http404 "No SecondaryEmail matches the given query."), address_book).
Proof.
  apply (foreign_token_is_not_found (request_of (Some alice) []) "decade" address_book alice
           eq_refl).
  intros r [<- | [<- | [<- | []]]] Htoken; cbv in Htoken |- *; discriminate.
Defined.

Example oauth_signup_needs_its_session_example :
  signup_oauth noon (signup_post "erin") (<["login_next" := "/account/"]> ∅) start
  = (Ok (HttpSimpleResponse "OAuth error" "Invalid redirect received",
         <["login_next" := "/account/"]> ∅), start).
Proof.
  apply (oauth_signup_needs_its_session noon (signup_post "erin")
           (<["login_next" := "/account/"]> ∅) start).
  left. reflexivity.
Defined.

Example oauth_abort_forgets_the_login_example :
  exists session',
    signup_oauth noon (request_of None [("do_abort", "1")]) (oauth_session "Erin" "Roe") start
    = (Ok (SignupRedirect "/account/auth/1/", session'), start)
    /\ session' !! "oauth_email" = None
    /\ session' !! "theme" = Some "dark".
Proof.
  destruct (oauth_abort_forgets_the_login noon (request_of None [("do_abort", "1")])
              (oauth_session "Erin" "Roe") "Erin.Roe@Example.org" "Erin" "Roe" start
              eq_refl eq_refl eq_refl)
    as (session' & Hrun & Hgone & Hkept); [discriminate | reflexivity |].
  exists session'. split; [exact Hrun|]. split.
  - apply Hgone. left. reflexivity.
  - refine (eq_trans (Hkept "theme" _) eq_refl).
    intros [H | [H | [H | [H | []]]]]; discriminate H.
Defined.


Example signup_changes_tables_only_on_success_example :
  same_tables start
    (snd (signup_oauth noon (signup_post "Alice") (oauth_session "Erin" "Roe") start))
  /\ log (snd (signup_oauth noon (signup_post "Alice") (oauth_session "Erin" "Roe") start))
     = ["Creating user for Alice from 192.0.2.1 from oauth signin of email Erin.Roe@Example.org"].
Proof.
  split; [|reflexivity].
  assert (Hrun : signup_oauth noon (signup_post "Alice") (oauth_session "Erin" "Roe") start
                 = (Raise ValueError,
                    snd (signup_oauth noon (signup_post "Alice") (oauth_session "Erin" "Roe")
                           start))) by reflexivity.
  destruct (signup_changes_tables_only_on_success noon (signup_post "Alice")
              (oauth_session "Erin" "Roe") start _ _ Hrun)
    as [Hsame | (_ & url & session' & Hr)];
    [exact Hsame | discriminate Hr].
Defined.

(** ** Where the code departs from a statement *)

(** The vector ["ABCDEFGHIJKLMNOP"] read from the random source goes out
    as ["QUJDREVGR0hJSktMTU5PUA=="]: with its two padding characters. *)
Lemma iv_encoding_is_padded :
  b64encode "ABCDEFGHIJKLMNOP" dash_underscore = "QUJDREVGR0hJSktMTU5PUA=="
  /\ (exists d,
        fst (communityauth noon (request_of (Some alice) [("d", "abc")]) "1" start)
        = Ok (HttpResponseRedirect
                ("https://wiki.example.org/auth_receive/?i=QUJDREVGR0hJSktMTU5PUA==&d=" ^^ d)))
  /\ ~ (forall (aes : Cryptodome) (py : PyLib) site s w out w',
          _encrypt_site_response site s w = (Ok out, w') -> count "=" out = O).
Proof.
  split; [reflexivity|]. split.
  - eexists.
    rewrite (communityauth_run noon (request_of (Some alice) [("d", "abc")]) "1" wiki alice
               start eq_refl eq_refl eq_refl).
    reflexivity.
  - intros Hall.
    pose proof (Hall toy_cipher toy_pylib wiki "[]" start
                  "QUJDREVGR0hJSktMTU5PUA==&Gh9jZGVmZ2hpamtsbW5vcA==" (advance 16 start)
                  eq_refl) as Hcount.
    discriminate Hcount.
Qed.

(** A ['d'] of ["a$b"] holds a character that is not in the URL-safe
    base64 alphabet, yet it is kept: it is in the return path of the login
    form and, quoted, in the record.  The same goes for ["a.b"]. *)
Lemma payload_with_dollar_is_kept :
  forallb b64_out_char "a$b" = false
  /\ param_d (request_of None [("d", "a$b")]) = Some "a$b"
  /\ communityauth noon (request_of None [("d", "a$b")]) "1" start
     = (Ok (LoginView "account/login.html"
              [("sitename", CtxStr "wiki"); ("next", CtxStr "/account/auth/1/?d=a$b");
               ("oauth_providers", CtxSettings [])]), start)
  /\ serialize noon (info_of alice ["al@example.org"; "zoe@example.org"]
                       (param_d (request_of (Some alice) [("d", "a$b")]))
                       (param_su (request_of (Some alice) [("d", "a$b")])))
     = "t=1700000000&u=alice&f=Alice&l=Liddell&e=alice%40example.org&se=al%40example.org%2Czoe%40example.org&d=a%24b"
  /\ forallb b64_out_char "a.b" = false
  /\ param_d (request_of None [("d", "a.b")]) = Some "a.b".
Proof. repeat split; reflexivity. Qed.

(** An empty ['d'] passes the character check, and the ['su'] sent along
    with it is what the return path and the record carry. *)
Lemma empty_d_yields_to_su :
  param_d (request_of None [("d", ""); ("su", "/x")]) = Some ""
  /\ param_su (request_of None [("d", ""); ("su", "/x")]) = Some "/x"
  /\ communityauth noon (request_of None [("d", ""); ("su", "/x")]) "1" start
     = (Ok (LoginView "account/login.html"
              [("sitename", CtxStr "wiki"); ("next", CtxStr "/account/auth/1/?su=/x");
               ("oauth_providers", CtxSettings [])]), start)
  /\ info_of alice [] (param_d (request_of (Some alice) [("d", ""); ("su", "/x")]))
       (param_su (request_of (Some alice) [("d", ""); ("su", "/x")]))
     = [("u", "alice"); ("f", "Alice"); ("l", "Liddell"); ("e", "alice@example.org");
        ("se", ""); ("su", "/x")].
Proof. repeat split; reflexivity. Qed.

